(** * Auto-Analyst billing routes: a shallow embedding of the Stripe/Redis
    API handlers and the properties of their subscription and credit
    reconciliation.

  Sources embedded here:
  - [app/api/webhooks/route.ts]           (module [Webhooks])
  - [app/api/checkout-sessions/route.ts]  (module [CheckoutSessions])
  - [app/api/create-subscription/route.ts] (module [CreateSubscription])

  The handlers are [async] functions that talk to two collaborators: the
  Stripe client and the Upstash Redis client.  Both are modelled
  explicitly: the store is a pair of finite maps threaded through a small
  state-and-exception monad together with a log of every call issued,
  and Stripe is an oracle record whose answers are either a value or a
  thrown error.

  Conventions of the model.
  - The store client is a parameter of the webhook handlers: which calls
    it rejects, and what a [GET] resolves to for a stored string.  A
    statement that names no client is about the direct client, which
    answers every call and hands over what was stored.
  - Stripe answers by argument: the same request gets the same answer
    within one run of a handler.
  - Every [new Date()] / [Date.now()] takes the next reading of a clock
    given as a function from the number of readings taken so far.
  - An object literal passed to [hset] is the list of its fields; no
    literal of the sources repeats a field. *)

From Stdlib Require Import ZArith QArith Qround Lia Bool List.
From Stdlib Require Import DecimalString.
From stdpp Require Import base option gmap strings list fin_maps.

Set Warnings "-register-all".

Local Open Scope string_scope.
Local Open Scope Z_scope.

(* ===================================================================== *)
(** ** JavaScript values the handlers manipulate                         *)
(* ===================================================================== *)

Module JS.

(** Truthiness of a string: only [''] is falsy. *)
Definition truthy (s : string) : bool :=
  match s with
  | EmptyString => false
  | String _ _ => true
  end.

(** Truthiness of a possibly [null]/[undefined] string. *)
Definition truthy_opt (o : option string) : bool :=
  match o with
  | None => false
  | Some s => truthy s
  end.

(** Truthiness of a number: [0] is falsy. *)
Definition truthyZ (z : Z) : bool := negb (z =? 0).

Definition truthyZ_opt (o : option Z) : bool :=
  match o with
  | None => false
  | Some z => truthyZ z
  end.

(** [a || ''] on a possibly missing string. *)
Definition or_empty (o : option string) : string :=
  match o with
  | Some s => s
  | None => ""
  end.

(** [s.includes(sub)]. *)
Fixpoint includes (s sub : string) : bool :=
  String.prefix sub s ||
  match s with
  | EmptyString => false
  | String _ s' => includes s' sub
  end.

(** [arr.includes(x)] on an array of strings. *)
Definition array_includes (arr : list string) (x : string) : bool :=
  existsb (String.eqb x) arr.

(** [arr.join(sep)]. *)
Fixpoint join (sep : string) (arr : list string) : string :=
  match arr with
  | [] => ""
  | [x] => x
  | x :: rest => x +:+ sep +:+ join sep rest
  end.

(** The one-character string holding a double quote. *)
Definition dquote : string := String (Ascii.ascii_of_nat 34) EmptyString.

(** [String(n)] for an integer. *)
Definition String_of_Z (z : Z) : string :=
  NilZero.string_of_int (Z.to_int z).

(** JSON documents, as passed to [NextResponse.json].  [JReal] carries the
    mathematical value of a float-valued expression. *)
Inductive Json :=
| JNull
| JBool (b : bool)
| JNum (z : Z)
| JReal (q : Q)
| JStr (s : string)
| JArr (items : list Json)
| JObj (fields : list (string * Json)).

(** A [NextResponse]: HTTP status and JSON body. *)
Record Response := { status : Z; body : Json }.

(** [NextResponse.json(body)] answers with status 200. *)
Definition json (b : Json) : Response := {| status := 200; body := b |}.

(** [NextResponse.json(body, { status })]. *)
Definition json_status (b : Json) (st : Z) : Response :=
  {| status := st; body := b |}.

Definition error_body (msg : string) : Json := JObj [("error", JStr msg)].

(** [{ received: true }]. *)
Definition received : Json := JObj [("received", JBool true)].

End JS.

(* ===================================================================== *)
(** ** The key-value store                                                *)
(* ===================================================================== *)

Module Redis.

(** A JavaScript object literal handed to [hset]: fields in source order. *)
Definition Fields := list (string * string).

(** The store holds plain string keys (the customer index) and hash keys
    (the per-user records). *)
Record Store := {
  strs : gmap string string;
  hashes : gmap string (gmap string string)
}.

Definition empty : Store := {| strs := ∅; hashes := ∅ |}.

(** Key layout, from the schema document of the repository
    ([user:{userId}:subscription], [user:{userId}:credits]); the module
    [lib/redis] that exports [KEYS] is not among the sources. *)
Definition USER_SUBSCRIPTION (userId : string) : string :=
  "user:" +:+ userId +:+ ":subscription".

Definition USER_CREDITS (userId : string) : string :=
  "user:" +:+ userId +:+ ":credits".

(** The customer index key, [`stripe:customer:${customerId}`]. *)
Definition customer_key (customerId : string) : string :=
  "stripe:customer:" +:+ customerId.

(** [GET key]: the string stored under the key, if any.  What the
    handler gets to see is what the client makes of it ([Redis.revive]). *)
Definition get (k : string) (s : Store) : option string := strs s !! k.

(** [HGETALL key]: the Upstash client answers [null] for a key that holds
    no field, which is what the handlers' [!subscriptionData] guards
    test. *)
Definition hgetall (k : string) (s : Store) : option (gmap string string) :=
  match hashes s !! k with
  | None => None
  | Some h => if decide (h = ∅) then None else Some h
  end.

(** [HSET key {fields}]: the given fields overwrite, the others stay. *)
Definition hset (k : string) (fs : Fields) (s : Store) : Store :=
  {| strs := strs s;
     hashes := <[k := list_to_map fs ∪ default ∅ (hashes s !! k)]> (hashes s) |}.

(** [DEL key]. *)
Definition del (k : string) (s : Store) : Store :=
  {| strs := delete k (strs s); hashes := delete k (hashes s) |}.

(** The value of one field of a hash record, [None] when the record or
    the field is absent. *)
Definition field (k f : string) (s : Store) : option string :=
  hashes s !! k ≫= (.!! f).

(** The calls a handler can issue, as recorded by the adapter. *)
Inductive Call :=
| Get (k : string)
| HGetAll (k : string)
| HSet (k : string) (fs : Fields)
| Del (k : string).

(** The client exported by [lib/redis], which is not among the sources,
    as far as the handlers depend on it.  [rejects call] is the message
    of the error with which the promise of [call] rejects (the store is
    unreachable, the request times out), [None] when the call is
    answered.  [revive v] is what [get] resolves to for the stored string
    [v], through the two things the handlers do with it: [None] when the
    value is falsy ([!userKey]), and otherwise its [toString()].  A
    client that deserialises its replies resolves a stored ["0"],
    ["false"] or ["null"] to a falsy value. *)
Class Client := {
  rejects : Call → option string;
  revive : string → option string
}.

(** The client that answers every call and hands over a stored string as
    the string it is: the empty string is the only falsy one. *)
Definition direct : Client :=
  {| rejects := fun _ => None;
     revive := fun v => if JS.truthy v then Some v else None |}.

End Redis.

(* ===================================================================== *)
(** ** The Stripe client                                                  *)
(* ===================================================================== *)

Module Stripe.

(** What an awaited call yields: a value, or a thrown [Error] with its
    [message]. *)
Inductive Outcome (A : Type) :=
| Ok (a : A)
| Threw (message : string).
Arguments Ok {A} a.
Arguments Threw {A} message.

(** [Stripe.Subscription], the fields the routes read. *)
Record Subscription := {
  sub_id : string;
  sub_customer : string;
  sub_status : string;
  sub_created : Z;
  sub_current_period_start : option Z;
  sub_current_period_end : option Z
}.

(** [Stripe.Checkout.Session]. *)
Record CheckoutSession := { cs_id : string }.

(** [Stripe.Invoice]. *)
Record Invoice := {
  inv_id : string;
  inv_billing_reason : option string;
  inv_subscription : option string
}.

(** [Stripe.PaymentIntent]; [pi_customer] is a field of the Stripe object
    that no handler reads. *)
Record PaymentIntent := {
  pi_id : string;
  pi_customer : option string;
  pi_metadata : gmap string string
}.

(** [Stripe.SetupIntent]. *)
Record SetupIntent := {
  si_id : string;
  si_status : string;
  si_payment_method : option string;
  si_customer : option string;
  si_client_secret : option string;
  si_metadata : gmap string string
}.

(** [Stripe.Event], a union discriminated by [event.type]; [Other] stands
    for every type the webhook's [switch] has no [case] for. *)
Inductive Event :=
| CheckoutSessionCompleted (session : CheckoutSession)
| CustomerSubscriptionUpdated (subscription : Subscription)
| CustomerSubscriptionDeleted (subscription : Subscription)
| CustomerSubscriptionTrialWillEnd (subscription : Subscription)
| InvoicePaymentSucceeded (invoice : Invoice)
| InvoicePaymentFailed (invoice : Invoice)
| PaymentIntentPaymentFailed (paymentIntent : PaymentIntent)
| PaymentIntentCanceled (paymentIntent : PaymentIntent)
| SetupIntentSetupFailed (setupIntent : SetupIntent)
| PaymentIntentRequiresAction (paymentIntent : PaymentIntent)
| Other (type : string).

Record Customer := { cus_id : string }.

Record Price := {
  price_id : string;
  price_product : string;
  price_unit_amount : option Z;
  price_recurring_interval : option string
}.

Record Product := { prod_id : string; prod_name : string }.

(** [coupon.applies_to]: each restriction list may be [undefined]. *)
Record AppliesTo := {
  products : option (list string);
  prices : option (list string)
}.

Record Coupon := {
  coupon_id : string;
  amount_off : option Z;
  percent_off : option Q;
  applies_to : option AppliesTo
}.

Record PromotionCode := {
  promo_id : string;
  promo_code : string;
  promo_expires_at : option Z;
  promo_coupon : string
}.

(** [Stripe.SetupIntentCreateParams] as the setup route fills it. *)
Record SetupIntentCreateParams := {
  sic_customer : string;
  sic_payment_method_types : list string;
  sic_usage : string;
  sic_metadata : list (string * string)
}.

(** [Stripe.SubscriptionCreateParams] as the finalization route fills
    it. *)
Record SubscriptionCreateParams := {
  scp_customer : option string;
  scp_items : list string;
  scp_default_payment_method : string;
  scp_expand : list string;
  scp_discounts : option (list string)
}.

(** The client: every method answers with a value or throws.
    [round_percent u p] is [Math.round(u * (p / 100))], computed by the
    runtime in double precision and left uninterpreted. *)
Record Client := {
  webhooks_constructEvent : string -> string -> string -> Outcome Event;
  subscriptions_retrieve : string -> Outcome Subscription;
  subscriptions_cancel : string -> Outcome unit;
  subscriptions_create : SubscriptionCreateParams -> Outcome Subscription;
  customers_list : string -> Outcome (list Customer);
  customers_create : string -> Outcome Customer;
  prices_retrieve : string -> Outcome Price;
  products_retrieve : string -> Outcome Product;
  promotionCodes_list : string -> Outcome (list PromotionCode);
  coupons_retrieve : string -> Outcome Coupon;
  setupIntents_create : SetupIntentCreateParams -> Outcome SetupIntent;
  setupIntents_retrieve : string -> Outcome SetupIntent;
  round_percent : Z -> Q -> Z
}.

(** The requests sent to Stripe, as a log. *)
Inductive Call :=
| SubscriptionsRetrieve (id : string)
| SubscriptionsCancel (id : string)
| SubscriptionsCreate (params : SubscriptionCreateParams)
| CustomersList (email : string)
| CustomersCreate (email : string)
| PricesRetrieve (id : string)
| ProductsRetrieve (id : string)
| PromotionCodesList (code : string)
| CouponsRetrieve (id : string)
| SetupIntentsCreate (params : SetupIntentCreateParams)
| SetupIntentsRetrieve (id : string).

End Stripe.

(* ===================================================================== *)
(** ** Effects: the world a handler runs in                               *)
(* ===================================================================== *)

Module Eff.
Import Stripe.

(** One reading of the wall clock: [new Date().toISOString()] and
    [Date.now()] of the same instant. *)
Record Instant := { iso : string; ms : Z }.

(** The world: the store, how many times the clock was read, and the
    calls issued so far to the store and to Stripe. *)
Record World := {
  store : Redis.Store;
  ticks : nat;
  redis_calls : list Redis.Call;
  stripe_calls : list Stripe.Call
}.

(** The clock: the instant delivered at each successive reading. *)
Definition Clock := nat -> Instant.

(** Computations that read the clock, change the world and may throw. *)
Definition M (A : Type) := Clock -> World -> Outcome A * World.

Definition ret {A} (a : A) : M A := fun _ w => (Ok a, w).

Definition bind {A B} (m : M A) (k : A -> M B) : M B :=
  fun c w =>
    match m c w with
    | (Ok a, w') => k a c w'
    | (Threw e, w') => (Threw e, w')
    end.

(** [try { body } catch (err) { handler(err.message) }]: the effects of
    [body] up to the throw are kept. *)
Definition try_catch {A} (body : M A) (handler : string -> M A) : M A :=
  fun c w =>
    match body c w with
    | (Ok a, w') => (Ok a, w')
    | (Threw e, w') => handler e c w'
    end.

(** [new Date()]. *)
Definition now : M Instant :=
  fun c w =>
    (Ok (c (ticks w)),
     {| store := store w; ticks := S (ticks w);
        redis_calls := redis_calls w; stripe_calls := stripe_calls w |}).

Definition log_redis (call : Redis.Call) (w : World) : World :=
  {| store := store w; ticks := ticks w;
     redis_calls := (redis_calls w ++ [call])%list;
     stripe_calls := stripe_calls w |}.

Definition with_store (s : Redis.Store) (w : World) : World :=
  {| store := s; ticks := ticks w;
     redis_calls := redis_calls w; stripe_calls := stripe_calls w |}.

(** [await redis.get(key)]: rejected, or resolved to what the client
    makes of the stored string. *)
Definition redis_get {redis : Redis.Client} (k : string) : M (option string) :=
  fun _ w =>
    match Redis.rejects (Redis.Get k) with
    | Some message => (Threw message, log_redis (Redis.Get k) w)
    | None => (Ok (Redis.get k (store w) ≫= Redis.revive), log_redis (Redis.Get k) w)
    end.

(** [await redis.hgetall(key)]. *)
Definition redis_hgetall {redis : Redis.Client} (k : string)
  : M (option (gmap string string)) :=
  fun _ w =>
    match Redis.rejects (Redis.HGetAll k) with
    | Some message => (Threw message, log_redis (Redis.HGetAll k) w)
    | None => (Ok (Redis.hgetall k (store w)), log_redis (Redis.HGetAll k) w)
    end.

(** [await redis.hset(key, fields)]; a rejected write is taken not to
    have reached the store. *)
Definition redis_hset {redis : Redis.Client} (k : string) (fs : Redis.Fields) : M unit :=
  fun _ w =>
    match Redis.rejects (Redis.HSet k fs) with
    | Some message => (Threw message, log_redis (Redis.HSet k fs) w)
    | None =>
      (Ok tt, log_redis (Redis.HSet k fs) (with_store (Redis.hset k fs (store w)) w))
    end.

(** [await redis.del(key)]. *)
Definition redis_del {redis : Redis.Client} (k : string) : M unit :=
  fun _ w =>
    match Redis.rejects (Redis.Del k) with
    | Some message => (Threw message, log_redis (Redis.Del k) w)
    | None => (Ok tt, log_redis (Redis.Del k) (with_store (Redis.del k (store w)) w))
    end.

(** [await stripe.<method>(...)]: the request is logged, the oracle's
    answer is returned or thrown. *)
Definition stripe_call {A} (call : Stripe.Call) (answer : Outcome A) : M A :=
  fun _ w =>
    (answer,
     {| store := store w; ticks := ticks w;
        redis_calls := redis_calls w;
        stripe_calls := (stripe_calls w ++ [call])%list |}).

(** The world after [n] more readings of the clock and the Stripe requests
    [calls]. *)
Definition advance (n : nat) (calls : list Stripe.Call) (w : World) : World :=
  {| store := store w; ticks := (n + ticks w)%nat;
     redis_calls := redis_calls w;
     stripe_calls := (stripe_calls w ++ calls)%list |}.

(** A world in which nothing happened yet. *)
Definition initial (s : Redis.Store) : World :=
  {| store := s; ticks := 0; redis_calls := []; stripe_calls := [] |}.

End Eff.

Declare Scope eff_scope.
Delimit Scope eff_scope with eff.
Notation "x <- m ;; k" := (Eff.bind m (fun x => k))
  (at level 100, m at next level, right associativity) : eff_scope.
Notation "m ;;; k" := (Eff.bind m (fun _ => k))
  (at level 100, right associativity) : eff_scope.

(* ===================================================================== *)
(** ** [app/api/webhooks/route.ts]                                        *)
(* ===================================================================== *)

Module Webhooks.
Import JS Stripe Eff.
Local Open Scope eff_scope.

(** The module-level constants: [stripe] is [null] without
    [STRIPE_SECRET_KEY]; [webhookSecret] is [''] without
    [STRIPE_WEBHOOK_SECRET]. *)
Record Config := {
  stripe : option Client;
  webhookSecret : string
}.

(** The incoming request: the [stripe-signature] header and the raw body,
    whose reading ([getRawBody]) may throw. *)
Record Request := {
  stripe_signature : option string;
  raw_body : Outcome string
}.

(** [getRawBody] is the [raw_body] of the request.  The helper
    [updateUserSubscription] of the source file is called by no branch of
    [POST] and is left out. *)

Section Handlers.

(** [redis], the client imported from [lib/redis]. *)
Context {redis : Redis.Client}.

(** Modelled from the spec: [creditUtils.setZeroCredits] of [lib/redis],
    which is not among the sources.  "[zero(userId)] sets [total=0],
    [used=0], clears [resetDate], stamps [lastUpdate]"; a store failure
    "inside a handler is caught" at the handler's boundary, so the helper
    lets it through. *)
Definition setZeroCredits (userId : string) : M unit :=
  t <- now ;;
  redis_hset (Redis.USER_CREDITS userId)
    [("total", "0"); ("used", "0"); ("resetDate", ""); ("lastUpdate", iso t)].

(** [if (cond) { body }] for a body without a result. *)
Definition when (cond : bool) (body : M unit) : M unit :=
  if cond then body else ret tt.

(** [case 'checkout.session.completed'] *)
Definition on_checkout_session_completed (session : CheckoutSession) : M Response :=
  ret (json received).

(** [case 'customer.subscription.updated'].  [userKey] is [None] where
    the source finds [!userKey], and otherwise holds
    [userKey.toString()]. *)
Definition on_subscription_updated (subscription : Subscription) : M Response :=
  let customerId := sub_customer subscription in
  if negb (truthy customerId) then
    ret (json_status (error_body "No customer ID found") 400)
  else
    userKey <- redis_get (Redis.customer_key customerId) ;;
    match userKey with
    | None => ret (json received)
    | Some userId =>
      currentSubscriptionData <- redis_hgetall (Redis.USER_SUBSCRIPTION userId) ;;
      let currentStatus := currentSubscriptionData ≫= (.!! "status") in
      t0 <- now ;;
      let updateData :=
        [("status", sub_status subscription);
         ("lastUpdated", iso t0);
         ("stripeSubscriptionStatus", sub_status subscription)] in
      updateData <-
        (if bool_decide (currentStatus = Some "trialing")
            && String.eqb (sub_status subscription) "active"
         then
           t1 <- now ;;
           t2 <- now ;;
           ret (updateData ++ [("trialEndedAt", iso t1); ("trialToActiveDate", iso t2)])%list
         else ret updateData) ;;
      updateData <-
        (if String.eqb (sub_status subscription) "canceled"
         then t <- now ;; ret (updateData ++ [("canceledAt", iso t)])%list
         else ret updateData) ;;
      updateData <-
        (if String.eqb (sub_status subscription) "unpaid"
            || String.eqb (sub_status subscription) "past_due"
         then t <- now ;; ret (updateData ++ [("unpaidAt", iso t)])%list
         else ret updateData) ;;
      redis_hset (Redis.USER_SUBSCRIPTION userId) updateData ;;;
      ret (json received)
    end.

(** [case 'customer.subscription.deleted'] *)
Definition on_subscription_deleted (subscription : Subscription) : M Response :=
  let customerId := sub_customer subscription in
  if negb (truthy customerId) then
    ret (json_status (error_body "No customer ID found") 400)
  else
    userKey <- redis_get (Redis.customer_key customerId) ;;
    match userKey with
    | None => ret (json received)
    | Some userId =>
      subscriptionData <- redis_hgetall (Redis.USER_SUBSCRIPTION userId) ;;
      match subscriptionData with
      | None => ret (json received)
      | Some _ =>
        t <- now ;;
        setZeroCredits userId ;;;
        redis_hset (Redis.USER_SUBSCRIPTION userId)
          [("plan", "No Active Plan");
           ("planType", "NONE");
           ("status", "canceled");
           ("amount", "0");
           ("interval", "month");
           ("lastUpdated", iso t);
           ("canceledAt", iso t);
           ("stripeCustomerId", "");
           ("stripeSubscriptionId", "")] ;;;
        redis_hset (Redis.USER_CREDITS userId)
          [("total", "0");
           ("used", "0");
           ("resetDate", "");
           ("lastUpdate", iso t);
           ("subscriptionDeleted", "true")] ;;;
        ret (json received)
      end
    end.

(** [case 'customer.subscription.trial_will_end'] *)
Definition on_trial_will_end (subscription : Subscription) : M Response :=
  let customerId := sub_customer subscription in
  if negb (truthy customerId) then
    ret (json_status (error_body "No customer ID found") 400)
  else
    userKey <- redis_get (Redis.customer_key customerId) ;;
    match userKey with
    | None => ret (json received)
    | Some userId => ret (json received)
    end.

(** [case 'invoice.payment_succeeded'] *)
Definition on_invoice_payment_succeeded (api : Client) (invoice : Invoice) : M Response :=
  when (truthy_opt (inv_subscription invoice))
    (let subscriptionId := or_empty (inv_subscription invoice) in
     subscription <- stripe_call (SubscriptionsRetrieve subscriptionId)
                       (subscriptions_retrieve api subscriptionId) ;;
     let customerId := sub_customer subscription in
     userKey <- redis_get (Redis.customer_key customerId) ;;
     match userKey with
     | None => ret tt
     | Some userId =>
       redis_hgetall (Redis.USER_SUBSCRIPTION userId) ;;;
       if bool_decide (inv_billing_reason invoice = Some "subscription_cycle") then
         t0 <- now ;; t1 <- now ;; t2 <- now ;;
         redis_hset (Redis.USER_SUBSCRIPTION userId)
           [("status", "active");
            ("lastUpdated", iso t0);
            ("trialEndedAt", iso t1);
            ("lastPaymentDate", iso t2);
            ("stripeSubscriptionStatus", sub_status subscription)]
       else if bool_decide (inv_billing_reason invoice = Some "subscription_create") then
         t0 <- now ;; t1 <- now ;;
         redis_hset (Redis.USER_SUBSCRIPTION userId)
           [("status", sub_status subscription);
            ("lastUpdated", iso t0);
            ("initialPaymentDate", iso t1);
            ("stripeSubscriptionStatus", sub_status subscription)]
       else
         t0 <- now ;; t1 <- now ;;
         redis_hset (Redis.USER_SUBSCRIPTION userId)
           [("status", sub_status subscription);
            ("lastUpdated", iso t0);
            ("lastPaymentDate", iso t1);
            ("stripeSubscriptionStatus", sub_status subscription)]
     end) ;;;
  ret (json received).

(** [case 'invoice.payment_failed'] *)
Definition on_invoice_payment_failed (api : Client) (invoice : Invoice) : M Response :=
  when (truthy_opt (inv_subscription invoice)
        && bool_decide (inv_billing_reason invoice = Some "subscription_cycle"))
    (let subscriptionId := or_empty (inv_subscription invoice) in
     subscription <- stripe_call (SubscriptionsRetrieve subscriptionId)
                       (subscriptions_retrieve api subscriptionId) ;;
     let customerId := sub_customer subscription in
     userKey <- redis_get (Redis.customer_key customerId) ;;
     match userKey with
     | None => ret tt
     | Some userId =>
       setZeroCredits userId ;;;
       t0 <- now ;; t1 <- now ;;
       redis_hset (Redis.USER_SUBSCRIPTION userId)
         [("status", "past_due");
          ("lastUpdated", iso t0);
          ("paymentFailedAt", iso t1)]
     end) ;;;
  ret (json received).

(** [case 'payment_intent.payment_failed'] *)
Definition on_payment_intent_payment_failed (paymentIntent : PaymentIntent) : M Response :=
  when (bool_decide (pi_metadata paymentIntent !! "isTrial" = Some "true"))
    (let userId := pi_metadata paymentIntent !! "userId" in
     when (truthy_opt userId)
       (let userId := or_empty userId in
        setZeroCredits userId ;;;
        t0 <- now ;; t1 <- now ;;
        redis_hset (Redis.USER_SUBSCRIPTION userId)
          [("status", "payment_failed");
           ("lastUpdated", iso t0);
           ("paymentFailedAt", iso t1);
           ("failureReason", "Payment authorization failed during trial signup")])) ;;;
  ret (json received).

(** [case 'payment_intent.canceled'] *)
Definition on_payment_intent_canceled (paymentIntent : PaymentIntent) : M Response :=
  when (bool_decide (pi_metadata paymentIntent !! "isTrial" = Some "true"))
    (let userId := pi_metadata paymentIntent !! "userId" in
     when (truthy_opt userId)
       (let userId := or_empty userId in
        setZeroCredits userId ;;;
        t0 <- now ;; t1 <- now ;;
        redis_hset (Redis.USER_SUBSCRIPTION userId)
          [("status", "canceled");
           ("lastUpdated", iso t0);
           ("canceledAt", iso t1);
           ("cancelReason", "Payment intent canceled during trial signup")])) ;;;
  ret (json received).

(** [case 'setup_intent.setup_failed'] *)
Definition on_setup_intent_setup_failed (api : Client) (setupIntent : SetupIntent) : M Response :=
  when (bool_decide (si_metadata setupIntent !! "is_trial_setup" = Some "true"))
    (let subscriptionId := si_metadata setupIntent !! "subscription_id" in
     when (truthy_opt subscriptionId)
       (let subscriptionId := or_empty subscriptionId in
        try_catch
          (subscription <- stripe_call (SubscriptionsRetrieve subscriptionId)
                             (subscriptions_retrieve api subscriptionId) ;;
           let customerId := sub_customer subscription in
           userKey <- redis_get (Redis.customer_key customerId) ;;
           match userKey with
           | None => ret tt
           | Some userId =>
             stripe_call (SubscriptionsCancel subscriptionId)
               (subscriptions_cancel api subscriptionId) ;;;
             setZeroCredits userId ;;;
             t0 <- now ;; t1 <- now ;;
             redis_hset (Redis.USER_SUBSCRIPTION userId)
               [("status", "setup_failed");
                ("lastUpdated", iso t0);
                ("setupFailedAt", iso t1);
                ("failureReason", "Payment method setup failed during trial signup")]
           end)
          (fun _ => ret tt))) ;;;
  ret (json received).

(** [case 'payment_intent.requires_action'] *)
Definition on_payment_intent_requires_action (paymentIntent : PaymentIntent) : M Response :=
  ret (json received).

(** The [switch (event.type)] of [POST]. *)
Definition dispatch (api : Client) (event : Event) : M Response :=
  match event with
  | CheckoutSessionCompleted session => on_checkout_session_completed session
  | CustomerSubscriptionUpdated subscription => on_subscription_updated subscription
  | CustomerSubscriptionDeleted subscription => on_subscription_deleted subscription
  | CustomerSubscriptionTrialWillEnd subscription => on_trial_will_end subscription
  | InvoicePaymentSucceeded invoice => on_invoice_payment_succeeded api invoice
  | InvoicePaymentFailed invoice => on_invoice_payment_failed api invoice
  | PaymentIntentPaymentFailed paymentIntent => on_payment_intent_payment_failed paymentIntent
  | PaymentIntentCanceled paymentIntent => on_payment_intent_canceled paymentIntent
  | SetupIntentSetupFailed setupIntent => on_setup_intent_setup_failed api setupIntent
  | PaymentIntentRequiresAction paymentIntent => on_payment_intent_requires_action paymentIntent
  | Other _ => ret (json received)
  end.

(** The body of the 400 answer to a failed signature verification. *)
Definition verification_error (cfg : Config) (signature rawBody message : string) : Json :=
  JObj [("error", JStr ("Webhook Error: " +:+ message));
        ("debug", JObj [("hasSignature", JBool (truthy signature));
                        ("hasSecret", JBool (truthy (webhookSecret cfg)));
                        ("bodyLength", JNum (Z.of_nat (String.length rawBody)));
                        ("secretPrefix", JStr (String.substring 0 10 (webhookSecret cfg)))])].

(** The outer [catch (error)]: status 500 with
    [error.message || 'Webhook handler failed']. *)
Definition on_error (message : string) : M Response :=
  ret (json_status
         (error_body (if truthy message then message else "Webhook handler failed"))
         500).

(** [export async function POST(request)]. *)
Definition POST (cfg : Config) (request : Request) : M Response :=
  try_catch
    (match stripe cfg with
     | None => ret (json_status (error_body "Stripe configuration error") 500)
     | Some api =>
       if negb (truthy (webhookSecret cfg)) then
         ret (json_status (error_body "Webhook secret not configured") 500)
       else if negb (truthy_opt (stripe_signature request)) then
         ret (json_status (error_body "No Stripe signature found") 400)
       else
         let signature := or_empty (stripe_signature request) in
         match raw_body request with
         | Threw _ => ret (json_status (error_body "Failed to read request body") 400)
         | Ok rawBody =>
           match webhooks_constructEvent api rawBody signature (webhookSecret cfg) with
           | Threw message =>
             ret (json_status (verification_error cfg signature rawBody message) 400)
           | Ok event => dispatch api event
           end
         end
     end)
    on_error.

End Handlers.

End Webhooks.

(** Where a statement names no store client, it is about the direct
    one. *)
#[global] Existing Instance Redis.direct.

(* ===================================================================== *)
(** ** [app/api/checkout-sessions/route.ts]                               *)
(* ===================================================================== *)

Module CheckoutSessions.
Import JS Stripe Eff.
Local Open Scope eff_scope.

(** [stripe] is [null] without [STRIPE_SECRET_KEY]. *)
Record Config := { stripe : option Client }.

(** The parsed request body, [{ priceId, promotionCode, userId }]. *)
Record Body := {
  priceId : option string;
  promotionCode : option string;
  userId : option string
}.

(** [await request.json()] may throw. *)
Record Request := { request_json : Outcome Body }.

(** What the promotion-code block leaves behind when it does not return:
    [validatedPromotionCode], [discountAmount] and [coupon]. *)
Record Validated := {
  validatedPromotionCode : option string;
  discountAmount : Z;
  coupon : option Coupon
}.

Definition no_promotion : Validated :=
  {| validatedPromotionCode := None; discountAmount := 0; coupon := None |}.

(** [price.recurring?.interval || fallback]. *)
Definition interval_or (price : Price) (fallback : string) : string :=
  if truthy_opt (price_recurring_interval price)
  then or_empty (price_recurring_interval price)
  else fallback.

(** [price.unit_amount || 0]. *)
Definition unit_amount_or_0 (price : Price) : Z :=
  match price_unit_amount price with
  | Some a => a
  | None => 0
  end.

(** A truthy [coupon.percent_off]. *)
Definition truthy_percent (o : option Q) : bool :=
  match o with
  | Some q => negb (Qeq_bool q 0)
  | None => false
  end.

(** The [for (const allowedProductId of allowedProductIds)] loop: the names
    of the products that could be retrieved. *)
Fixpoint allowedProductNames (api : Client) (ids : list string) : M (list string) :=
  match ids with
  | [] => ret []
  | allowedProductId :: rest =>
    name <- try_catch
              (allowedProduct <- stripe_call (ProductsRetrieve allowedProductId)
                                   (products_retrieve api allowedProductId) ;;
               ret [prod_name allowedProduct])
              (fun _ => ret []) ;;
    names <- allowedProductNames api rest ;;
    ret (name ++ names)%list
  end.

(** "Check product restrictions": [Some r] when the block returns [r]. *)
Definition check_product_restrictions (api : Client) (price : Price)
    (productId : string) (appliesTo : AppliesTo) : M (option Response) :=
  match products appliesTo with
  | None => ret None
  | Some allowed =>
    if (0 <? length allowed)%nat then
      if negb (array_includes allowed productId) then
        allowedProductNames <- allowedProductNames api allowed ;;
        let errorMessage :=
          if (0 <? length allowedProductNames)%nat
          then "This promo code is valid only for "
               +:+ join " and " allowedProductNames
               +:+ " and does not apply to your selected "
               +:+ interval_or price "unknown" +:+ " plan."
          else "This promo code is not valid for the selected plan." in
        ret (Some (json_status (error_body errorMessage) 400))
      else ret None
    else ret None
  end.

(** "Check price restrictions". *)
Definition check_price_restrictions (api : Client) (price : Price)
    (priceId : string) (appliesTo : AppliesTo) : M (option Response) :=
  match prices appliesTo with
  | None => ret None
  | Some allowed =>
    if (0 <? length allowed)%nat then
      if negb (array_includes allowed priceId) then
        priceInfo <- stripe_call (PricesRetrieve priceId) (prices_retrieve api priceId) ;;
        productInfo <- stripe_call (ProductsRetrieve (price_product priceInfo))
                         (products_retrieve api (price_product priceInfo)) ;;
        let currentBillingCycle := interval_or priceInfo "unknown" in
        ret (Some (json_status
                     (error_body
                        ("This promo code is valid only for " +:+ prod_name productInfo
                         +:+ " ("
                         +:+ (if String.eqb currentBillingCycle "month"
                              then "monthly" else "yearly")
                         +:+ " billing) and does not apply to your selected "
                         +:+ interval_or price "unknown" +:+ " plan."))
                     400))
      else ret None
    else
      ret (Some (json_status
                   (error_body "This promo code is not valid for the selected billing cycle")
                   400))
  end.

(** "Calculate discount amount": the computation that [POST] carries out
    in line and that the helper [calculateDiscountAmount] of the source
    file repeats. *)
Definition calculateDiscountAmount (api : Client) (price : Price) (coupon : Coupon) : Z :=
  if truthyZ_opt (amount_off coupon) then default 0 (amount_off coupon)
  else if truthy_percent (percent_off coupon)
       then round_percent api (unit_amount_or_0 price) (default 0%Q (percent_off coupon))
       else 0.

(** The checks that follow the retrieval of the coupon. *)
Definition check_coupon (api : Client) (price : Price) (priceId productId : string)
    (promotionCodeObj : PromotionCode) (coupon : Coupon) : M (Response + Validated) :=
  let restrictions : M (option Response) :=
    match applies_to coupon with
    | None => ret None
    | Some appliesTo =>
      rejected <- check_product_restrictions api price productId appliesTo ;;
      match rejected with
      | Some r => ret (Some r)
      | None => check_price_restrictions api price priceId appliesTo
      end
    end in
  rejected <- restrictions ;;
  match rejected with
  | Some r => ret (inl r)
  | None =>
    let discountAmount := calculateDiscountAmount api price coupon in
    if discountAmount =? 0 then
      ret (inl (json_status
                  (error_body "This promo code does not provide any discount for the selected plan")
                  400))
    else
      ret (inr {| validatedPromotionCode := Some (promo_code promotionCodeObj);
                  discountAmount := discountAmount;
                  coupon := Some coupon |})
  end.

(** The [if (promotionCode) { try { ... } catch { ... } }] block: [inl r]
    when it returns the response [r] from [POST]. *)
Definition validate_promotion_code (api : Client) (price : Price)
    (priceId productId promotionCode : string) : M (Response + Validated) :=
  try_catch
    (promotionCodes <- stripe_call (PromotionCodesList promotionCode)
                         (promotionCodes_list api promotionCode) ;;
     match promotionCodes with
     | [] =>
       ret (inl (json_status
                   (error_body ("Promo code " +:+ dquote +:+ promotionCode
                                +:+ dquote +:+ " is invalid or inactive"))
                   400))
     | promotionCodeObj :: _ =>
       expired <-
         (if truthyZ_opt (promo_expires_at promotionCodeObj) then
            t <- now ;;
            ret (default 0 (promo_expires_at promotionCodeObj) <? ms t / 1000)
          else ret false) ;;
       if (expired : bool) then
         ret (inl (json_status (error_body "This promotion code has expired") 400))
       else
         retrieved <-
           try_catch
             (coupon <- stripe_call (CouponsRetrieve (promo_coupon promotionCodeObj))
                          (coupons_retrieve api (promo_coupon promotionCodeObj)) ;;
              ret (Some coupon))
             (fun _ => ret None) ;;
         match retrieved with
         | None =>
           ret (inl (json_status
                       (error_body "Failed to retrieve promotion code details") 400))
         | Some coupon => check_coupon api price priceId productId promotionCodeObj coupon
         end
     end)
    (fun _ =>
       ret (inl (json_status
                   (error_body "Failed to validate promotion code. Please try again.")
                   500))).

(** [customers.list] then, if none, [customers.create]; [None] when either
    throws. *)
Definition find_or_create_customer (api : Client) (userId : string) : M (option Customer) :=
  try_catch
    (customers <- stripe_call (CustomersList userId) (customers_list api userId) ;;
     match customers with
     | customer :: _ => ret (Some customer)
     | [] =>
       customer <- stripe_call (CustomersCreate userId) (customers_create api userId) ;;
       ret (Some customer)
     end)
    (fun _ => ret None).

Definition json_of_strings (l : list string) : Json := JArr (map JStr l).

(** [coupon.applies_to || { products: [], prices: [] }] as JSON. *)
Definition json_of_applies_to (o : option AppliesTo) : Json :=
  match o with
  | None => JObj [("products", JArr []); ("prices", JArr [])]
  | Some a =>
    JObj (match products a with
          | Some l => [("products", json_of_strings l)]
          | None => []
          end ++
          match prices a with
          | Some l => [("prices", json_of_strings l)]
          | None => []
          end)%list
  end.

(** The [promoCodeInfo] object of the response. *)
Definition promoCodeInfo (price : Price) (product : Product) (coupon : Coupon)
    (code : string) : Json :=
  JObj [("productName",
         JStr (if truthy (prod_name product) then prod_name product else "Unknown Product"));
        ("billingCycle", JStr (interval_or price "month"));
        ("discountType",
         JStr (if truthy_percent (percent_off coupon) then "percentage" else "amount"));
        ("discountValue",
         if truthy_percent (percent_off coupon)
         then JReal (Qdiv (default 0%Q (percent_off coupon)) (inject_Z 100))
         else if truthyZ_opt (amount_off coupon)
              then JReal (Qdiv (inject_Z (default 0 (amount_off coupon))) (inject_Z 100))
              else JNum 0);
        ("appliesTo", json_of_applies_to (applies_to coupon));
        ("promotionCode", JStr code)].

(** The success response. *)
Definition response (setupIntent : SetupIntent) (priceId productId : string)
    (price : Price) (product : Product) (v : Validated) : Json :=
  let code := validatedPromotionCode v in
  JObj ([("clientSecret",
          match si_client_secret setupIntent with Some s => JStr s | None => JNull end);
         ("priceId", JStr priceId);
         ("productId", JStr productId);
         ("originalAmount", JNum (unit_amount_or_0 price));
         ("discountAmount", JNum (discountAmount v));
         ("finalAmount", JNum (unit_amount_or_0 price - discountAmount v))]
        ++ (if truthy_opt code then [("promotionCode", JStr (or_empty code))] else [])
        ++ [("billingCycle", JStr (interval_or price "month"))]
        ++ (if truthy_opt code then
              match coupon v with
              | Some c => [("promoCodeInfo", promoCodeInfo price product c (or_empty code))]
              | None => []
              end
            else []))%list.

(** The [metadata] of the setup intent. *)
Definition setup_metadata (priceId userId : string) (v : Validated) : list (string * string) :=
  ([("priceId", priceId); ("userId", userId)]
   ++ (if truthy_opt (validatedPromotionCode v)
       then [("promotionCode", or_empty (validatedPromotionCode v))] else []))%list.

(** "Create Setup Intent with promo code support" and the response. *)
Definition create_setup_intent (api : Client) (priceId userId : string)
    (customer : Customer) (price : Price) (v : Validated) : M Response :=
  let productId := price_product price in
  let setupIntentParams :=
    {| sic_customer := cus_id customer;
       sic_payment_method_types := ["card"];
       sic_usage := "off_session";
       sic_metadata := setup_metadata priceId userId v |} in
  setupIntent <- stripe_call (SetupIntentsCreate setupIntentParams)
                   (setupIntents_create api setupIntentParams) ;;
  product <- stripe_call (ProductsRetrieve productId) (products_retrieve api productId) ;;
  ret (json (response setupIntent priceId productId price product v)).

(** From "Validate promotion code if provided" to the end of [POST]. *)
Definition validate_then_create (api : Client) (priceId userId : string)
    (promotionCode : option string) (customer : Customer) (price : Price) : M Response :=
  validation <-
    (if truthy_opt promotionCode
     then validate_promotion_code api price priceId (price_product price)
            (or_empty promotionCode)
     else ret (inr no_promotion)) ;;
  match validation with
  | inl r => ret r
  | inr v => create_setup_intent api priceId userId customer price v
  end.

(** The outer [catch (error)]. *)
Definition on_error (message : string) : M Response :=
  ret (json_status (error_body "Failed to create setup intent") 500).

(** [export async function POST(request)]. *)
Definition POST (cfg : Config) (request : Request) : M Response :=
  try_catch
    (match stripe cfg with
     | None => ret (json_status (error_body "Stripe is not configured") 500)
     | Some api =>
       match request_json request with
       | Threw message => fun _ w => (Threw message, w)
       | Ok b =>
         if negb (truthy_opt (priceId b)) then
           ret (json_status (error_body "Price ID is required") 400)
         else if negb (truthy_opt (userId b)) then
           ret (json_status (error_body "User ID is required") 400)
         else
           let priceId := or_empty (priceId b) in
           let userId := or_empty (userId b) in
           customer <- find_or_create_customer api userId ;;
           match customer with
           | None => ret (json_status (error_body "Failed to create customer account") 500)
           | Some customer =>
             price <- stripe_call (PricesRetrieve priceId) (prices_retrieve api priceId) ;;
             validate_then_create api priceId userId (promotionCode b) customer price
           end
       end
     end)
    on_error.

End CheckoutSessions.

(* ===================================================================== *)
(** ** [app/api/create-subscription/route.ts]                             *)
(* ===================================================================== *)

Module CreateSubscription.
Import JS Stripe Eff.
Local Open Scope eff_scope.

(** [stripe] is [null] without [STRIPE_SECRET_KEY]. *)
Record Config := { stripe : option Client }.

(** The [promoCodeInfo] object sent by the front end.  [pci_discountValue]
    is [String(promoCodeInfo.discountValue)] when that number is truthy. *)
Record PromoCodeInfo := {
  pci_promotionCode : option string;
  pci_discountValue : option string;
  pci_discountType : option string
}.

(** The parsed request body. *)
Record Body := {
  setupIntentId : option string;
  priceId : option string;
  promoCodeInfo : option PromoCodeInfo;
  promotionCode : option string
}.

(** The request: [token?.sub] as [getToken] finds it, and the body, whose
    parsing may throw. *)
Record Request := {
  token_sub : option string;
  request_json : Outcome Body
}.

(** [String(x || '')] for a possibly missing number. *)
Definition String_or_empty (o : option Z) : string :=
  if truthyZ_opt o then String_of_Z (default 0 o) else "".

(** "Determine credits based on product name". *)
Definition credits_for (name : string) : Z :=
  if truthy name && includes name "Standard" then 500
  else if truthy name && includes name "Enterprise" then 2000
  else 20.

(** The fields written to the user's credit record. *)
Definition credit_fields (credits : Z) (t : Instant) : Redis.Fields :=
  [("total", String_of_Z credits);
   ("available", String_of_Z credits);
   ("used", "0");
   ("lastReset", String_of_Z (ms t))].

(** The [subscriptionData] object. *)
Definition subscriptionData (subscription : Subscription) (priceId : string)
    (promoCodeInfo : option PromoCodeInfo) : Redis.Fields :=
  ([("id", sub_id subscription);
    ("stripeSubscriptionId", sub_id subscription);
    ("status", sub_status subscription);
    ("current_period_start", String_or_empty (sub_current_period_start subscription));
    ("current_period_end", String_or_empty (sub_current_period_end subscription));
    ("priceId", priceId);
    ("created", String_of_Z (sub_created subscription))]
   ++ match promoCodeInfo with
      | Some info =>
        [("promoCodeApplied", "true");
         ("promoCodeValue", or_empty (pci_discountValue info));
         ("promoCodeType",
          if truthy_opt (pci_discountType info)
          then or_empty (pci_discountType info) else "")]
      | None => []
      end)%list.

(** "Apply promo code if provided from frontend": the [discounts] of the
    subscription parameters. *)
Definition discounts_for (api : Client) (promoCodeInfo : option PromoCodeInfo)
  : M (option (list string)) :=
  match promoCodeInfo with
  | Some info =>
    if truthy_opt (pci_promotionCode info) then
      let code := or_empty (pci_promotionCode info) in
      promotionCodeList <- stripe_call (PromotionCodesList code)
                             (promotionCodes_list api code) ;;
      match promotionCodeList with
      | promotionCode :: _ => ret (Some [promo_coupon promotionCode])
      | [] => ret None
      end
    else ret None
  | None => ret None
  end.

(** The text of [`${setupIntent.payment_method}`]. *)
Definition show_payment_method (o : option string) : string :=
  match o with
  | Some s => s
  | None => "null"
  end.

(** "Update Redis with subscription info" and "Add credits based on
    plan": everything after the subscription was created. *)
Definition record_subscription (api : Client) (userId priceId : string)
    (promoCodeInfo : option PromoCodeInfo) (subscription : Subscription) : M Response :=
  existingSubscriptionData <- redis_hgetall (Redis.USER_SUBSCRIPTION userId) ;;
  (match existingSubscriptionData with
   | Some existing =>
     if bool_decide (0 < size existing)%nat
     then redis_del (Redis.USER_SUBSCRIPTION userId)
     else ret tt
   | None => ret tt
   end) ;;;
  redis_hset (Redis.USER_SUBSCRIPTION userId)
    (subscriptionData subscription priceId promoCodeInfo) ;;;
  price <- stripe_call (PricesRetrieve priceId) (prices_retrieve api priceId) ;;
  product <- stripe_call (ProductsRetrieve (price_product price))
               (products_retrieve api (price_product price)) ;;
  let credits := credits_for (prod_name product) in
  (if 0 <? credits then
     t <- now ;;
     redis_hset (Redis.USER_CREDITS userId) (credit_fields credits t)
   else ret tt) ;;;
  ret (json (JObj [("success", JBool true);
                   ("subscriptionId", JStr (sub_id subscription));
                   ("status", JStr (sub_status subscription));
                   ("promoCodeApplied",
                    JBool (match promoCodeInfo with Some _ => true | None => false end))])).

(** The outer [catch (error)]: status 500 with the message of the
    [Error] that was thrown. *)
Definition on_error (message : string) : M Response :=
  ret (json_status (error_body message) 500).

(** [export async function POST(request)]. *)
Definition POST (cfg : Config) (request : Request) : M Response :=
  try_catch
    (if negb (truthy_opt (token_sub request)) then
       ret (json_status (error_body "Unauthorized") 401)
     else
       match stripe cfg with
       | None => ret (json_status (error_body "Stripe not configured") 500)
       | Some api =>
         match request_json request with
         | Threw message => fun _ w => (Threw message, w)
         | Ok b =>
           if negb (truthy_opt (setupIntentId b)) || negb (truthy_opt (priceId b)) then
             ret (json_status (error_body "Missing required parameters") 400)
           else
             let setupIntentId := or_empty (setupIntentId b) in
             let priceId := or_empty (priceId b) in
             setupIntent <- stripe_call (SetupIntentsRetrieve setupIntentId)
                              (setupIntents_retrieve api setupIntentId) ;;
             if negb (String.eqb (si_status setupIntent) "succeeded")
                || negb (truthy_opt (si_payment_method setupIntent)) then
               ret (json_status
                      (error_body ("Invalid setup intent: status=" +:+ si_status setupIntent
                                   +:+ ", payment_method="
                                   +:+ show_payment_method (si_payment_method setupIntent)))
                      400)
             else
               discounts <- discounts_for api (promoCodeInfo b) ;;
               let subscriptionParams :=
                 {| scp_customer := si_customer setupIntent;
                    scp_items := [priceId];
                    scp_default_payment_method := or_empty (si_payment_method setupIntent);
                    scp_expand := ["latest_invoice.payment_intent"];
                    scp_discounts := discounts |} in
               subscription <- stripe_call (SubscriptionsCreate subscriptionParams)
                                 (subscriptions_create api subscriptionParams) ;;
               record_subscription api (or_empty (token_sub request)) priceId
                 (promoCodeInfo b) subscription
         end
       end)
    on_error.

End CreateSubscription.

(* ===================================================================== *)
(** ** Specification-side definitions and sample worlds                   *)
(* ===================================================================== *)

Module WebhookSpec.
Import JS Stripe Eff Webhooks.

(** The endpoint has its Stripe client [api] and a webhook secret. *)
Definition configured (cfg : Config) (api : Client) : Prop :=
  stripe cfg = Some api ∧ truthy (webhookSecret cfg) = true.

(** The request carries a signature that [constructEvent] accepts for the
    raw body, yielding [event]. *)
Definition verified (cfg : Config) (request : Request) (event : Event) : Prop :=
  ∃ api signature rawBody,
    configured cfg api
    ∧ stripe_signature request = Some signature
    ∧ truthy signature = true
    ∧ raw_body request = Ok rawBody
    ∧ webhooks_constructEvent api rawBody signature (webhookSecret cfg) = Ok event.

(** Verification of the request's signature fails: the endpoint is
    configured (otherwise no verification takes place), and the signature
    is missing or [constructEvent] rejects it for the raw body. *)
Definition verification_fails (cfg : Config) (request : Request) : Prop :=
  ∃ api,
    configured cfg api
    ∧ (truthy_opt (stripe_signature request) = false
       ∨ ∃ signature rawBody message,
           stripe_signature request = Some signature
           ∧ raw_body request = Ok rawBody
           ∧ webhooks_constructEvent api rawBody signature (webhookSecret cfg)
             = Threw message).

(** The [status] of a response that was produced, [None] if the handler
    threw. *)
Definition status_of (o : Outcome Response) : option Z :=
  match o with
  | Ok r => Some (status r)
  | Threw _ => None
  end.

(** The state the cancellation leaves for a user: credits zeroed and the
    subscription record reset. *)
Definition cancelled (userId : string) (s : Redis.Store) : Prop :=
  Redis.field (Redis.USER_CREDITS userId) "total" s = Some "0"
  ∧ Redis.field (Redis.USER_CREDITS userId) "used" s = Some "0"
  ∧ Redis.field (Redis.USER_CREDITS userId) "resetDate" s = Some ""
  ∧ Redis.field (Redis.USER_SUBSCRIPTION userId) "planType" s = Some "NONE"
  ∧ Redis.field (Redis.USER_SUBSCRIPTION userId) "status" s = Some "canceled"
  ∧ Redis.field (Redis.USER_SUBSCRIPTION userId) "amount" s = Some "0"
  ∧ Redis.field (Redis.USER_SUBSCRIPTION userId) "stripeCustomerId" s = Some ""
  ∧ Redis.field (Redis.USER_SUBSCRIPTION userId) "stripeSubscriptionId" s = Some "".

(** The event is one of the three subscription events and its
    [subscription.customer] is falsy. *)
Definition lacks_customer (event : Event) : bool :=
  match event with
  | CustomerSubscriptionUpdated subscription
  | CustomerSubscriptionDeleted subscription
  | CustomerSubscriptionTrialWillEnd subscription =>
    negb (truthy (sub_customer subscription))
  | _ => false
  end.

(** The subscription an invoice handler asks Stripe for, if it asks. *)
Definition invoice_lookup (event : Event) : option string :=
  match event with
  | InvoicePaymentSucceeded invoice =>
    if truthy_opt (inv_subscription invoice) then inv_subscription invoice else None
  | InvoicePaymentFailed invoice =>
    if truthy_opt (inv_subscription invoice)
       && bool_decide (inv_billing_reason invoice = Some "subscription_cycle")
    then inv_subscription invoice else None
  | _ => None
  end.

(** The invoice handler's [subscriptions.retrieve] throws [message]. *)
Definition lookup_throws (api : Client) (event : Event) : option string :=
  match invoice_lookup event with
  | Some id =>
    match subscriptions_retrieve api id with
    | Threw message => Some message
    | Ok _ => None
    end
  | None => None
  end.

(** The subscription a failed trial setup refers to. *)
Definition setup_lookup (setupIntent : SetupIntent) : option string :=
  if bool_decide (si_metadata setupIntent !! "is_trial_setup" = Some "true")
     && truthy_opt (si_metadata setupIntent !! "subscription_id")
  then si_metadata setupIntent !! "subscription_id" else None.

(** The customer id a handler looks up in the customer index: the one on
    the payload of a subscription event, the one of the retrieved
    subscription for invoice and setup-intent events.  The payment-intent
    handlers look none up. *)
Definition resolved_customer (api : Client) (event : Event) : option string :=
  match event with
  | CustomerSubscriptionUpdated subscription
  | CustomerSubscriptionDeleted subscription
  | CustomerSubscriptionTrialWillEnd subscription =>
    if truthy (sub_customer subscription) then Some (sub_customer subscription) else None
  | InvoicePaymentSucceeded _ | InvoicePaymentFailed _ =>
    match invoice_lookup event with
    | Some id =>
      match subscriptions_retrieve api id with
      | Ok subscription => Some (sub_customer subscription)
      | Threw _ => None
      end
    | None => None
    end
  | SetupIntentSetupFailed setupIntent =>
    match setup_lookup setupIntent with
    | Some id =>
      match subscriptions_retrieve api id with
      | Ok subscription => Some (sub_customer subscription)
      | Threw _ => None
      end
    | None => None
    end
  | _ => None
  end.

(** The customer id carried by the payload of an event, whether or not its
    handler reads it. *)
Definition carried_customer (event : Event) : option string :=
  match event with
  | CustomerSubscriptionUpdated subscription
  | CustomerSubscriptionDeleted subscription
  | CustomerSubscriptionTrialWillEnd subscription =>
    if truthy (sub_customer subscription) then Some (sub_customer subscription) else None
  | PaymentIntentPaymentFailed paymentIntent
  | PaymentIntentCanceled paymentIntent
  | PaymentIntentRequiresAction paymentIntent => pi_customer paymentIntent
  | SetupIntentSetupFailed setupIntent => si_customer setupIntent
  | _ => None
  end.

(** The user a subscription handler resolves for a customer id: none when
    the id is falsy, unmapped, or mapped to a falsy value. *)
Definition resolved_user (customerId : string) (s : Redis.Store) : option string :=
  if truthy customerId then
    match Redis.get (Redis.customer_key customerId) s with
    | Some userId => if truthy userId then Some userId else None
    | None => None
    end
  else None.

(** The [updateData] object that [on_subscription_updated] builds, given
    the status on the event, the stored status, the clock and the number
    of readings taken before. *)
Definition update_data (status : string) (currentStatus : option string)
    (c : Clock) (n : nat) : Redis.Fields :=
  let trial := bool_decide (currentStatus = Some "trialing") && String.eqb status "active" in
  let canceled := String.eqb status "canceled" in
  let unpaid := String.eqb status "unpaid" || String.eqb status "past_due" in
  let n1 := S n in
  let n2 := if trial then S (S n1) else n1 in
  let n3 := if canceled then S n2 else n2 in
  ([("status", status); ("lastUpdated", iso (c n)); ("stripeSubscriptionStatus", status)]
   ++ (if trial
       then [("trialEndedAt", iso (c n1)); ("trialToActiveDate", iso (c (S n1)))]
       else [])
   ++ (if canceled then [("canceledAt", iso (c n2))] else [])
   ++ (if unpaid then [("unpaidAt", iso (c n3))] else []))%list.

(** The fields of a subscription record that an update stamps from the
    clock whenever it is applied. *)
Definition restamped : list string := ["lastUpdated"; "canceledAt"; "unpaidAt"].

(** Two stores agree on the customer index, on every record other than
    the subscription record of [userId], and on every field of that
    record, the restamped fields apart. *)
Definition same_but_timestamps (userId : string) (s1 s2 : Redis.Store) : Prop :=
  Redis.strs s1 = Redis.strs s2
  ∧ (∀ k : string,
       k ≠ Redis.USER_SUBSCRIPTION userId →
       Redis.hashes s1 !! k = Redis.hashes s2 !! k)
  ∧ ∀ f : string,
      f ∉ restamped →
      Redis.field (Redis.USER_SUBSCRIPTION userId) f s1
      = Redis.field (Redis.USER_SUBSCRIPTION userId) f s2.

(** What two deliveries of an update leave: for the user the event
    resolves to, stores that differ in the restamped fields of that
    user's subscription record at most; without such a user, the same
    store. *)
Definition same_after_redelivery (user : option string) (s1 s2 : Redis.Store) : Prop :=
  match user with
  | Some userId => same_but_timestamps userId s1 s2
  | None => s2 = s1
  end.

(** Every reading of either clock shows the same instant. *)
Definition same_instant (c1 c2 : Clock) : Prop :=
  ∀ n m : nat, c1 n = c1 0%nat ∧ c2 m = c1 0%nat.

(** The user that the store client resolves a customer id to on a [GET]
    of the customer index. *)
Definition indexed {redis : Redis.Client} (customerId : string) (s : Redis.Store)
  : option string :=
  Redis.get (Redis.customer_key customerId) s ≫= Redis.revive.

(** The store answers every call. *)
Definition answers (redis : Redis.Client) : Prop :=
  ∀ call, Redis.rejects call = None.

(** The user a subscription handler resolves for a customer id through
    the store client: none when the id is falsy, or when the [GET] of
    the customer index resolves to a falsy value. *)
Definition resolved {redis : Redis.Client} (customerId : string) (s : Redis.Store)
  : option string :=
  if truthy customerId then indexed customerId s else None.

(** The call writes to the store. *)
Definition writes (call : Redis.Call) : bool :=
  match call with
  | Redis.HSet _ _ | Redis.Del _ => true
  | Redis.Get _ | Redis.HGetAll _ => false
  end.

(** The calls issued to the store between two worlds of a run. *)
Definition issued (before after : World) : list Redis.Call :=
  drop (length (redis_calls before)) (redis_calls after).

(** The message with which the store rejected the last call issued, if
    it rejected it. *)
Definition store_error {redis : Redis.Client} (before after : World) : option string :=
  last (issued before after) ≫= Redis.rejects.

(** The handler of the event keeps the errors of its calls to itself: the
    [try]/[catch] inside the [setup_intent.setup_failed] case. *)
Definition swallows (event : Event) : bool :=
  match event with
  | SetupIntentSetupFailed _ => true
  | _ => false
  end.

(** The answer of the outer [catch] to an error with [message]. *)
Definition failure (message : string) : Response :=
  json_status (error_body (if truthy message then message else "Webhook handler failed"))
    500.

(** The answer to a verified event, read off the event, Stripe's answer
    to the invoice handlers' retrieval, and the fate of the last call to
    the store. *)
Definition acknowledgement {redis : Redis.Client} (api : Client) (event : Event)
    (before after : World) : Response :=
  if lacks_customer event then json_status (error_body "No customer ID found") 400
  else
    match lookup_throws api event with
    | Some message => failure message
    | None =>
      if swallows event then json received
      else
        match store_error before after with
        | Some message => failure message
        | None => json received
        end
    end.

(** The metadata marks a payment intent of the trial flow and names its
    user. *)
Definition trial_user (paymentIntent : PaymentIntent) : option string :=
  if bool_decide (pi_metadata paymentIntent !! "isTrial" = Some "true")
     && truthy_opt (pi_metadata paymentIntent !! "userId")
  then pi_metadata paymentIntent !! "userId" else None.

(** The user and the status that the two payment-intent handlers of the
    trial flow take from the event alone. *)
Definition metadata_update (event : Event) : option (string * string) :=
  match event with
  | PaymentIntentPaymentFailed paymentIntent =>
    (λ userId, (userId, "payment_failed")) <$> trial_user paymentIntent
  | PaymentIntentCanceled paymentIntent =>
    (λ userId, (userId, "canceled")) <$> trial_user paymentIntent
  | _ => None
  end.

(** The customer ids an event involves: the one on its payload and the
    one its handler looks up in the customer index. *)
Definition customers (api : Client) (event : Event) : list string :=
  (option_list (carried_customer event) ++ option_list (resolved_customer api event))%list.

End WebhookSpec.

Module CheckoutSpec.
Import JS Stripe Eff CheckoutSessions.

(** The validation checks named by the specification. *)
Inductive Check :=
| Existence
| Expiration
| ProductRestriction
| PriceRestriction
| NonzeroDiscount.

(** "existence → expiration → product restriction → price restriction →
    computed discount must be nonzero". *)
Definition order : list Check :=
  [Existence; Expiration; ProductRestriction; PriceRestriction; NonzeroDiscount].

(** What the checks are run on: the request's price and product, the
    promotion codes Stripe lists for the code, the coupon of the first of
    them, and the instant the expiration is compared with. *)
Record Inputs := {
  in_api : Client;
  in_code : string;
  in_priceId : string;
  in_price : Price;
  in_codes : list PromotionCode;
  in_coupon : Coupon;
  in_now : Instant
}.

(** The code has an expiry that lies before the present second. *)
Definition expired (p : PromotionCode) (t : Instant) : bool :=
  truthyZ_opt (promo_expires_at p) && (default 0 (promo_expires_at p) <? ms t / 1000).

(** The products the coupon is restricted to; none when the list is
    absent. *)
Definition restricted_products (coupon : Coupon) : list string :=
  match applies_to coupon with
  | Some a => default [] (products a)
  | None => []
  end.

(** The coupon names products and the requested one is not among them. *)
Definition product_excluded (coupon : Coupon) (productId : string) : bool :=
  match restricted_products coupon with
  | [] => false
  | allowed => negb (array_includes allowed productId)
  end.

(** The coupon carries a price list, and the list is empty or lacks the
    requested price. *)
Definition price_excluded (coupon : Coupon) (priceId : string) : bool :=
  match applies_to coupon with
  | Some a =>
    match prices a with
    | Some allowed => negb (array_includes allowed priceId)
    | None => false
    end
  | None => false
  end.

(** The coupon carries a price list that is empty. *)
Definition prices_empty (coupon : Coupon) : bool :=
  match applies_to coupon with
  | Some a =>
    match prices a with
    | Some [] => true
    | _ => false
    end
  | None => false
  end.

(** Whether a check fails on the inputs. *)
Definition fails (i : Inputs) (check : Check) : bool :=
  match check with
  | Existence => match in_codes i with [] => true | _ => false end
  | Expiration => match in_codes i with p :: _ => expired p (in_now i) | [] => false end
  | ProductRestriction => product_excluded (in_coupon i) (price_product (in_price i))
  | PriceRestriction => price_excluded (in_coupon i) (in_priceId i)
  | NonzeroDiscount => calculateDiscountAmount (in_api i) (in_price i) (in_coupon i) =? 0
  end.

(** The first check of the order that fails. *)
Definition first_failing (i : Inputs) : option Check := List.find (fails i) order.

(** The checks that come before a check in the order. *)
Definition earlier (check : Check) : list Check :=
  match check with
  | Existence => []
  | Expiration => [Existence]
  | ProductRestriction => [Existence; Expiration]
  | PriceRestriction => [Existence; Expiration; ProductRestriction]
  | NonzeroDiscount => [Existence; Expiration; ProductRestriction; PriceRestriction]
  end.

(** [check] fails and every check before it in the order passes. *)
Definition fails_first (i : Inputs) (check : Check) : Prop :=
  fails i check = true ∧ Forall (fun e => fails i e = false) (earlier check).

(** The names of the products of [ids] that Stripe can retrieve. *)
Definition names_of (api : Client) (ids : list string) : list string :=
  flat_map (fun id => match products_retrieve api id with
                      | Ok product => [prod_name product]
                      | Threw _ => []
                      end) ids.

(** The message of the rejection caused by a failing check; [product] is
    the product of the requested price. *)
Definition rejection_message (i : Inputs) (product : Product) (check : Check) : string :=
  match check with
  | Existence =>
    "Promo code " +:+ dquote +:+ in_code i +:+ dquote +:+ " is invalid or inactive"
  | Expiration => "This promotion code has expired"
  | ProductRestriction =>
    let names := names_of (in_api i) (restricted_products (in_coupon i)) in
    if (0 <? length names)%nat
    then "This promo code is valid only for " +:+ join " and " names
         +:+ " and does not apply to your selected "
         +:+ interval_or (in_price i) "unknown" +:+ " plan."
    else "This promo code is not valid for the selected plan."
  | PriceRestriction =>
    if prices_empty (in_coupon i)
    then "This promo code is not valid for the selected billing cycle"
    else "This promo code is valid only for " +:+ prod_name product
         +:+ " ("
         +:+ (if String.eqb (interval_or (in_price i) "unknown") "month"
              then "monthly" else "yearly")
         +:+ " billing) and does not apply to your selected "
         +:+ interval_or (in_price i) "unknown" +:+ " plan."
  | NonzeroDiscount =>
    "This promo code does not provide any discount for the selected plan"
  end.

(** The rejection itself. *)
Definition rejection (i : Inputs) (product : Product) (check : Check) : Response :=
  json_status (error_body (rejection_message i product check)) 400.

(** The requests the validation sends to Stripe up to the rejection by a
    check. *)
Definition rejection_calls (i : Inputs) (check : Check) : list Stripe.Call :=
  PromotionCodesList (in_code i) ::
  match check with
  | Existence | Expiration => []
  | ProductRestriction =>
    match in_codes i with
    | p :: _ => [CouponsRetrieve (promo_coupon p)]
    | [] => []
    end ++ map ProductsRetrieve (restricted_products (in_coupon i))
  | PriceRestriction =>
    match in_codes i with
    | p :: _ => [CouponsRetrieve (promo_coupon p)]
    | [] => []
    end ++
    (if prices_empty (in_coupon i) then []
     else [PricesRetrieve (in_priceId i); ProductsRetrieve (price_product (in_price i))])
  | NonzeroDiscount =>
    match in_codes i with
    | p :: _ => [CouponsRetrieve (promo_coupon p)]
    | [] => []
    end
  end.

(** The requests by which the route finds or creates the customer. *)
Definition customer_calls (api : Client) (userId : string) : list Stripe.Call :=
  match customers_list api userId with
  | Ok [] => [CustomersList userId; CustomersCreate userId]
  | _ => [CustomersList userId]
  end.

(** Stripe has, or can create, a customer for the user. *)
Definition customer_found (api : Client) (userId : string) (customer : Customer) : Prop :=
  (∃ rest, customers_list api userId = Ok (customer :: rest))
  ∨ (customers_list api userId = Ok [] ∧ customers_create api userId = Ok customer).

(** The request reaches the validation of its promotion code: the route
    is configured, the body names a price, a user and a code, and Stripe
    answers for the customer and the price. *)
Definition validating (cfg : Config) (request : Request) (api : Client)
    (priceId userId code : string) (customer : Customer) (price : Price) : Prop :=
  stripe cfg = Some api
  ∧ request_json request =
      Ok {| priceId := Some priceId; promotionCode := Some code; userId := Some userId |}
  ∧ truthy priceId = true
  ∧ truthy userId = true
  ∧ truthy code = true
  ∧ customer_found api userId customer
  ∧ prices_retrieve api priceId = Ok price.

(** Stripe resolves the code to the inputs' promotion codes and, for the
    first of them, to the inputs' coupon; the clock shows the inputs'
    instant. *)
Definition resolves (api : Client) (code priceId : string) (price : Price)
    (t : Instant) (i : Inputs) : Prop :=
  in_api i = api ∧ in_code i = code ∧ in_priceId i = priceId ∧ in_price i = price
  ∧ in_now i = t
  ∧ promotionCodes_list api code = Ok (in_codes i)
  ∧ ∀ p rest, in_codes i = p :: rest →
      coupons_retrieve api (promo_coupon p) = Ok (in_coupon i).

(** The answer to a promotion code whose validation threw: the [catch]
    of the validation block. *)
Definition validation_failure : Response :=
  json_status (error_body "Failed to validate promotion code. Please try again.") 500.

(** The rejection by the check cannot be worded: the price check fails
    on a list of prices that is not empty, its message names the product
    of the requested price, and the retrieval of that product throws. *)
Definition message_fails (i : Inputs) (check : Check) : bool :=
  match check with
  | PriceRestriction =>
    negb (prices_empty (in_coupon i))
    && match products_retrieve (in_api i) (price_product (in_price i)) with
       | Threw _ => true
       | Ok _ => false
       end
  | _ => false
  end.

(** The product of the requested price, as Stripe returns it. *)
Definition named_product (i : Inputs) : Product :=
  match products_retrieve (in_api i) (price_product (in_price i)) with
  | Ok product => product
  | Threw _ => {| prod_id := ""; prod_name := "" |}
  end.

(** The answer to a code whose first failing check is [check]. *)
Definition verdict (i : Inputs) (check : Check) : Response :=
  if message_fails i check then validation_failure
  else rejection i (named_product i) check.

(** What the validation leaves behind when no check fails. *)
Definition validated (p : PromotionCode) (i : Inputs) : Validated :=
  {| validatedPromotionCode := Some (promo_code p);
     discountAmount := calculateDiscountAmount (in_api i) (in_price i) (in_coupon i);
     coupon := Some (in_coupon i) |}.

(** No request of the list creates a setup intent. *)
Definition no_setup_intent (calls : list Stripe.Call) : Prop :=
  ∀ params, SetupIntentsCreate params ∉ calls.

(** The status of a response that was produced. *)
Definition status_of (o : Outcome Response) : option Z :=
  match o with
  | Ok r => Some (status r)
  | Threw _ => None
  end.

End CheckoutSpec.

Module FinalizeSpec.
Import JS Stripe Eff CreateSubscription.

(** The request is authenticated as [userId], the route is configured, the
    body names the setup intent and a price, and Stripe returns the setup
    intent. *)
Definition finalizing (cfg : Config) (request : Request) (api : Client)
    (userId setupIntentId priceId : string) (info : option PromoCodeInfo)
    (setupIntent : SetupIntent) : Prop :=
  token_sub request = Some userId
  ∧ truthy userId = true
  ∧ stripe cfg = Some api
  ∧ truthy setupIntentId = true
  ∧ truthy priceId = true
  ∧ (∃ code,
       request_json request =
         Ok {| setupIntentId := Some setupIntentId; priceId := Some priceId;
               promoCodeInfo := info; promotionCode := code |})
  ∧ setupIntents_retrieve api setupIntentId = Ok setupIntent.

(** The setup intent succeeded and has a payment method attached. *)
Definition ready (setupIntent : SetupIntent) : bool :=
  String.eqb (si_status setupIntent) "succeeded"
  && truthy_opt (si_payment_method setupIntent).

(** The coupon that a promotion code sent by the front end resolves to;
    the lookup may throw. *)
Definition discounts_of (api : Client) (info : option PromoCodeInfo)
  : Outcome (option (list string)) :=
  match info with
  | Some info =>
    if truthy_opt (pci_promotionCode info) then
      match promotionCodes_list api (or_empty (pci_promotionCode info)) with
      | Ok (promotionCode :: _) => Ok (Some [promo_coupon promotionCode])
      | Ok [] => Ok None
      | Threw message => Threw message
      end
    else Ok None
  | None => Ok None
  end.

(** The parameters of the subscription the route asks Stripe to create. *)
Definition subscription_params (setupIntent : SetupIntent) (priceId : string)
    (discounts : option (list string)) : SubscriptionCreateParams :=
  {| scp_customer := si_customer setupIntent;
     scp_items := [priceId];
     scp_default_payment_method := or_empty (si_payment_method setupIntent);
     scp_expand := ["latest_invoice.payment_intent"];
     scp_discounts := discounts |}.

(** Stripe creates [subscription] for the request. *)
Definition creates (api : Client) (setupIntent : SetupIntent) (priceId : string)
    (info : option PromoCodeInfo) (subscription : Subscription) : Prop :=
  ∃ discounts,
    discounts_of api info = Ok discounts
    ∧ subscriptions_create api (subscription_params setupIntent priceId discounts)
      = Ok subscription.

(** The plan table as the claim words it, with the first matching row
    winning. *)
Definition plan_table (name : string) : Z :=
  if includes name "Standard" then 500
  else if includes name "Enterprise" then 2000
  else 20.

(** The status of a response that was produced. *)
Definition status_of (o : Outcome Response) : option Z :=
  match o with
  | Ok r => Some (status r)
  | Threw _ => None
  end.

End FinalizeSpec.

Module Fixtures.
Import JS Stripe Eff.

(** A clock that never repeats an instant. *)
Definition clock : Clock :=
  fun n => {| iso := "2025-03-20T14:30:00.00" +:+ String_of_Z (Z.of_nat n) +:+ "Z";
              ms := 1742481000000 + Z.of_nat n |}.

(** A clock stuck on one instant. *)
Definition frozen : Clock :=
  fun _ => {| iso := "2025-03-20T14:30:00.000Z"; ms := 1742481000000 |}.

Definition subscription (customer status : string) : Subscription :=
  {| sub_id := "sub_1"; sub_customer := customer; sub_status := status;
     sub_created := 1742481000;
     sub_current_period_start := Some 1742481000;
     sub_current_period_end := Some 1745159400 |}.

Definition standard_price : Price :=
  {| price_id := "price_std"; price_product := "prod_std";
     price_unit_amount := Some 1500; price_recurring_interval := Some "month" |}.

Definition succeeded_setup : SetupIntent :=
  {| si_id := "seti_1"; si_status := "succeeded"; si_payment_method := Some "pm_1";
     si_customer := Some "cus_1"; si_client_secret := Some "seti_1_secret";
     si_metadata := ∅ |}.

Definition pending_setup : SetupIntent :=
  {| si_id := "seti_2"; si_status := "requires_payment_method"; si_payment_method := None;
     si_customer := Some "cus_1"; si_client_secret := Some "seti_2_secret";
     si_metadata := ∅ |}.

(** A Stripe account with one customer, one price of one product, and a
    webhook endpoint that accepts the signature ["t=1,v1=good"] and then
    delivers [event].  Promotion codes resolve to [coupon] when [code] is
    given. *)
Definition client (event : Event) (code : option PromotionCode) (coupon : Coupon) : Client :=
  {| webhooks_constructEvent := fun _ signature _ =>
       if String.eqb signature "t=1,v1=good" then Ok event
       else Threw "No signatures found matching the expected signature for payload";
     subscriptions_retrieve := fun id => Ok (subscription "cus_1" "active");
     subscriptions_cancel := fun _ => Ok tt;
     subscriptions_create := fun _ => Ok (subscription "cus_1" "active");
     customers_list := fun _ => Ok [ {| cus_id := "cus_1" |} ];
     customers_create := fun _ => Ok {| cus_id := "cus_new" |};
     prices_retrieve := fun _ => Ok standard_price;
     products_retrieve := fun _ => Ok {| prod_id := "prod_std"; prod_name := "Standard" |};
     promotionCodes_list := fun _ => Ok (option_list code);
     coupons_retrieve := fun _ => Ok coupon;
     setupIntents_create := fun _ => Ok succeeded_setup;
     setupIntents_retrieve := fun id =>
       if String.eqb id "seti_1" then Ok succeeded_setup else Ok pending_setup;
     round_percent := fun u p => Qfloor (inject_Z u * p / inject_Z 100 + (1 # 2))%Q |}.

Definition coupon_with (appliesTo : option AppliesTo) : Coupon :=
  {| coupon_id := "co_1"; amount_off := Some 500; percent_off := None;
     applies_to := appliesTo |}.

Definition promo : PromotionCode :=
  {| promo_id := "promo_1"; promo_code := "SAVE5"; promo_expires_at := None;
     promo_coupon := "co_1" |}.

Definition webhook_client (event : Event) : Client :=
  client event None (coupon_with None).

Definition webhook_config (event : Event) : Webhooks.Config :=
  {| Webhooks.stripe := Some (webhook_client event);
     Webhooks.webhookSecret := "whsec_test" |}.

Definition signed_request : Webhooks.Request :=
  {| Webhooks.stripe_signature := Some "t=1,v1=good";
     Webhooks.raw_body := Ok "{}" |}.

Definition forged_request : Webhooks.Request :=
  {| Webhooks.stripe_signature := Some "t=1,v1=forged";
     Webhooks.raw_body := Ok "{}" |}.

(** The setup-intent route on that account, and a request for the standard
    price with the code [SAVE5]. *)
Definition checkout_client (coupon : Coupon) : Client :=
  client (Other "ping") (Some promo) coupon.

Definition checkout_config (coupon : Coupon) : CheckoutSessions.Config :=
  {| CheckoutSessions.stripe := Some (checkout_client coupon) |}.

Definition checkout_request : CheckoutSessions.Request :=
  {| CheckoutSessions.request_json :=
       Ok {| CheckoutSessions.priceId := Some "price_std";
             CheckoutSessions.promotionCode := Some "SAVE5";
             CheckoutSessions.userId := Some "ada@example.com" |} |}.

Definition checkout_inputs (coupon : Coupon) : CheckoutSpec.Inputs :=
  {| CheckoutSpec.in_api := checkout_client coupon;
     CheckoutSpec.in_code := "SAVE5";
     CheckoutSpec.in_priceId := "price_std";
     CheckoutSpec.in_price := standard_price;
     CheckoutSpec.in_codes := [promo];
     CheckoutSpec.in_coupon := coupon;
     CheckoutSpec.in_now := clock 0%nat |}.

Definition standard_product : Product := {| prod_id := "prod_std"; prod_name := "Standard" |}.

(** Coupons restricted to another product, to no price at all, and to an
    empty list of products. *)
Definition other_product_coupon : Coupon :=
  coupon_with (Some {| products := Some ["prod_other"]; prices := None |}).

Definition no_price_coupon : Coupon :=
  coupon_with (Some {| products := None; prices := Some [] |}).

Definition no_product_coupon : Coupon :=
  coupon_with (Some {| products := Some []; prices := None |}).

(** The same account with the product under another name. *)
Definition renamed (name : string) (api : Client) : Client :=
  {| webhooks_constructEvent := webhooks_constructEvent api;
     subscriptions_retrieve := subscriptions_retrieve api;
     subscriptions_cancel := subscriptions_cancel api;
     subscriptions_create := subscriptions_create api;
     customers_list := customers_list api;
     customers_create := customers_create api;
     prices_retrieve := prices_retrieve api;
     products_retrieve := fun _ => Ok {| prod_id := "prod_std"; prod_name := name |};
     promotionCodes_list := promotionCodes_list api;
     coupons_retrieve := coupons_retrieve api;
     setupIntents_create := setupIntents_create api;
     setupIntents_retrieve := setupIntents_retrieve api;
     round_percent := round_percent api |}.

(** The finalization route on that account, for the product [name]. *)
Definition finalize_client (name : string) : Client :=
  renamed name (client (Other "ping") None (coupon_with None)).

Definition finalize_config (name : string) : CreateSubscription.Config :=
  {| CreateSubscription.stripe := Some (finalize_client name) |}.

(** [user_42] finalizes the setup intent [id] for the standard price. *)
Definition finalize_request (id : string) : CreateSubscription.Request :=
  {| CreateSubscription.token_sub := Some "user_42";
     CreateSubscription.request_json :=
       Ok {| CreateSubscription.setupIntentId := Some id;
             CreateSubscription.priceId := Some "price_std";
             CreateSubscription.promoCodeInfo := None;
             CreateSubscription.promotionCode := None |} |}.

(** [cus_1] is mapped to [user_42], who has a subscription in [status] and
    a credit record. *)
Definition store_with_status (status : string) : Redis.Store :=
  {| Redis.strs := {[ "stripe:customer:cus_1" := "user_42" ]};
     Redis.hashes :=
       {[ "user:user_42:subscription" :=
            {[ "planType" := "STANDARD"; "status" := status; "amount" := "15" ]};
          "user:user_42:credits" :=
            {[ "total" := "500"; "used" := "150"; "resetDate" := "2025-04-01" ]} ]} |}.

(** [cus_1] is mapped to [user_42], who has credits but no subscription
    record. *)
Definition store_without_subscription : Redis.Store :=
  {| Redis.strs := {[ "stripe:customer:cus_1" := "user_42" ]};
     Redis.hashes :=
       {[ "user:user_42:credits" :=
            {[ "total" := "500"; "used" := "150"; "resetDate" := "2025-04-01" ]} ]} |}.

(** [user_42] has records, and no customer is mapped. *)
Definition store_unmapped : Redis.Store :=
  {| Redis.strs := ∅;
     Redis.hashes :=
       {[ "user:user_42:subscription" :=
            {[ "planType" := "STANDARD"; "status" := "trialing"; "amount" := "15" ]};
          "user:user_42:credits" :=
            {[ "total" := "500"; "used" := "150"; "resetDate" := "2025-04-01" ]} ]} |}.

End Fixtures.

(* ===================================================================== *)
(** ** Further definitions: the request stream, faults and JSON fields   *)
(* ===================================================================== *)

Module Stream.
Import JS Stripe.

(** A chunk of the request stream: a JavaScript string, held as its
    UTF-16 code units, or a [Buffer], held as its bytes. *)
Inductive Chunk :=
| Text (units : list N)
| Bytes (b : string).

(** A [Readable]: the chunks it yields, and the error it ends with if it
    does not end well. *)
Record Readable := {
  chunks : list Chunk;
  failure : option string
}.

(** One byte of a buffer. *)
Definition byte (n : N) : string := String (Ascii.ascii_of_N n) EmptyString.

(** The surrogate code units, [0xD800]-[0xDBFF] and [0xDC00]-[0xDFFF]. *)
Definition is_high (u : N) : bool := (0xD800 <=? u)%N && (u <=? 0xDBFF)%N.

Definition is_low (u : N) : bool := (0xDC00 <=? u)%N && (u <=? 0xDFFF)%N.

(** The UTF-8 bytes of a code point. *)
Definition utf8 (cp : N) : string :=
  if (cp <? 0x80)%N then byte cp
  else if (cp <? 0x800)%N then
    byte (0xC0 + cp / 0x40) +:+ byte (0x80 + cp mod 0x40)
  else if (cp <? 0x10000)%N then
    byte (0xE0 + cp / 0x1000) +:+ byte (0x80 + (cp / 0x40) mod 0x40)
    +:+ byte (0x80 + cp mod 0x40)
  else
    byte (0xF0 + cp / 0x40000) +:+ byte (0x80 + (cp / 0x1000) mod 0x40)
    +:+ byte (0x80 + (cp / 0x40) mod 0x40) +:+ byte (0x80 + cp mod 0x40).

(** [Buffer.from(chunk)] for a string: its UTF-8 encoding.  A high
    surrogate followed by a low one is one code point; any other
    surrogate is encoded as U+FFFD. *)
Fixpoint Buffer_from (units : list N) : string :=
  match units with
  | [] => ""
  | u :: rest =>
    if is_high u then
      match rest with
      | l :: rest' =>
        if is_low l
        then utf8 (0x10000 + (u - 0xD800) * 0x400 + (l - 0xDC00)) +:+ Buffer_from rest'
        else utf8 0xFFFD +:+ Buffer_from rest
      | [] => utf8 0xFFFD
      end
    else if is_low u then utf8 0xFFFD +:+ Buffer_from rest
    else utf8 u +:+ Buffer_from rest
  end.

(** [typeof chunk === 'string' ? Buffer.from(chunk) : chunk]. *)
Definition to_buffer (chunk : Chunk) : string :=
  match chunk with
  | Text units => Buffer_from units
  | Bytes b => b
  end.

(** [Buffer.concat(chunks)]. *)
Fixpoint Buffer_concat (buffers : list string) : string :=
  match buffers with
  | [] => ""
  | b :: rest => b +:+ Buffer_concat rest
  end.

(** [async function getRawBody(readable)]: the rejection of the stream is
    the rejection of the function. *)
Definition getRawBody (readable : Readable) : Outcome string :=
  match failure readable with
  | Some message => Threw message
  | None => Ok (Buffer_concat (map to_buffer (chunks readable)))
  end.

(** The webhook request with the given signature header and body stream. *)
Definition request (signature : option string) (body : Readable) : Webhooks.Request :=
  {| Webhooks.stripe_signature := signature;
     Webhooks.raw_body := getRawBody body |}.

(** Cutting a string between [a] and [b] separates a high surrogate from
    the low surrogate that follows it. *)
Definition splits_pair (a b : list N) : bool :=
  match last a, head b with
  | Some h, Some l => is_high h && is_low l
  | _, _ => false
  end.

End Stream.

Module Faults.
Import JS Stripe.

(** Which methods of a Stripe client throw. *)
Record Faults := {
  customers : bool;
  prices : bool;
  products : bool;
  codes : bool;
  coupons : bool;
  setup_create : bool;
  subscription_create : bool;
  subscription_retrieve : bool;
  subscription_cancel : bool
}.

Definition unreachable : string := "An error occurred with our connection to Stripe.".

(** The client [api] with the marked methods throwing. *)
Definition inject (f : Faults) (api : Client) : Client :=
  {| webhooks_constructEvent := webhooks_constructEvent api;
     subscriptions_retrieve :=
       if subscription_retrieve f then fun _ => Threw unreachable
       else subscriptions_retrieve api;
     subscriptions_cancel :=
       if subscription_cancel f then fun _ => Threw unreachable
       else subscriptions_cancel api;
     subscriptions_create :=
       if subscription_create f then fun _ => Threw unreachable
       else subscriptions_create api;
     customers_list :=
       if customers f then fun _ => Threw unreachable else customers_list api;
     customers_create := customers_create api;
     prices_retrieve :=
       if prices f then fun _ => Threw unreachable else prices_retrieve api;
     products_retrieve :=
       if products f then fun _ => Threw unreachable else products_retrieve api;
     promotionCodes_list :=
       if codes f then fun _ => Threw unreachable else promotionCodes_list api;
     coupons_retrieve :=
       if coupons f then fun _ => Threw unreachable else coupons_retrieve api;
     setupIntents_create :=
       if setup_create f then fun _ => Threw unreachable else setupIntents_create api;
     setupIntents_retrieve := setupIntents_retrieve api;
     round_percent := round_percent api |}.

End Faults.

Module Observe.
Import JS Stripe Eff.

(** [body[name]] of a JSON object. *)
Fixpoint assoc (name : string) (fields : list (string * Json)) : option Json :=
  match fields with
  | [] => None
  | (k, v) :: rest => if String.eqb k name then Some v else assoc name rest
  end.

Definition member (name : string) (j : Json) : option Json :=
  match j with
  | JObj fields => assoc name fields
  | _ => None
  end.

(** The member [name] of the body of a response that was produced. *)
Definition answer (name : string) (o : Outcome Response) : option Json :=
  match o with
  | Ok r => member name (body r)
  | Threw _ => None
  end.

(** The webhook has its Stripe client and its secret. *)
Definition webhook_ready (cfg : Webhooks.Config) : bool :=
  match Webhooks.stripe cfg with
  | Some _ => truthy (Webhooks.webhookSecret cfg)
  | None => false
  end.

(** The fields that the [invoice.payment_succeeded] handler may write. *)
Definition payment_fields : list string :=
  ["status"; "lastUpdated"; "trialEndedAt"; "lastPaymentDate"; "initialPaymentDate";
   "stripeSubscriptionStatus"].

(** The events whose handlers only log. *)
Definition informational (event : Event) : bool :=
  match event with
  | CheckoutSessionCompleted _ | CustomerSubscriptionTrialWillEnd _
  | PaymentIntentRequiresAction _ | Other _ => true
  | _ => false
  end.

End Observe.

Module Samples.
Import JS Stripe Eff.

(** The invoice of a renewal and the first invoice of [sub_1]. *)
Definition renewal : Invoice :=
  {| inv_id := "in_2"; inv_billing_reason := Some "subscription_cycle";
     inv_subscription := Some "sub_1" |}.

Definition first_invoice : Invoice :=
  {| inv_id := "in_1"; inv_billing_reason := Some "subscription_create";
     inv_subscription := Some "sub_1" |}.

(** A payment intent of the trial flow for [user_42], whose customer is
    not in the index, and one outside the trial flow. *)
Definition trial_payment : PaymentIntent :=
  {| pi_id := "pi_1"; pi_customer := Some "cus_9";
     pi_metadata := {[ "isTrial" := "true"; "userId" := "user_42" ]} |}.

Definition plain_payment : PaymentIntent :=
  {| pi_id := "pi_2"; pi_customer := Some "cus_1"; pi_metadata := ∅ |}.

(** The failed setup intent of the trial subscription [sub_1]. *)
Definition failed_trial_setup : SetupIntent :=
  {| si_id := "seti_3"; si_status := "requires_payment_method"; si_payment_method := None;
     si_customer := Some "cus_1"; si_client_secret := None;
     si_metadata := {[ "is_trial_setup" := "true"; "subscription_id" := "sub_1" ]} |}.

(** The webhook on the sample account with the faults [f]. *)
Definition faulty_webhook (f : Faults.Faults) (event : Event) : Webhooks.Config :=
  {| Webhooks.stripe := Some (Faults.inject f (Fixtures.webhook_client event));
     Webhooks.webhookSecret := "whsec_test" |}.

Definition cancel_fails : Faults.Faults :=
  {| Faults.customers := false; Faults.prices := false; Faults.products := false;
     Faults.codes := false; Faults.coupons := false; Faults.setup_create := false;
     Faults.subscription_create := false; Faults.subscription_retrieve := false;
     Faults.subscription_cancel := true |}.

Definition retrieve_fails : Faults.Faults :=
  {| Faults.customers := false; Faults.prices := false; Faults.products := false;
     Faults.codes := false; Faults.coupons := false; Faults.setup_create := false;
     Faults.subscription_create := false; Faults.subscription_retrieve := true;
     Faults.subscription_cancel := false |}.

Definition customers_fail : Faults.Faults :=
  {| Faults.customers := true; Faults.prices := false; Faults.products := false;
     Faults.codes := false; Faults.coupons := false; Faults.setup_create := false;
     Faults.subscription_create := false; Faults.subscription_retrieve := false;
     Faults.subscription_cancel := false |}.

Definition products_fail : Faults.Faults :=
  {| Faults.customers := false; Faults.prices := false; Faults.products := true;
     Faults.codes := false; Faults.coupons := false; Faults.setup_create := false;
     Faults.subscription_create := false; Faults.subscription_retrieve := false;
     Faults.subscription_cancel := false |}.

Definition codes_fail : Faults.Faults :=
  {| Faults.customers := false; Faults.prices := false; Faults.products := false;
     Faults.codes := true; Faults.coupons := false; Faults.setup_create := false;
     Faults.subscription_create := false; Faults.subscription_retrieve := false;
     Faults.subscription_cancel := false |}.

Definition coupons_fail : Faults.Faults :=
  {| Faults.customers := false; Faults.prices := false; Faults.products := false;
     Faults.codes := false; Faults.coupons := true; Faults.setup_create := false;
     Faults.subscription_create := false; Faults.subscription_retrieve := false;
     Faults.subscription_cancel := false |}.

Definition create_fails : Faults.Faults :=
  {| Faults.customers := false; Faults.prices := false; Faults.products := false;
     Faults.codes := false; Faults.coupons := false; Faults.setup_create := false;
     Faults.subscription_create := true; Faults.subscription_retrieve := false;
     Faults.subscription_cancel := false |}.

(** A coupon for the yearly price only. *)
Definition yearly_only_coupon : Coupon :=
  Fixtures.coupon_with (Some {| products := None; prices := Some ["price_yearly"] |}).

(** A coupon of 5.00 off that also carries a percentage. *)
Definition both_discounts_coupon : Coupon :=
  {| coupon_id := "co_2"; amount_off := Some 500; percent_off := Some (20 # 1)%Q;
     applies_to := None |}.

(** [user_42] finalizes [seti_1] with the promotion [code] that the front
    end validated. *)
Definition promo_request (code : string) : CreateSubscription.Request :=
  {| CreateSubscription.token_sub := Some "user_42";
     CreateSubscription.request_json :=
       Ok {| CreateSubscription.setupIntentId := Some "seti_1";
             CreateSubscription.priceId := Some "price_std";
             CreateSubscription.promoCodeInfo :=
               Some {| CreateSubscription.pci_promotionCode := Some code;
                       CreateSubscription.pci_discountValue := Some "5";
                       CreateSubscription.pci_discountType := Some "amount" |};
             CreateSubscription.promotionCode := None |} |}.

(** The finalization route on the account where [SAVE5] is active. *)
Definition promo_client : Client :=
  Fixtures.client (Other "ping") (Some Fixtures.promo) (Fixtures.coupon_with None).

(** The sample request for the standard price with [SAVE5], on the
    account whose coupon is for the yearly price only and whose product
    lookups fail. *)
Definition yearly_only_client : Client :=
  Faults.inject products_fail (Fixtures.checkout_client yearly_only_coupon).

Definition yearly_only_inputs : CheckoutSpec.Inputs :=
  {| CheckoutSpec.in_api := yearly_only_client;
     CheckoutSpec.in_code := "SAVE5";
     CheckoutSpec.in_priceId := "price_std";
     CheckoutSpec.in_price := Fixtures.standard_price;
     CheckoutSpec.in_codes := [Fixtures.promo];
     CheckoutSpec.in_coupon := yearly_only_coupon;
     CheckoutSpec.in_now := Fixtures.clock 0%nat |}.

(** A store that is unreachable: every call is rejected. *)
Definition outage : Redis.Client :=
  {| Redis.rejects := fun _ => Some "fetch failed";
     Redis.revive := Redis.revive (Client := Redis.direct) |}.

End Samples.

(* ===================================================================== *)
(** ** Sample runs                                                        *)
(* ===================================================================== *)

Section SampleRuns.
Import JS Stripe Eff.

(** A trial that turns active: one read of the index, one read of the
    record, one write with the two transition stamps. *)
Example trial_to_active_store_calls :
  redis_calls
    (snd (Webhooks.POST
            (Fixtures.webhook_config
               (CustomerSubscriptionUpdated (Fixtures.subscription "cus_1" "active")))
            Fixtures.signed_request Fixtures.clock
            (initial (Fixtures.store_with_status "trialing"))))
  = [Redis.Get "stripe:customer:cus_1";
     Redis.HGetAll "user:user_42:subscription";
     Redis.HSet "user:user_42:subscription"
       [("status", "active");
        ("lastUpdated", "2025-03-20T14:30:00.000Z");
        ("stripeSubscriptionStatus", "active");
        ("trialEndedAt", "2025-03-20T14:30:00.001Z");
        ("trialToActiveDate", "2025-03-20T14:30:00.002Z")]].
Proof. vm_compute. reflexivity. Qed.

(** The message for a code restricted to another product. *)
Example other_product_message :
  fst (CheckoutSessions.POST (Fixtures.checkout_config Fixtures.other_product_coupon)
         Fixtures.checkout_request Fixtures.clock (initial Redis.empty))
  = Ok (json_status
          (error_body
             "This promo code is valid only for Standard and does not apply to your selected month plan.")
          400).
Proof. vm_compute. reflexivity. Qed.

(** The requests of a finalization that goes through, for a user who had a
    subscription record. *)
Example finalization_calls :
  let run := CreateSubscription.POST (Fixtures.finalize_config "Standard")
               (Fixtures.finalize_request "seti_1") Fixtures.clock
               (initial (Fixtures.store_with_status "active")) in
  redis_calls (snd run)
  = [Redis.HGetAll "user:user_42:subscription";
     Redis.Del "user:user_42:subscription";
     Redis.HSet "user:user_42:subscription"
       [("id", "sub_1"); ("stripeSubscriptionId", "sub_1"); ("status", "active");
        ("current_period_start", "1742481000"); ("current_period_end", "1745159400");
        ("priceId", "price_std"); ("created", "1742481000")];
     Redis.HSet "user:user_42:credits"
       [("total", "500"); ("available", "500"); ("used", "0");
        ("lastReset", "1742481000000")]]
  ∧ stripe_calls (snd run)
    = [SetupIntentsRetrieve "seti_1";
       SubscriptionsCreate
         {| scp_customer := Some "cus_1"; scp_items := ["price_std"];
            scp_default_payment_method := "pm_1";
            scp_expand := ["latest_invoice.payment_intent"];
            scp_discounts := None |};
       PricesRetrieve "price_std"; ProductsRetrieve "prod_std"].
Proof. vm_compute. split; reflexivity. Qed.

End SampleRuns.

(* ===================================================================== *)
(** ** Properties of the store                                            *)
(* ===================================================================== *)

Section StoreFacts.
Import Redis.

Lemma append_tail_differs (u : string) : u +:+ ":subscription" ≠ u +:+ ":credits".
Proof.
  induction u as [|a u IH]; simpl.
  - discriminate.
  - intros H. injection H as H. exact (IH H).
Qed.

(** A user's subscription record and credit record live under different
    keys. *)
Lemma subscription_key_not_credits (userId : string) :
  USER_SUBSCRIPTION userId ≠ USER_CREDITS userId.
Proof.
  unfold USER_SUBSCRIPTION, USER_CREDITS. simpl. intros H.
  injection H as H. exact (append_tail_differs userId H).
Qed.

(** [HSET] makes each written field readable. *)
Lemma field_hset_written (k f v : string) (fs : Fields) (s : Store) :
  (list_to_map fs : gmap string string) !! f = Some v →
  field k f (hset k fs s) = Some v.
Proof.
  intros H. unfold field, hset. simpl.
  rewrite lookup_insert_eq. simpl.
  by apply lookup_union_Some_l.
Qed.

(** [HSET] leaves the fields it does not name as they were. *)
Lemma field_hset_kept (k f : string) (fs : Fields) (s : Store) :
  (list_to_map fs : gmap string string) !! f = None →
  field k f (hset k fs s) = field k f s.
Proof.
  intros H. unfold field, hset. simpl.
  rewrite lookup_insert_eq. simpl.
  rewrite lookup_union_r by done.
  destruct (hashes s !! k); simpl; [done | apply lookup_empty].
Qed.

(** [HSET] on one key does not touch the records under other keys. *)
Lemma field_hset_other (k k' f : string) (fs : Fields) (s : Store) :
  k ≠ k' → field k' f (hset k fs s) = field k' f s.
Proof.
  intros H. unfold field, hset. simpl. by rewrite lookup_insert_ne.
Qed.

Lemma hashes_hset_other (k k' : string) (fs : Fields) (s : Store) :
  k ≠ k' → hashes (hset k fs s) !! k' = hashes s !! k'.
Proof. intros H. unfold hset. simpl. by rewrite lookup_insert_ne. Qed.

(** [HSET] never changes the customer index. *)
Lemma strs_hset (k : string) (fs : Fields) (s : Store) : strs (hset k fs s) = strs s.
Proof. reflexivity. Qed.

End StoreFacts.

(* ===================================================================== *)
(** ** Properties of the webhook                                          *)
(* ===================================================================== *)

(** Case analysis on an innermost condition the goal branches on. *)
Ltac branch :=
  match goal with
  | |- context [match ?x with _ => _ end] =>
    lazymatch x with
    | context [match _ with _ => _ end] => fail
    | _ => destruct x eqn:?
    end
  end.

(** Unfolding of the effects, down to functions on worlds. *)
Ltac run_effects :=
  unfold Eff.try_catch, Eff.bind, Eff.ret, Eff.redis_get, Eff.redis_hgetall,
    Eff.redis_hset, Eff.redis_del, Eff.stripe_call, Eff.now;
  simpl.

Ltac run_handler :=
  unfold Webhooks.dispatch, Webhooks.on_checkout_session_completed,
    Webhooks.on_subscription_updated, Webhooks.on_subscription_deleted,
    Webhooks.on_trial_will_end, Webhooks.on_invoice_payment_succeeded,
    Webhooks.on_invoice_payment_failed, Webhooks.on_payment_intent_payment_failed,
    Webhooks.on_payment_intent_canceled, Webhooks.on_setup_intent_setup_failed,
    Webhooks.on_payment_intent_requires_action, Webhooks.on_error,
    Webhooks.setZeroCredits, Webhooks.when;
  run_effects.

Section WebhookFacts.
Import JS Stripe Eff Webhooks WebhookSpec.

(** Once the signature is verified, [POST] is the dispatch on the event
    under the outer [try]/[catch]. *)
Lemma POST_verified {redis : Redis.Client} (cfg : Config) (request : Request)
    (event : Event) :
  verified cfg request event →
  ∃ api, stripe cfg = Some api ∧
    ∀ c w, POST cfg request c w = try_catch (dispatch api event) on_error c w.
Proof.
  intros (api & signature & rawBody & [Hapi Hsecret] & Hsig & Htruthy & Hbody & Hevent).
  exists api. split; [exact Hapi|]. intros c w.
  unfold POST, try_catch. rewrite Hapi, Hsecret, Hsig. simpl.
  rewrite Htruthy, Hbody. simpl. rewrite Hevent. reflexivity.
Qed.

(** Under a store that answers, a call is not rejected. *)
Lemma answers_call {redis : Redis.Client} (call : Redis.Call) :
  answers redis → Redis.rejects call = None.
Proof. intros H. apply H. Qed.

(** The direct client resolves a customer id to the user stored for it. *)
Lemma resolved_direct (customerId : string) (s : Redis.Store) :
  resolved (redis := Redis.direct) customerId s = resolved_user customerId s.
Proof.
  unfold resolved, resolved_user, indexed.
  destruct (truthy customerId); [|reflexivity].
  by destruct (Redis.get (Redis.customer_key customerId) s).
Qed.

(** The calls issued by a run that appended [calls] to the log. *)
Lemma issued_app (w w' : World) (calls : list Redis.Call) :
  redis_calls w' = (redis_calls w ++ calls)%list → issued w w' = calls.
Proof. intros H. unfold issued. rewrite H. apply drop_app_length. Qed.

End WebhookFacts.

(** Under a store that answers, the next calls of the run are
    answered. *)
Ltac answered H :=
  repeat (rewrite (answers_call _ H); simpl).

Section Cancellation.
Import JS Stripe Eff Webhooks WebhookSpec.

Lemma cancelled_after_writes (userId : string) (fs1 : Redis.Fields) (t : string)
    (s : Redis.Store) :
  cancelled userId
    (Redis.hset (Redis.USER_CREDITS userId)
       [("total", "0"); ("used", "0"); ("resetDate", "");
        ("lastUpdate", t); ("subscriptionDeleted", "true")]
       (Redis.hset (Redis.USER_SUBSCRIPTION userId)
          [("plan", "No Active Plan"); ("planType", "NONE"); ("status", "canceled");
           ("amount", "0"); ("interval", "month");
           ("lastUpdated", t); ("canceledAt", t);
           ("stripeCustomerId", ""); ("stripeSubscriptionId", "")]
          (Redis.hset (Redis.USER_CREDITS userId) fs1 s))).
Proof.
  pose proof (subscription_key_not_credits userId) as Hne.
  unfold cancelled.
  repeat split;
    first
      [ apply field_hset_written; vm_compute; reflexivity
      | rewrite field_hset_other by (intros E; apply Hne; symmetry; exact E);
        apply field_hset_written; vm_compute; reflexivity ].
Qed.

(** What the deletion handler does, under a store that answers, for a
    customer whom the client resolves to a user: nothing but two reads
    when the user has no subscription record, and otherwise three writes
    stamped with one reading of the clock. *)
Lemma on_subscription_deleted_mapped {redis : Redis.Client} (subscription : Subscription)
    (userId : string) (c : Clock) (w : World) :
  answers redis →
  truthy (sub_customer subscription) = true →
  indexed (sub_customer subscription) (store w) = Some userId →
  let reads := [Redis.Get (Redis.customer_key (sub_customer subscription));
                Redis.HGetAll (Redis.USER_SUBSCRIPTION userId)] in
  match Redis.hgetall (Redis.USER_SUBSCRIPTION userId) (store w) with
  | None =>
    ∃ w', on_subscription_deleted subscription c w = (Ok (json received), w')
          ∧ store w' = store w
          ∧ redis_calls w' = (redis_calls w ++ reads)%list
  | Some _ =>
    ∃ fs1 w', on_subscription_deleted subscription c w = (Ok (json received), w')
      ∧ store w' =
        Redis.hset (Redis.USER_CREDITS userId)
          [("total", "0"); ("used", "0"); ("resetDate", "");
           ("lastUpdate", iso (c (ticks w))); ("subscriptionDeleted", "true")]
          (Redis.hset (Redis.USER_SUBSCRIPTION userId)
             [("plan", "No Active Plan"); ("planType", "NONE"); ("status", "canceled");
              ("amount", "0"); ("interval", "month");
              ("lastUpdated", iso (c (ticks w))); ("canceledAt", iso (c (ticks w)));
              ("stripeCustomerId", ""); ("stripeSubscriptionId", "")]
             (Redis.hset (Redis.USER_CREDITS userId) fs1 (store w)))
  end.
Proof.
  intros Hanswers Hcus Hindex reads. subst reads.
  unfold indexed in Hindex.
  unfold on_subscription_deleted, setZeroCredits. rewrite Hcus. run_effects.
  rewrite (answers_call _ Hanswers), Hindex. simpl.
  rewrite (answers_call _ Hanswers). simpl.
  destruct (Redis.hgetall (Redis.USER_SUBSCRIPTION userId) (store w)) as [record|]; simpl.
  - repeat (rewrite (answers_call _ Hanswers); simpl).
    do 2 eexists. split; reflexivity.
  - eexists. split; [reflexivity|]. split; [reflexivity|].
    simpl. by rewrite <- app_assoc.
Qed.

(** C1 (as amended): under a store that answers, a verified
    [customer.subscription.deleted] event whose customer id the store
    client resolves to a user is acknowledged.  When that user has a
    subscription record, afterwards the credit record has total, used and
    resetDate ['0'], ['0'], [''] and the subscription record has planType
    ['NONE'], status ['canceled'], amount ['0'] and empty Stripe
    identifiers, whatever the two records held before.  When the user has
    no subscription record, the store is left as it was: the handler
    issues the two reads and no write. *)
Theorem deleted_event_cancels {redis : Redis.Client} (cfg : Config) (request : Request)
    (subscription : Subscription) (userId : string) (c : Clock) (w : World) :
  answers redis →
  verified cfg request (CustomerSubscriptionDeleted subscription) →
  truthy (sub_customer subscription) = true →
  indexed (sub_customer subscription) (store w) = Some userId →
  let K := Redis.USER_SUBSCRIPTION userId in
  let out := POST cfg request c w in
  fst out = Ok (json received)
  ∧ (is_Some (Redis.hgetall K (store w)) → cancelled userId (store (snd out)))
  ∧ (Redis.hgetall K (store w) = None →
     store (snd out) = store w
     ∧ issued w (snd out)
       = [Redis.Get (Redis.customer_key (sub_customer subscription)); Redis.HGetAll K]).
Proof.
  intros Hanswers Hver Hcus Hindex K out. subst K out.
  destruct (POST_verified _ _ _ Hver) as (api & _ & HPOST). rewrite HPOST.
  pose proof (on_subscription_deleted_mapped subscription userId c w Hanswers Hcus Hindex)
    as Hrun.
  cbv zeta in Hrun. unfold try_catch, dispatch.
  destruct (Redis.hgetall (Redis.USER_SUBSCRIPTION userId) (store w)) as [record|].
  - destruct Hrun as (fs1 & w' & -> & Hstore). simpl.
    split; [reflexivity|]. split; [|discriminate].
    intros _. rewrite Hstore. apply cancelled_after_writes.
  - destruct Hrun as (w' & -> & Hstore & Hcalls). simpl.
    split; [reflexivity|]. split; [intros [? [=]]|].
    intros _. split; [exact Hstore | exact (issued_app _ _ _ Hcalls)].
Qed.

(** The theorem applies to the scenario of the specification: [cus_1] is
    mapped to [user_42], who holds a subscription and used credits. *)
Lemma deleted_event_cancels_witness :
  let event := CustomerSubscriptionDeleted (Fixtures.subscription "cus_1" "canceled") in
  let run := POST (Fixtures.webhook_config event) Fixtures.signed_request Fixtures.clock
               (initial (Fixtures.store_with_status "active")) in
  fst run = Ok (json received) ∧ cancelled "user_42" (store (snd run)).
Proof.
  pose proof (@deleted_event_cancels Redis.direct
           (Fixtures.webhook_config
              (CustomerSubscriptionDeleted (Fixtures.subscription "cus_1" "canceled")))
           Fixtures.signed_request (Fixtures.subscription "cus_1" "canceled") "user_42"
           Fixtures.clock (initial (Fixtures.store_with_status "active"))) as H.
  destruct H as (Hack & Hcancelled & _).
  - intros call. reflexivity.
  - exists (Fixtures.webhook_client
              (CustomerSubscriptionDeleted (Fixtures.subscription "cus_1" "canceled"))),
      "t=1,v1=good", "{}".
    repeat split; reflexivity.
  - reflexivity.
  - vm_compute. reflexivity.
  - split; [exact Hack|]. apply Hcancelled. vm_compute. eexists. reflexivity.
Defined.

(** C1 fails as stated: when the mapped user has no subscription record the
    handler acknowledges the event and returns before any write, so the
    credits stay as they were. *)
Lemma deleted_event_without_record_keeps_credits :
  let event := CustomerSubscriptionDeleted (Fixtures.subscription "cus_1" "canceled") in
  let cfg := Fixtures.webhook_config event in
  let w := initial Fixtures.store_without_subscription in
  let run := POST cfg Fixtures.signed_request Fixtures.clock w in
  verified cfg Fixtures.signed_request event
  ∧ Redis.get (Redis.customer_key "cus_1") (store w) = Some "user_42"
  ∧ fst run = Ok (json received)
  ∧ Redis.field (Redis.USER_CREDITS "user_42") "total" (store (snd run)) = Some "500"
  ∧ Redis.field (Redis.USER_SUBSCRIPTION "user_42") "status" (store (snd run)) = None
  ∧ ¬ cancelled "user_42" (store (snd run)).
Proof.
  cbv zeta.
  split.
  { exists (Fixtures.webhook_client
              (CustomerSubscriptionDeleted (Fixtures.subscription "cus_1" "canceled"))),
      "t=1,v1=good", "{}".
    repeat split; reflexivity. }
  split; [vm_compute; reflexivity|].
  split; [vm_compute; reflexivity|].
  assert (Htotal :
    Redis.field (Redis.USER_CREDITS "user_42") "total"
      (store (snd (POST (Fixtures.webhook_config
                           (CustomerSubscriptionDeleted (Fixtures.subscription "cus_1" "canceled")))
                     Fixtures.signed_request Fixtures.clock
                     (initial Fixtures.store_without_subscription)))) = Some "500")
    by (vm_compute; reflexivity).
  split; [exact Htotal|].
  split; [vm_compute; reflexivity|].
  intros (Hzero & _). rewrite Htotal in Hzero. discriminate.
Qed.

End Cancellation.

Section Verification.
Import JS Stripe Eff Webhooks WebhookSpec.

(** C2: a request whose signature verification fails (the signature is
    missing, or [constructEvent] rejects it for the raw body) is answered
    with status 400, and no call to the store is issued: the call log and
    the store are as before. *)
Theorem failed_verification_rejected (cfg : Config) (request : Request)
    (c : Clock) (w : World) :
  verification_fails cfg request →
  status_of (fst (POST cfg request c w)) = Some 400
  ∧ redis_calls (snd (POST cfg request c w)) = redis_calls w
  ∧ store (snd (POST cfg request c w)) = store w.
Proof.
  intros (api & [Hapi Hsecret] & Hfail).
  unfold POST, try_catch. rewrite Hapi, Hsecret. simpl.
  destruct Hfail as [Hmissing | (signature & rawBody & message & Hsig & Hbody & Hthrow)].
  - rewrite Hmissing. simpl. auto.
  - rewrite Hsig. simpl. destruct (truthy signature); simpl; [|auto].
    rewrite Hbody, Hthrow. simpl. auto.
Qed.

(** A forged signature on the sample endpoint. *)
Lemma failed_verification_rejected_witness :
  let cfg := Fixtures.webhook_config (Other "ping") in
  let w := initial (Fixtures.store_with_status "active") in
  status_of (fst (POST cfg Fixtures.forged_request Fixtures.clock w)) = Some 400
  ∧ redis_calls (snd (POST cfg Fixtures.forged_request Fixtures.clock w)) = redis_calls w
  ∧ store (snd (POST cfg Fixtures.forged_request Fixtures.clock w)) = store w.
Proof.
  apply (failed_verification_rejected
           (Fixtures.webhook_config (Other "ping"))
           Fixtures.forged_request Fixtures.clock
           (initial (Fixtures.store_with_status "active"))).
  exists (Fixtures.webhook_client (Other "ping")).
  split; [split; reflexivity|].
  right.
  exists "t=1,v1=forged", "{}",
    "No signatures found matching the expected signature for payload".
  repeat split; reflexivity.
Defined.

End Verification.

Section Idempotence.
Import JS Stripe Eff Webhooks WebhookSpec.

(** The store an update leaves: one [HSET] of [update_data] on the record
    of the resolved user, or nothing. *)
Lemma updated_store {redis : Redis.Client} (subscription : Subscription)
    (c : Clock) (w : World) :
  answers redis →
  store (snd (on_subscription_updated subscription c w)) =
  match resolved (sub_customer subscription) (store w) with
  | Some userId =>
    Redis.hset (Redis.USER_SUBSCRIPTION userId)
      (update_data (sub_status subscription)
         (Redis.hgetall (Redis.USER_SUBSCRIPTION userId) (store w) ≫= (.!! "status"))
         c (ticks w))
      (store w)
  | None => store w
  end.
Proof.
  intros Hanswers. unfold on_subscription_updated, resolved, indexed.
  destruct (truthy (sub_customer subscription)); simpl; [|reflexivity].
  run_effects. answered Hanswers.
  destruct (Redis.get (Redis.customer_key (sub_customer subscription)) (store w)
            ≫= Redis.revive) as [userId|]; simpl; [|reflexivity].
  answered Hanswers. unfold update_data.
  destruct (bool_decide _ && _), (String.eqb (sub_status subscription) "canceled"),
    (String.eqb (sub_status subscription) "unpaid" || _); simpl;
    answered Hanswers; reflexivity.
Qed.

(** A status is not both ['trialing'] and ['active']: an update applied to
    a record that already holds the event's status is no trial
    transition. *)
Lemma no_trial_transition_again (status : string) :
  bool_decide (Some status = Some "trialing") && String.eqb status "active" = false.
Proof.
  destruct (String.eqb status "active") eqn:Hactive; [|apply andb_false_r].
  apply String.eqb_eq in Hactive. subst. reflexivity.
Qed.

(** Every update writes the event's status under [status] and
    [stripeSubscriptionStatus]. *)
Lemma update_data_status (status : string) (currentStatus : option string)
    (c : Clock) (n : nat) (f : string) :
  f = "status" ∨ f = "stripeSubscriptionStatus" →
  (list_to_map (update_data status currentStatus c n) : gmap string string) !! f
  = Some status.
Proof.
  unfold update_data.
  intros [-> | ->];
    destruct (bool_decide _ && _), (String.eqb status "canceled"),
      (String.eqb status "unpaid" || _); reflexivity.
Qed.

(** Applied again, an update writes nothing but the status and the
    restamped fields. *)
Lemma update_data_again (status : string) (c : Clock) (n : nat) (f v : string) :
  f ∉ restamped →
  (list_to_map (update_data status (Some status) c n) : gmap string string) !! f = Some v →
  (f = "status" ∨ f = "stripeSubscriptionStatus") ∧ v = status.
Proof.
  unfold restamped. intros Hf.
  assert (f ≠ "lastUpdated" ∧ f ≠ "canceledAt" ∧ f ≠ "unpaidAt") as (H1 & H2 & H3).
  { repeat split; intros ->; apply Hf; set_solver. }
  unfold update_data. rewrite no_trial_transition_again.
  destruct (String.eqb status "canceled"), (String.eqb status "unpaid" || _); simpl;
    rewrite !lookup_insert_Some, lookup_empty; intuition (subst; auto; congruence).
Qed.

(** Under a clock that shows one instant, a second update writes nothing
    the first one did not write. *)
Lemma update_data_frozen (status : string) (currentStatus : option string)
    (c1 c2 : Clock) (n1 n2 : nat) :
  same_instant c1 c2 →
  (list_to_map (update_data status (Some status) c2 n2) : gmap string string)
  ⊆ list_to_map (update_data status currentStatus c1 n1).
Proof.
  intros Hsame.
  remember (c1 0%nat) as t eqn:Ht.
  assert (H1 : ∀ n, c1 n = t) by (intros n; rewrite Ht; apply (Hsame n 0%nat)).
  assert (H2 : ∀ n, c2 n = t) by (intros n; rewrite Ht; apply (Hsame 0%nat n)).
  clear Ht Hsame.
  unfold update_data. rewrite no_trial_transition_again, !H1, !H2.
  apply map_subseteq_spec. intros f v.
  destruct (bool_decide _ && _), (String.eqb status "canceled"),
    (String.eqb status "unpaid" || _); simpl;
    rewrite !lookup_insert_Some, lookup_empty; intuition (subst; auto 10; congruence).
Qed.

(** After an [HSET], [HGETALL] on the same key shows each written field. *)
Lemma hgetall_hset_written (k f v : string) (fs : Redis.Fields) (s : Redis.Store) :
  (list_to_map fs : gmap string string) !! f = Some v →
  Redis.hgetall k (Redis.hset k fs s) ≫= (.!! f) = Some v.
Proof.
  intros H. unfold Redis.hgetall, Redis.hset. simpl. rewrite lookup_insert_eq.
  assert (Hin : (list_to_map fs ∪ default ∅ (Redis.hashes s !! k)) !! f = Some v)
    by (by apply lookup_union_Some_l).
  destruct (decide _) as [Hempty|_]; simpl.
  - rewrite Hempty, lookup_empty in Hin. discriminate.
  - exact Hin.
Qed.

(** Under a store that answers, the update handler does not throw. *)
Lemma updated_returns {redis : Redis.Client} (subscription : Subscription)
    (c : Clock) (w : World) :
  answers redis →
  ∃ r, fst (on_subscription_updated subscription c w) = Ok r.
Proof.
  intros Hanswers. unfold on_subscription_updated. run_effects.
  destruct (truthy (sub_customer subscription)); simpl; [|eexists; reflexivity].
  answered Hanswers.
  destruct (Redis.get (Redis.customer_key (sub_customer subscription)) (store w)
            ≫= Redis.revive) as [userId|]; simpl; [|eexists; reflexivity].
  answered Hanswers.
  repeat (branch; simpl in *; answered Hanswers); eexists; reflexivity.
Qed.

Lemma updated_under_catch {redis : Redis.Client} (api : Client)
    (subscription : Subscription) (c : Clock) (w : World) :
  answers redis →
  try_catch (dispatch api (CustomerSubscriptionUpdated subscription)) on_error c w
  = on_subscription_updated subscription c w.
Proof.
  intros Hanswers. unfold try_catch, dispatch.
  destruct (updated_returns subscription c w Hanswers) as [r Hr].
  destruct (on_subscription_updated subscription c w) as [[a|e] w']; simpl in *;
    [reflexivity | discriminate].
Qed.

Lemma same_but_timestamps_refl (userId : string) (s : Redis.Store) :
  same_but_timestamps userId s s.
Proof. repeat split. Qed.

(** The stores left by two successive updates with the same event. *)
Lemma update_twice_stores {redis : Redis.Client} (subscription : Subscription)
    (c1 c2 : Clock) (w : World) :
  answers redis →
  let w1 := snd (on_subscription_updated subscription c1 w) in
  let w2 := snd (on_subscription_updated subscription c2 w1) in
  same_after_redelivery (resolved (sub_customer subscription) (store w))
    (store w1) (store w2)
  ∧ (same_instant c1 c2 → store w2 = store w1).
Proof.
  intros Hanswers w1 w2. subst w2.
  rewrite (updated_store subscription c2 w1 Hanswers). subst w1.
  rewrite (updated_store subscription c1 w Hanswers).
  destruct (resolved (sub_customer subscription) (store w)) as [userId|] eqn:Huser.
  - assert (Hagain :
      resolved (sub_customer subscription)
        (Redis.hset (Redis.USER_SUBSCRIPTION userId)
           (update_data (sub_status subscription)
              (Redis.hgetall (Redis.USER_SUBSCRIPTION userId) (store w) ≫= (.!! "status"))
              c1 (ticks w)) (store w)) = Some userId) by exact Huser.
    rewrite Hagain.
    rewrite (hgetall_hset_written _ "status" (sub_status subscription))
      by (apply update_data_status; left; reflexivity).
    set (K := Redis.USER_SUBSCRIPTION userId).
    set (fs1 := update_data _ _ c1 _).
    set (fs2 := update_data _ _ c2 _).
    split.
    + split; [reflexivity|]. split.
      { intros k Hk. symmetry. apply hashes_hset_other. intros <-. by apply Hk. }
      intros f Hf. fold K.
      destruct ((list_to_map fs2 : gmap string string) !! f) as [v|] eqn:Hv.
      * destruct (update_data_again _ _ _ _ _ Hf Hv) as [Hstatus ->].
        rewrite (field_hset_written K f (sub_status subscription) fs2) by exact Hv.
        apply field_hset_written, update_data_status, Hstatus.
      * by rewrite (field_hset_kept K f fs2).
    + intros Hsame. unfold Redis.hset. simpl. f_equal.
      rewrite lookup_insert_eq, insert_insert_eq. simpl. f_equal.
      apply map_subseteq_union.
      etrans; [|apply map_union_subseteq_l].
      by apply update_data_frozen.
  - rewrite Huser. split; reflexivity.
Qed.

(** C3 (as amended): under a store that answers, applying the same
    verified [customer.subscription.updated] event twice leaves, after
    the second application, a store that agrees with the store after the
    first on the customer index, on every record other than the
    subscription record of the user the event resolves to, and on every
    field of that record except [lastUpdated], [canceledAt] and
    [unpaidAt], which the handler stamps from the clock each time; when
    the event resolves to no user, or when the clock shows the same
    instant throughout, the two stores are equal. *)
Theorem update_twice {redis : Redis.Client} (cfg : Config) (request : Request)
    (subscription : Subscription) (c1 c2 : Clock) (w : World) :
  answers redis →
  verified cfg request (CustomerSubscriptionUpdated subscription) →
  same_after_redelivery (resolved (sub_customer subscription) (store w))
    (store (snd (POST cfg request c1 w)))
    (store (snd (POST cfg request c2 (snd (POST cfg request c1 w)))))
  ∧ (same_instant c1 c2 →
     store (snd (POST cfg request c2 (snd (POST cfg request c1 w))))
     = store (snd (POST cfg request c1 w))).
Proof.
  intros Hanswers Hver.
  destruct (POST_verified _ _ _ Hver) as (api & _ & HPOST).
  rewrite !HPOST, !updated_under_catch by exact Hanswers.
  by apply update_twice_stores.
Qed.

(** A trial that became active, delivered twice under a frozen clock. *)
Lemma update_twice_witness :
  let event := CustomerSubscriptionUpdated (Fixtures.subscription "cus_1" "active") in
  let cfg := Fixtures.webhook_config event in
  let w := initial (Fixtures.store_with_status "trialing") in
  let w1 := snd (POST cfg Fixtures.signed_request Fixtures.frozen w) in
  let w2 := snd (POST cfg Fixtures.signed_request Fixtures.frozen w1) in
  same_after_redelivery (Some "user_42") (store w1) (store w2)
  ∧ (same_instant Fixtures.frozen Fixtures.frozen → store w2 = store w1).
Proof.
  apply (@update_twice Redis.direct
           (Fixtures.webhook_config
              (CustomerSubscriptionUpdated (Fixtures.subscription "cus_1" "active")))
           Fixtures.signed_request (Fixtures.subscription "cus_1" "active")
           Fixtures.frozen Fixtures.frozen
           (initial (Fixtures.store_with_status "trialing"))).
  - intros call. reflexivity.
  - exists (Fixtures.webhook_client
              (CustomerSubscriptionUpdated (Fixtures.subscription "cus_1" "active"))),
      "t=1,v1=good", "{}".
    repeat split; reflexivity.
Defined.

(** C3 fails as stated: the same verified event applied twice under a
    running clock leaves a different [lastUpdated] the second time, so the
    stored subscription state is not identical. *)
Lemma update_twice_restamps :
  let event := CustomerSubscriptionUpdated (Fixtures.subscription "cus_1" "active") in
  let cfg := Fixtures.webhook_config event in
  let w := initial (Fixtures.store_with_status "active") in
  let w1 := snd (POST cfg Fixtures.signed_request Fixtures.clock w) in
  let w2 := snd (POST cfg Fixtures.signed_request Fixtures.clock w1) in
  verified cfg Fixtures.signed_request event
  ∧ Redis.field (Redis.USER_SUBSCRIPTION "user_42") "lastUpdated" (store w1)
    = Some "2025-03-20T14:30:00.000Z"
  ∧ Redis.field (Redis.USER_SUBSCRIPTION "user_42") "lastUpdated" (store w2)
    = Some "2025-03-20T14:30:00.001Z"
  ∧ store w2 ≠ store w1.
Proof.
  cbv zeta.
  split.
  { eexists _, "t=1,v1=good", "{}". repeat split; reflexivity. }
  split; [vm_compute; reflexivity|].
  split; [vm_compute; reflexivity|].
  intros H.
  apply (f_equal (Redis.field (Redis.USER_SUBSCRIPTION "user_42") "lastUpdated")) in H.
  vm_compute in H. discriminate.
Qed.

End Idempotence.

Section Acknowledgement.
Import JS Stripe Eff Webhooks WebhookSpec.

Local Arguments store_error : simpl never.

(** The fate of the last call of a run that appended calls to the log. *)
Lemma store_error_app {redis : Redis.Client} (w w' : World) (calls : list Redis.Call) :
  redis_calls w' = (redis_calls w ++ calls)%list →
  store_error w w' = last calls ≫= Redis.rejects.
Proof. intros H. unfold store_error. by rewrite (issued_app _ _ _ H). Qed.

(** A run that issued no call to the store met no error of the store. *)
Lemma store_error_none {redis : Redis.Client} (w w' : World) :
  redis_calls w' = redis_calls w → store_error w w' = None.
Proof.
  intros H. rewrite (store_error_app w w' []); [reflexivity|].
  by rewrite app_nil_r.
Qed.

(** Case analysis on the conditions of the run, leaving the fate of the
    last call for the end. *)
Ltac branch_run :=
  match goal with
  | |- context [match ?x with _ => _ end] =>
    lazymatch x with
    | context [match _ with _ => _ end] => fail
    | store_error _ _ => fail
    | _ => destruct x eqn:?
    end
  end.

(** Reading the fate of the last call off the log of a run. *)
Ltac last_call :=
  first
    [ rewrite store_error_none by reflexivity
    | erewrite store_error_app by (simpl; rewrite <- ?app_assoc; reflexivity) ];
  simpl;
  repeat match goal with
         | H : Redis.rejects _ = _ |- _ => rewrite H; simpl
         | H : truthy _ = _ |- _ => rewrite H; simpl
         end.

(** The response of the dispatch under the outer [try]/[catch], for every
    event and every store client. *)
Lemma dispatch_response {redis : Redis.Client} (api : Client) (event : Event)
    (c : Clock) (w : World) :
  fst (try_catch (dispatch api event) on_error c w) =
  Ok (acknowledgement api event w (snd (try_catch (dispatch api event) on_error c w))).
Proof.
  destruct event; unfold acknowledgement, failure, lacks_customer, lookup_throws,
    invoice_lookup, swallows; run_handler.
  all: repeat (branch_run; simpl in *; subst); try congruence.
  all: try reflexivity.
  all: try (last_call; reflexivity).
Qed.




End Acknowledgement.

Section Unmapped.
Import JS Stripe Eff Webhooks WebhookSpec.

(** The run left the store as it was and issued no write: its calls,
    read off the log, are reads. *)
Ltac no_write :=
  split; [reflexivity|];
  first
    [ erewrite issued_app by (simpl; reflexivity)
    | erewrite (issued_app _ _ []) by (simpl; by rewrite app_nil_r) ];
  reflexivity.

(** The handlers of the subscription events stop at an unmapped
    customer. *)
Lemma subscription_event_unmapped {redis : Redis.Client} (api : Client) (event : Event)
    (subscription : Subscription) (c : Clock) (w : World) :
  answers redis →
  event = CustomerSubscriptionUpdated subscription
  ∨ event = CustomerSubscriptionDeleted subscription
  ∨ event = CustomerSubscriptionTrialWillEnd subscription →
  truthy (sub_customer subscription) = true →
  indexed (sub_customer subscription) (store w) = None →
  try_catch (dispatch api event) on_error c w
  = (Ok (json received),
     log_redis (Redis.Get (Redis.customer_key (sub_customer subscription))) w).
Proof.
  intros Hanswers Hevent Hcus Hindex. unfold indexed in Hindex.
  destruct Hevent as [-> | [-> | ->]]; run_handler; rewrite Hcus; simpl;
    rewrite (answers_call _ Hanswers), Hindex; reflexivity.
Qed.

(** What the dispatch does for an event all of whose customer ids are
    unmapped. *)
Lemma dispatch_unmapped {redis : Redis.Client} (api : Client) (event : Event)
    (c : Clock) (w : World) :
  answers redis →
  customers api event ≠ [] →
  (∀ customerId, customerId ∈ customers api event →
                 indexed customerId (store w) = None) →
  let out := try_catch (dispatch api event) on_error c w in
  fst out = Ok (json received)
  ∧ match metadata_update event with
    | None =>
      store (snd out) = store w
      ∧ forallb (λ call, negb (writes call)) (issued w (snd out)) = true
    | Some (userId, status) =>
      Redis.field (Redis.USER_SUBSCRIPTION userId) "status" (store (snd out))
      = Some status
      ∧ ∃ fields,
          last (issued w (snd out))
          = Some (Redis.HSet (Redis.USER_SUBSCRIPTION userId) fields)
          ∧ (list_to_map fields : gmap string string) !! "status" = Some status
    end.
Proof.
  intros Hanswers Hsome Hall out. subst out.
  destruct event; unfold customers, carried_customer, resolved_customer in Hsome, Hall;
    cbn [metadata_update].
  - (* checkout.session.completed *)
    exfalso. apply Hsome. reflexivity.
  - (* customer.subscription.updated *)
    destruct (truthy (sub_customer subscription)) eqn:Hcus; [|by exfalso; apply Hsome].
    rewrite (subscription_event_unmapped api _ subscription c w Hanswers) by
      (auto; apply Hall; simpl; left).
    split; [reflexivity|]. no_write.
  - (* customer.subscription.deleted *)
    destruct (truthy (sub_customer subscription)) eqn:Hcus; [|by exfalso; apply Hsome].
    rewrite (subscription_event_unmapped api _ subscription c w Hanswers) by
      (auto; apply Hall; simpl; left).
    split; [reflexivity|]. no_write.
  - (* customer.subscription.trial_will_end *)
    destruct (truthy (sub_customer subscription)) eqn:Hcus; [|by exfalso; apply Hsome].
    rewrite (subscription_event_unmapped api _ subscription c w Hanswers) by
      (auto 10; apply Hall; simpl; left).
    split; [reflexivity|]. no_write.
  - (* invoice.payment_succeeded *)
    unfold invoice_lookup in *. run_handler.
    destruct (inv_subscription invoice) as [id|]; simpl in *; [|by exfalso; apply Hsome].
    destruct (truthy id); simpl in *; [|by exfalso; apply Hsome].
    destruct (subscriptions_retrieve api id) as [subscription|]; simpl in *;
      [|by exfalso; apply Hsome].
    pose proof (Hall (sub_customer subscription) ltac:(left)) as Hindex.
    unfold indexed in Hindex.
    rewrite (answers_call _ Hanswers), Hindex. simpl.
    split; [reflexivity|]. no_write.
  - (* invoice.payment_failed *)
    unfold invoice_lookup in *. run_handler.
    destruct (inv_subscription invoice) as [id|]; simpl in *; [|by exfalso; apply Hsome].
    destruct (truthy id); simpl in *; [|by exfalso; apply Hsome].
    destruct (bool_decide (inv_billing_reason invoice = Some "subscription_cycle"));
      simpl in *; [|by exfalso; apply Hsome].
    destruct (subscriptions_retrieve api id) as [subscription|]; simpl in *;
      [|by exfalso; apply Hsome].
    pose proof (Hall (sub_customer subscription) ltac:(left)) as Hindex.
    unfold indexed in Hindex.
    rewrite (answers_call _ Hanswers), Hindex. simpl.
    split; [reflexivity|]. no_write.
  - (* payment_intent.payment_failed *)
    unfold trial_user. run_handler.
    destruct (bool_decide (pi_metadata paymentIntent !! "isTrial" = Some "true"));
      simpl; [|split; [reflexivity | no_write]].
    destruct (pi_metadata paymentIntent !! "userId") as [userId|]; simpl;
      [|split; [reflexivity | no_write]].
    destruct (truthy userId); simpl; [|split; [reflexivity | no_write]].
    answered Hanswers.
    split; [reflexivity|]. split.
    + apply field_hset_written. vm_compute. reflexivity.
    + eexists. erewrite issued_app by (simpl; rewrite <- app_assoc; reflexivity).
      split; reflexivity.
  - (* payment_intent.canceled *)
    unfold trial_user. run_handler.
    destruct (bool_decide (pi_metadata paymentIntent !! "isTrial" = Some "true"));
      simpl; [|split; [reflexivity | no_write]].
    destruct (pi_metadata paymentIntent !! "userId") as [userId|]; simpl;
      [|split; [reflexivity | no_write]].
    destruct (truthy userId); simpl; [|split; [reflexivity | no_write]].
    answered Hanswers.
    split; [reflexivity|]. split.
    + apply field_hset_written. vm_compute. reflexivity.
    + eexists. erewrite issued_app by (simpl; rewrite <- app_assoc; reflexivity).
      split; reflexivity.
  - (* setup_intent.setup_failed *)
    unfold setup_lookup in *. run_handler.
    destruct (bool_decide (si_metadata setupIntent !! "is_trial_setup" = Some "true"));
      simpl in *; [|split; [reflexivity | no_write]].
    destruct (si_metadata setupIntent !! "subscription_id") as [id|]; simpl in *;
      [|split; [reflexivity | no_write]].
    destruct (truthy id); simpl in *; [|split; [reflexivity | no_write]].
    destruct (subscriptions_retrieve api id) as [subscription|]; simpl in *;
      [|split; [reflexivity | no_write]].
    assert (Hindex : indexed (sub_customer subscription) (store w) = None).
    { apply Hall. apply elem_of_app. right. left. }
    unfold indexed in Hindex.
    rewrite (answers_call _ Hanswers), Hindex. simpl.
    split; [reflexivity|]. no_write.
  - (* payment_intent.requires_action *)
    run_handler. split; [reflexivity | no_write].
  - (* other *)
    exfalso. apply Hsome. reflexivity.
Qed.




End Unmapped.

(* ===================================================================== *)
(** ** Properties of the setup-intent route                               *)
(* ===================================================================== *)

(** Two descriptions of the same world, up to the grouping of the logs. *)
Ltac same_world :=
  unfold Eff.advance, Eff.log_redis, Eff.with_store; simpl;
  rewrite <- ?app_assoc, ?app_nil_r; simpl;
  repeat f_equal; try lia.

Section Validation.
Import JS Stripe Eff CheckoutSessions CheckoutSpec.

Lemma advance_nothing (w : World) : advance 0 [] w = w.
Proof. destruct w. unfold advance. simpl. by rewrite app_nil_r. Qed.

Lemma now_run (c : Clock) (w : World) : now c w = (Ok (c (ticks w)), advance 1 [] w).
Proof. unfold now, advance. simpl. by rewrite app_nil_r. Qed.

(** The loop over the allowed products asks Stripe for each of them, in
    order, and keeps the names of those it gets. *)
Lemma allowedProductNames_run (api : Client) (ids : list string) (c : Clock) (w : World) :
  allowedProductNames api ids c w
  = (Ok (names_of api ids), advance 0 (map ProductsRetrieve ids) w).
Proof.
  revert w. induction ids as [|id ids IH]; intros w; simpl.
  - unfold ret. by rewrite advance_nothing.
  - run_effects.
    destruct (products_retrieve api id) as [product|message]; simpl;
      rewrite IH; simpl; f_equal; same_world.
Qed.

(** Finding or creating the customer. *)
Lemma find_or_create_customer_run (api : Client) (userId : string)
    (customer : Customer) (c : Clock) (w : World) :
  customer_found api userId customer →
  find_or_create_customer api userId c w
  = (Ok (Some customer), advance 0 (customer_calls api userId) w).
Proof.
  unfold find_or_create_customer, customer_calls. run_effects.
  intros [[rest ->] | [-> ->]]; simpl; f_equal; same_world.
Qed.

Local Arguments array_includes : simpl never.
Local Arguments join : simpl never.
Local Arguments String.append : simpl never.
Local Arguments calculateDiscountAmount : simpl never.

(** The product check: it passes without a request to Stripe unless the
    list names products and the requested one is not among them. *)
Lemma check_product_restrictions_run (api : Client) (price : Price) (productId : string)
    (a : AppliesTo) (c : Clock) (w : World) :
  check_product_restrictions api price productId a c w =
  match products a with
  | Some (first :: others) =>
    if array_includes (first :: others) productId then (Ok None, w)
    else
      let names := names_of api (first :: others) in
      (Ok (Some (json_status
                   (error_body
                      (if (0 <? length names)%nat
                       then "This promo code is valid only for " +:+ join " and " names
                            +:+ " and does not apply to your selected "
                            +:+ interval_or price "unknown" +:+ " plan."
                       else "This promo code is not valid for the selected plan."))
                   400)),
       advance 0 (map ProductsRetrieve (first :: others)) w)
  | _ => (Ok None, w)
  end.
Proof.
  unfold check_product_restrictions.
  destruct (products a) as [[|first others]|]; try reflexivity.
  change (0 <? length (first :: others))%nat with true. cbv iota.
  destruct (array_includes (first :: others) productId); [reflexivity|].
  unfold negb, bind. rewrite allowedProductNames_run. reflexivity.
Qed.

(** The price check: an empty list rejects at once; a list without the
    requested price rejects after looking up the price and its product. *)
Lemma check_price_restrictions_run (api : Client) (price : Price) (priceId : string)
    (product : Product) (a : AppliesTo) (c : Clock) (w : World) :
  prices_retrieve api priceId = Ok price →
  prices a = Some [] ∨ products_retrieve api (price_product price) = Ok product →
  check_price_restrictions api price priceId a c w =
  match prices a with
  | Some [] =>
    (Ok (Some (json_status
                 (error_body "This promo code is not valid for the selected billing cycle")
                 400)), w)
  | Some allowed =>
    if array_includes allowed priceId then (Ok None, w)
    else
      (Ok (Some (json_status
                   (error_body
                      ("This promo code is valid only for " +:+ prod_name product
                       +:+ " ("
                       +:+ (if String.eqb (interval_or price "unknown") "month"
                            then "monthly" else "yearly")
                       +:+ " billing) and does not apply to your selected "
                       +:+ interval_or price "unknown" +:+ " plan."))
                   400)),
       advance 0 [PricesRetrieve priceId; ProductsRetrieve (price_product price)] w)
  | None => (Ok None, w)
  end.
Proof.
  intros Hprice Hproduct.
  unfold check_price_restrictions.
  destruct (prices a) as [[|first others]|]; try reflexivity.
  destruct Hproduct as [[=]|Hproduct].
  change (0 <? length (first :: others))%nat with true. cbv iota.
  destruct (array_includes (first :: others) priceId); [reflexivity|].
  run_effects. rewrite Hprice. simpl. rewrite Hproduct. simpl. f_equal. same_world.
Qed.

(** The checks on the coupon, in the order product, price, discount. *)
Lemma check_coupon_run (api : Client) (code priceId : string) (price : Price)
    (product : Product) (codes : list PromotionCode) (p : PromotionCode)
    (coupon : Coupon) (t : Instant) (c : Clock) (w : World) :
  prices_retrieve api priceId = Ok price →
  prices_empty coupon = true ∨ products_retrieve api (price_product price) = Ok product →
  let i := {| in_api := api; in_code := code; in_priceId := priceId; in_price := price;
              in_codes := codes; in_coupon := coupon; in_now := t |} in
  check_coupon api price priceId (price_product price) p coupon c w =
  if product_excluded coupon (price_product price) then
    (Ok (inl (rejection i product ProductRestriction)),
     advance 0 (map ProductsRetrieve (restricted_products coupon)) w)
  else if price_excluded coupon priceId then
    (Ok (inl (rejection i product PriceRestriction)),
     advance 0 (if prices_empty coupon then []
                else [PricesRetrieve priceId; ProductsRetrieve (price_product price)]) w)
  else if calculateDiscountAmount api price coupon =? 0 then
    (Ok (inl (rejection i product NonzeroDiscount)), w)
  else
    (Ok (inr {| validatedPromotionCode := Some (promo_code p);
                discountAmount := calculateDiscountAmount api price coupon;
                CheckoutSessions.coupon := Some coupon |}), w).
Proof.
  intros Hprice Hproduct i. subst i.
  unfold check_coupon, rejection, rejection_message, product_excluded, price_excluded,
    restricted_products, prices_empty. simpl.
  destruct (applies_to coupon) as [a|] eqn:Happlies; simpl.
  - unfold bind at 1. unfold bind at 1.
    rewrite check_product_restrictions_run.
    assert (Hproduct' : prices a = Some []
                        ∨ products_retrieve api (price_product price) = Ok product).
    { destruct Hproduct as [Hempty|Hproduct]; [left|right; exact Hproduct].
      unfold prices_empty in Hempty. rewrite Happlies in Hempty.
      destruct (prices a) as [[|? ?]|]; [reflexivity | discriminate | discriminate]. }
    pose proof (fun w' => check_price_restrictions_run api price priceId product a c w'
                            Hprice Hproduct') as Hprices.
    destruct (products a) as [[|first others]|]; simpl;
      try destruct (array_includes (first :: others) (price_product price)); simpl;
      try reflexivity;
      rewrite Hprices;
      destruct (prices a) as [[|first' others']|]; simpl;
      try destruct (array_includes (first' :: others') priceId); simpl;
      try (rewrite advance_nothing); unfold ret;
      try destruct (calculateDiscountAmount api price coupon =? 0); reflexivity.
  - unfold bind, ret.
    destruct (calculateDiscountAmount api price coupon =? 0); reflexivity.
Qed.

(** The validation block returns the rejection of the first failing check
    of the order, having sent Stripe the requests up to that check and no
    other; when no check fails it falls through with the validated code. *)
Lemma validate_promotion_code_run (api : Client) (code priceId : string) (price : Price)
    (product : Product) (i : Inputs) (c : Clock) (w : World) :
  prices_retrieve api priceId = Ok price →
  prices_empty (in_coupon i) = true
  ∨ products_retrieve api (price_product price) = Ok product →
  resolves api code priceId price (c (ticks w)) i →
  ∃ n,
    (∀ check, first_failing i = Some check →
       validate_promotion_code api price priceId (price_product price) code c w
       = (Ok (inl (rejection i product check)), advance n (rejection_calls i check) w))
    ∧ (first_failing i = None →
       ∃ p rest, in_codes i = p :: rest ∧
         validate_promotion_code api price priceId (price_product price) code c w
         = (Ok (inr (validated p i)),
            advance n [PromotionCodesList code; CouponsRetrieve (promo_coupon p)] w)).
Proof.
  intros Hprice Hproduct (Hapi & Hcode & HpriceId & Hprice' & Hnow & Hlist & Hcoupon).
  destruct i as [api' code' priceId' price' codes coupon t]. simpl in *. subst.
  unfold first_failing, order, validate_promotion_code, validated, expired. simpl.
  assert (Hchecks := fun w' =>
    check_coupon_run api code priceId price product codes
      (default {| promo_id := ""; promo_code := ""; promo_expires_at := None;
                  promo_coupon := "" |} (head codes))
      coupon (c (ticks w)) c w' Hprice Hproduct).
  simpl in Hchecks.
  run_effects. rewrite Hlist.
  destruct codes as [|p rest]; simpl.
  { exists 0%nat. split; [intros check [= <-]; reflexivity | discriminate]. }
  rewrite (Hcoupon p rest eq_refl). simpl in Hchecks. unfold expired.
  destruct (truthyZ_opt (promo_expires_at p)); simpl;
    [destruct (default 0 (promo_expires_at p) <? ms (c (ticks w)) / 1000); simpl;
     exists 1%nat | exists 0%nat].
  1: { split; [intros check [= <-] | discriminate]. f_equal; same_world. }
  all: rewrite Hchecks;
    (destruct (product_excluded coupon (price_product price)); simpl;
       [split; [intros check [= <-]; f_equal; same_world | discriminate]|]);
    (destruct (price_excluded coupon priceId); simpl;
       [split; [intros check [= <-]; f_equal; same_world | discriminate]|]);
    (destruct (calculateDiscountAmount api price coupon =? 0); simpl;
       [split; [intros check [= <-]; f_equal; same_world | discriminate]|]);
    split; [discriminate|]; intros _; exists p, rest; split; [reflexivity|];
    f_equal; same_world.
Qed.

(** A request that reaches the validation runs it after the customer and
    the price were looked up. *)
Lemma POST_validating (cfg : Config) (request : Request) (api : Client)
    (priceId userId code : string) (customer : Customer) (price : Price)
    (c : Clock) (w : World) :
  validating cfg request api priceId userId code customer price →
  POST cfg request c w =
  try_catch (validate_then_create api priceId userId (Some code) customer price) on_error c
    (advance 0 (customer_calls api userId ++ [PricesRetrieve priceId]) w).
Proof.
  intros (Hapi & Hbody & HpriceId & HuserId & Hcode & Hcustomer & Hprice).
  unfold POST. rewrite Hapi, Hbody. simpl. rewrite HpriceId, HuserId. simpl.
  unfold try_catch, bind at 1.
  rewrite (find_or_create_customer_run api userId customer c w Hcustomer).
  unfold bind at 1. unfold stripe_call at 1. rewrite Hprice.
  replace (advance 0 (customer_calls api userId ++ [PricesRetrieve priceId]) w)
    with {| store := store (advance 0 (customer_calls api userId) w);
            ticks := ticks (advance 0 (customer_calls api userId) w);
            redis_calls := redis_calls (advance 0 (customer_calls api userId) w);
            stripe_calls := stripe_calls (advance 0 (customer_calls api userId) w)
                            ++ [PricesRetrieve priceId] |}
    by same_world.
  reflexivity.
Qed.

(** The answer of the route when a check fails. *)
Lemma POST_rejects (cfg : Config) (request : Request) (api : Client)
    (priceId userId code : string) (customer : Customer) (price : Price)
    (product : Product) (i : Inputs) (check : Check) (c : Clock) (w : World) :
  validating cfg request api priceId userId code customer price →
  prices_empty (in_coupon i) = true
  ∨ products_retrieve api (price_product price) = Ok product →
  resolves api code priceId price (c (ticks w)) i →
  first_failing i = Some check →
  ∃ n, POST cfg request c w =
       (Ok (rejection i product check),
        advance n (customer_calls api userId ++ [PricesRetrieve priceId]
                   ++ rejection_calls i check) w).
Proof.
  intros Hval Hproduct Hres Hcheck.
  rewrite (POST_validating _ _ _ _ _ _ _ _ c w Hval).
  destruct Hval as (_ & _ & _ & _ & Hcode & _ & Hprice).
  set (w0 := advance 0 (customer_calls api userId ++ [PricesRetrieve priceId]) w).
  destruct (validate_promotion_code_run api code priceId price product i c w0 Hprice
              Hproduct Hres) as (n & Hrej & _).
  exists n. unfold try_catch, validate_then_create. simpl. rewrite Hcode.
  unfold bind. rewrite (Hrej check Hcheck). unfold ret. subst w0. f_equal. same_world.
Qed.

(** The answer of the route when no check fails: the setup intent is
    created with the validated code in its metadata. *)
Lemma POST_accepts (cfg : Config) (request : Request) (api : Client)
    (priceId userId code : string) (customer : Customer) (price : Price)
    (product : Product) (setupIntent : SetupIntent) (i : Inputs) (c : Clock) (w : World) :
  validating cfg request api priceId userId code customer price →
  products_retrieve api (price_product price) = Ok product →
  resolves api code priceId price (c (ticks w)) i →
  first_failing i = None →
  (∀ params, setupIntents_create api params = Ok setupIntent) →
  ∃ n p,
    head (in_codes i) = Some p
    ∧ POST cfg request c w =
      (Ok (json (response setupIntent priceId (price_product price) price product
                   (validated p i))),
       advance n (customer_calls api userId
                  ++ [PricesRetrieve priceId; PromotionCodesList code;
                      CouponsRetrieve (promo_coupon p);
                      SetupIntentsCreate
                        {| sic_customer := cus_id customer;
                           sic_payment_method_types := ["card"];
                           sic_usage := "off_session";
                           sic_metadata := setup_metadata priceId userId (validated p i) |};
                      ProductsRetrieve (price_product price)]) w).
Proof.
  intros Hval Hproduct Hres Hnone Hcreate.
  rewrite (POST_validating _ _ _ _ _ _ _ _ c w Hval).
  destruct Hval as (_ & _ & _ & _ & Hcode & _ & Hprice).
  set (w0 := advance 0 (customer_calls api userId ++ [PricesRetrieve priceId]) w).
  destruct (validate_promotion_code_run api code priceId price product i c w0 Hprice
              (or_intror Hproduct) Hres) as (n & _ & Hacc).
  destruct (Hacc Hnone) as (p & rest & Hcodes & Hrun).
  exists n, p. split; [by rewrite Hcodes|].
  unfold try_catch, validate_then_create. simpl. rewrite Hcode.
  unfold bind at 1. rewrite Hrun. unfold create_setup_intent. run_effects.
  rewrite Hcreate, Hproduct. simpl.
  subst w0. f_equal. same_world.
Qed.

Lemma no_setup_intent_nil : no_setup_intent [].
Proof. intros params Hin. by apply elem_of_nil in Hin. Qed.

Lemma no_setup_intent_cons (call : Stripe.Call) (calls : list Stripe.Call) :
  (∀ params, call ≠ SetupIntentsCreate params) →
  no_setup_intent calls → no_setup_intent (call :: calls).
Proof.
  intros Hcall Hcalls params Hin. apply elem_of_cons in Hin as [Heq|Hin].
  - exact (Hcall params (eq_sym Heq)).
  - exact (Hcalls params Hin).
Qed.

Lemma no_setup_intent_app (calls1 calls2 : list Stripe.Call) :
  no_setup_intent calls1 → no_setup_intent calls2 → no_setup_intent (calls1 ++ calls2).
Proof.
  intros H1 H2 params Hin. apply elem_of_app in Hin as [Hin|Hin].
  - exact (H1 params Hin).
  - exact (H2 params Hin).
Qed.

Lemma no_setup_intent_retrievals (ids : list string) :
  no_setup_intent (map ProductsRetrieve ids).
Proof.
  induction ids as [|id ids IH]; simpl.
  - apply no_setup_intent_nil.
  - apply no_setup_intent_cons; [discriminate | exact IH].
Qed.

(** Neither the lookups before the validation nor the requests of a
    rejected validation create a setup intent. *)
Lemma rejected_without_setup_intent (api : Client) (userId priceId : string)
    (i : Inputs) (check : Check) :
  no_setup_intent (customer_calls api userId ++ [PricesRetrieve priceId]
                   ++ rejection_calls i check).
Proof.
  unfold customer_calls, rejection_calls.
  apply no_setup_intent_app.
  - destruct (customers_list api userId) as [[|? ?]|];
      repeat (apply no_setup_intent_cons; [discriminate|]); apply no_setup_intent_nil.
  - destruct check, (in_codes i) as [|p rest], (prices_empty (in_coupon i)); simpl;
      repeat first
        [ apply no_setup_intent_nil
        | apply no_setup_intent_retrievals
        | apply no_setup_intent_cons; [discriminate|]
        | apply no_setup_intent_app ].
Qed.

(** The first failing check is the check that fails after all earlier
    ones passed. *)
Lemma first_failing_iff (i : Inputs) (check : Check) :
  first_failing i = Some check ↔ fails_first i check.
Proof.
  unfold first_failing, fails_first, order. cbn [find].
  split.
  - destruct (fails i Existence) eqn:H1; [intros [= <-]; split; [exact H1|constructor]|].
    destruct (fails i Expiration) eqn:H2;
      [intros [= <-]; split; [exact H2|repeat constructor; assumption]|].
    destruct (fails i ProductRestriction) eqn:H3;
      [intros [= <-]; split; [exact H3|repeat constructor; assumption]|].
    destruct (fails i PriceRestriction) eqn:H4;
      [intros [= <-]; split; [exact H4|repeat constructor; assumption]|].
    destruct (fails i NonzeroDiscount) eqn:H5;
      [intros [= <-]; split; [exact H5|repeat constructor; assumption]|].
    discriminate.
  - intros [Hfails Hearlier].
    destruct check; cbn [earlier] in Hearlier;
      repeat match goal with
             | H : Forall _ (_ :: _) |- _ =>
               apply Forall_cons in H; destruct H as [-> H]
             end;
      rewrite Hfails; reflexivity.
Qed.

(** The price check when the product it names cannot be retrieved: a
    list without the requested price makes the check throw. *)
Lemma check_price_restrictions_thrown (api : Client) (price : Price) (priceId : string)
    (message : string) (a : AppliesTo) (c : Clock) (w : World) :
  prices_retrieve api priceId = Ok price →
  products_retrieve api (price_product price) = Threw message →
  check_price_restrictions api price priceId a c w =
  match prices a with
  | Some [] =>
    (Ok (Some (json_status
                 (error_body "This promo code is not valid for the selected billing cycle")
                 400)), w)
  | Some allowed =>
    if array_includes allowed priceId then (Ok None, w)
    else (Threw message,
          advance 0 [PricesRetrieve priceId; ProductsRetrieve (price_product price)] w)
  | None => (Ok None, w)
  end.
Proof.
  intros Hprice Hproduct.
  unfold check_price_restrictions.
  destruct (prices a) as [[|first others]|]; try reflexivity.
  change (0 <? length (first :: others))%nat with true. cbv iota.
  destruct (array_includes (first :: others) priceId); [reflexivity|].
  run_effects. rewrite Hprice. simpl. rewrite Hproduct. simpl. f_equal. same_world.
Qed.

(** The checks on the coupon when the product of the requested price
    cannot be retrieved and the price list is not empty. *)
Lemma check_coupon_thrown (api : Client) (code priceId : string) (price : Price)
    (message : string) (codes : list PromotionCode) (p : PromotionCode)
    (coupon : Coupon) (t : Instant) (c : Clock) (w : World) :
  prices_retrieve api priceId = Ok price →
  products_retrieve api (price_product price) = Threw message →
  prices_empty coupon = false →
  let i := {| in_api := api; in_code := code; in_priceId := priceId; in_price := price;
              in_codes := codes; in_coupon := coupon; in_now := t |} in
  check_coupon api price priceId (price_product price) p coupon c w =
  if product_excluded coupon (price_product price) then
    (Ok (inl (rejection i (named_product i) ProductRestriction)),
     advance 0 (map ProductsRetrieve (restricted_products coupon)) w)
  else if price_excluded coupon priceId then
    (Threw message,
     advance 0 [PricesRetrieve priceId; ProductsRetrieve (price_product price)] w)
  else if calculateDiscountAmount api price coupon =? 0 then
    (Ok (inl (rejection i (named_product i) NonzeroDiscount)), w)
  else
    (Ok (inr {| validatedPromotionCode := Some (promo_code p);
                discountAmount := calculateDiscountAmount api price coupon;
                CheckoutSessions.coupon := Some coupon |}), w).
Proof.
  intros Hprice Hproduct Hempty i. subst i.
  unfold check_coupon, rejection, rejection_message, product_excluded, price_excluded,
    restricted_products. unfold prices_empty in Hempty. simpl.
  destruct (applies_to coupon) as [a|] eqn:Happlies; simpl.
  - unfold bind at 1. unfold bind at 1.
    rewrite check_product_restrictions_run.
    pose proof (fun w' => check_price_restrictions_thrown api price priceId message a c w'
                            Hprice Hproduct) as Hprices.
    destruct (products a) as [[|first others]|]; simpl;
      try destruct (array_includes (first :: others) (price_product price)); simpl;
      try reflexivity;
      rewrite Hprices;
      (destruct (prices a) as [[|first' others']|]; [discriminate| |]); simpl;
      try destruct (array_includes (first' :: others') priceId); simpl;
      unfold ret;
      try destruct (calculateDiscountAmount api price coupon =? 0); reflexivity.
  - unfold bind, ret.
    destruct (calculateDiscountAmount api price coupon =? 0); reflexivity.
Qed.

(** The validation block when a check fails, whatever Stripe answers for
    the product of the requested price: the rejection of the first
    failing check, or the answer of the block's [catch] when the message
    of the price check cannot be worded. *)
Lemma validate_promotion_code_verdict (api : Client) (code priceId : string)
    (price : Price) (i : Inputs) (check : Check) (c : Clock) (w : World) :
  prices_retrieve api priceId = Ok price →
  resolves api code priceId price (c (ticks w)) i →
  first_failing i = Some check →
  ∃ n, validate_promotion_code api price priceId (price_product price) code c w
       = (Ok (inl (verdict i check)), advance n (rejection_calls i check) w).
Proof.
  intros Hprice Hres Hcheck.
  assert (Hi : in_api i = api ∧ in_price i = price)
    by (destruct Hres as (? & _ & _ & ? & _); split; assumption).
  destruct Hi as [Hapi Hin_price].
  unfold verdict, message_fails, named_product. rewrite Hapi, Hin_price.
  destruct (products_retrieve api (price_product price)) as [product|message] eqn:Hproduct.
  - destruct (validate_promotion_code_run api code priceId price product i c w Hprice
                (or_intror Hproduct) Hres) as (n & Hrej & _).
    exists n. rewrite (Hrej check Hcheck).
    destruct check; simpl; rewrite ?andb_false_r; reflexivity.
  - destruct (prices_empty (in_coupon i)) eqn:Hempty.
    + destruct (validate_promotion_code_run api code priceId price
                  {| prod_id := ""; prod_name := "" |} i c w Hprice
                  (or_introl Hempty) Hres) as (n & Hrej & _).
      exists n. rewrite (Hrej check Hcheck).
      destruct check; reflexivity.
    + destruct Hres as (_ & Hcode & HpriceId & _ & Hnow & Hlist & Hcoupon).
      destruct i as [api' code' priceId' price' codes coupon t]. simpl in *. subst.
      unfold first_failing, order in Hcheck. simpl in Hcheck.
      unfold validate_promotion_code, validation_failure, expired in *.
      assert (Hchecks := fun w' =>
        check_coupon_thrown api code priceId price message codes
          (default {| promo_id := ""; promo_code := ""; promo_expires_at := None;
                      promo_coupon := "" |} (head codes))
          coupon (c (ticks w)) c w' Hprice Hproduct Hempty).
      simpl in Hchecks. unfold named_product in Hchecks. simpl in Hchecks.
      rewrite Hproduct in Hchecks.
      remember (rejection_calls _ check) as calls eqn:Hcalls.
      run_effects. rewrite Hlist.
      destruct codes as [|p rest]; simpl; simpl in Hcheck.
      { exists 0%nat. injection Hcheck as <-. subst calls. reflexivity. }
      rewrite (Hcoupon p rest eq_refl). simpl in Hchecks.
      destruct (truthyZ_opt (promo_expires_at p)); simpl; simpl in Hcheck;
        [destruct (default 0 (promo_expires_at p) <? ms (c (ticks w)) / 1000);
         simpl; simpl in Hcheck; exists 1%nat | exists 0%nat].
      1: { injection Hcheck as <-. subst calls. f_equal; same_world. }
      all: rewrite Hchecks;
        (destruct (product_excluded coupon (price_product price)); simpl; simpl in Hcheck;
           [injection Hcheck as <-; subst calls; f_equal; same_world|]);
        (destruct (price_excluded coupon priceId); simpl; simpl in Hcheck;
           [injection Hcheck as <-; subst calls; unfold rejection_calls;
            cbn [in_coupon]; rewrite Hempty; f_equal; same_world|]);
        (destruct (calculateDiscountAmount api price coupon =? 0); simpl; simpl in Hcheck;
           [injection Hcheck as <-; subst calls; f_equal; same_world | discriminate]).
Qed.


(** The sample request validates against the sample account. *)
Lemma sample_validating (coupon : Coupon) :
  validating (Fixtures.checkout_config coupon) Fixtures.checkout_request
    (Fixtures.checkout_client coupon) "price_std" "ada@example.com" "SAVE5"
    {| cus_id := "cus_1" |} Fixtures.standard_price.
Proof.
  repeat split; try reflexivity. left. exists []. reflexivity.
Qed.

Lemma sample_resolves (coupon : Coupon) :
  resolves (Fixtures.checkout_client coupon) "SAVE5" "price_std" Fixtures.standard_price
    (Fixtures.clock 0%nat) (Fixtures.checkout_inputs coupon).
Proof.
  repeat split; try reflexivity.
Qed.



(** C8: whatever price is requested, a promotion code whose coupon carries
    a present but empty [applies_to.prices] list is answered with status
    400, and no request that creates a setup intent is sent to Stripe. *)
Theorem empty_price_list_rejects (cfg : Config) (request : Request) (api : Client)
    (priceId userId code : string) (customer : Customer) (price : Price)
    (p : PromotionCode) (rest : list PromotionCode) (coupon : Coupon) (a : AppliesTo)
    (c : Clock) (w : World) :
  validating cfg request api priceId userId code customer price →
  promotionCodes_list api code = Ok (p :: rest) →
  coupons_retrieve api (promo_coupon p) = Ok coupon →
  applies_to coupon = Some a →
  prices a = Some [] →
  status_of (fst (POST cfg request c w)) = Some 400
  ∧ ∃ n calls, snd (POST cfg request c w) = advance n calls w ∧ no_setup_intent calls.
Proof.
  intros Hval Hlist Hcoupon Happlies Hprices.
  set (i := {| in_api := api; in_code := code; in_priceId := priceId; in_price := price;
               in_codes := p :: rest; in_coupon := coupon; in_now := c (ticks w) |}).
  assert (Hres : resolves api code priceId price (c (ticks w)) i).
  { repeat split; try reflexivity; [exact Hlist|].
    intros p' rest' [= <- <-]. exact Hcoupon. }
  assert (Hempty : prices_empty coupon = true)
    by (unfold prices_empty; rewrite Happlies, Hprices; reflexivity).
  assert (Hexcluded : price_excluded coupon priceId = true)
    by (unfold price_excluded; rewrite Happlies, Hprices; reflexivity).
  assert (Hfails : ∃ check, first_failing i = Some check).
  { unfold first_failing, order. simpl. rewrite Hexcluded.
    destruct (expired p (c (ticks w))); [eauto|].
    destruct (product_excluded coupon (price_product price)); eauto. }
  destruct Hfails as [check Hcheck].
  destruct (POST_rejects cfg request api priceId userId code customer price
              {| prod_id := ""; prod_name := "" |} i check c w Hval (or_introl Hempty)
              Hres Hcheck) as (n & ->).
  simpl. split; [reflexivity|].
  exists n. eexists. split; [reflexivity | apply rejected_without_setup_intent].
Qed.

(** The sample code with a coupon that lists no price. *)
Lemma empty_price_list_rejects_witness :
  status_of (fst (POST (Fixtures.checkout_config Fixtures.no_price_coupon)
                    Fixtures.checkout_request Fixtures.clock (initial Redis.empty)))
  = Some 400.
Proof.
  apply (empty_price_list_rejects
           (Fixtures.checkout_config Fixtures.no_price_coupon)
           Fixtures.checkout_request
           (Fixtures.checkout_client Fixtures.no_price_coupon)
           "price_std" "ada@example.com" "SAVE5" {| cus_id := "cus_1" |}
           Fixtures.standard_price Fixtures.promo [] Fixtures.no_price_coupon
           {| products := None; prices := Some [] |}
           Fixtures.clock (initial Redis.empty)).
  - apply sample_validating.
  - reflexivity.
  - reflexivity.
  - reflexivity.
  - reflexivity.
Defined.

(** C10: a coupon whose [applies_to.products] list is present but empty
    restricts no product: the product check passes for every product
    without a request to Stripe, the route's answer is that of the
    remaining checks (a rejection never comes from the product check, and
    when no check fails the setup intent is created), whereas a present
    but empty [applies_to.prices] list excludes every price. *)
Theorem empty_product_list_unrestricted (cfg : Config) (request : Request) (api : Client)
    (priceId userId code : string) (customer : Customer) (price : Price)
    (product : Product) (setupIntent : SetupIntent) (i : Inputs) (a : AppliesTo)
    (c : Clock) (w : World) :
  validating cfg request api priceId userId code customer price →
  products_retrieve api (price_product price) = Ok product →
  (∀ params, setupIntents_create api params = Ok setupIntent) →
  resolves api code priceId price (c (ticks w)) i →
  applies_to (in_coupon i) = Some a →
  products a = Some [] →
  (∀ productId w', check_product_restrictions api price productId a c w' = (Ok None, w'))
  ∧ (∀ productId, product_excluded (in_coupon i) productId = false)
  ∧ (∀ check, first_failing i = Some check →
       check ≠ ProductRestriction
       ∧ fst (POST cfg request c w) = Ok (rejection i product check))
  ∧ (first_failing i = None →
       status_of (fst (POST cfg request c w)) = Some 200
       ∧ ∃ params, SetupIntentsCreate params ∈ stripe_calls (snd (POST cfg request c w)))
  ∧ (prices a = Some [] → ∀ priceId', price_excluded (in_coupon i) priceId' = true).
Proof.
  intros Hval Hproduct Hcreate Hres Happlies Hproducts.
  assert (Hunrestricted : ∀ productId, product_excluded (in_coupon i) productId = false).
  { intros productId. unfold product_excluded, restricted_products.
    rewrite Happlies, Hproducts. reflexivity. }
  split; [|split; [exact Hunrestricted|split; [|split]]].
  - intros productId w'. rewrite check_product_restrictions_run, Hproducts. reflexivity.
  - intros check Hcheck. split.
    + intros ->. unfold first_failing, order in Hcheck. simpl in Hcheck.
      rewrite Hunrestricted in Hcheck.
      repeat match type of Hcheck with
             | (if ?b then _ else _) = _ => destruct b
             end; discriminate.
    + destruct (POST_rejects cfg request api priceId userId code customer price product i
                  check c w Hval (or_intror Hproduct) Hres Hcheck) as (n & ->).
      reflexivity.
  - intros Hnone.
    destruct (POST_accepts cfg request api priceId userId code customer price product
                setupIntent i c w Hval Hproduct Hres Hnone Hcreate) as (n & p & _ & ->).
    simpl. split; [reflexivity|]. eexists.
    rewrite !elem_of_app, !elem_of_cons. do 2 right. do 3 right. left. reflexivity.
  - intros Hprices priceId'. unfold price_excluded. rewrite Happlies, Hprices. reflexivity.
Qed.

(** The sample code with a coupon whose product list is empty: the setup
    intent is created. *)
Lemma empty_product_list_unrestricted_witness :
  status_of (fst (POST (Fixtures.checkout_config Fixtures.no_product_coupon)
                    Fixtures.checkout_request Fixtures.clock (initial Redis.empty)))
  = Some 200.
Proof.
  apply (empty_product_list_unrestricted
           (Fixtures.checkout_config Fixtures.no_product_coupon)
           Fixtures.checkout_request
           (Fixtures.checkout_client Fixtures.no_product_coupon)
           "price_std" "ada@example.com" "SAVE5" {| cus_id := "cus_1" |}
           Fixtures.standard_price Fixtures.standard_product Fixtures.succeeded_setup
           (Fixtures.checkout_inputs Fixtures.no_product_coupon)
           {| products := Some []; prices := None |}
           Fixtures.clock (initial Redis.empty)).
  - apply sample_validating.
  - reflexivity.
  - reflexivity.
  - apply sample_resolves.
  - reflexivity.
  - reflexivity.
  - reflexivity.
Defined.

End Validation.

(* ===================================================================== *)
(** ** Properties of the subscription finalization route                  *)
(* ===================================================================== *)

Section Finalization.
Import JS Stripe Eff CreateSubscription FinalizeSpec.

Local Arguments String_of_Z : simpl never.
Local Arguments String.append : simpl never.
Local Arguments Redis.USER_SUBSCRIPTION : simpl never.
Local Arguments Redis.USER_CREDITS : simpl never.
Local Arguments Redis.hset : simpl never.
Local Arguments Redis.del : simpl never.
Local Arguments Redis.hgetall : simpl never.
Local Arguments subscriptionData : simpl never.
Local Arguments credits_for : simpl never.

(** A record that [HGETALL] returns has at least one field. *)
Lemma hgetall_nonempty (k : string) (s : Redis.Store) (h : gmap string string) :
  Redis.hgetall k s = Some h → (0 < size h)%nat.
Proof.
  unfold Redis.hgetall. destruct (Redis.hashes s !! k) as [h'|]; [|discriminate].
  destruct (decide (h' = ∅)) as [|Hne]; [discriminate|]. intros [= <-].
  destruct (size h') eqn:Hsize; [|lia].
  apply map_size_empty_iff in Hsize. contradiction.
Qed.

(** Writing a whole record after deleting the key leaves exactly the
    written fields. *)
Lemma hset_after_del (k : string) (fs : Redis.Fields) (s : Redis.Store) :
  Redis.hashes (Redis.hset k fs (Redis.del k s)) !! k = Some (list_to_map fs).
Proof.
  unfold Redis.hset, Redis.del. simpl.
  rewrite lookup_insert_eq, lookup_delete_eq. simpl. by rewrite (right_id_L ∅ (∪)).
Qed.

Lemma hset_fresh (k : string) (fs : Redis.Fields) (s : Redis.Store) :
  Redis.hgetall k s = None →
  Redis.hashes (Redis.hset k fs s) !! k = Some (list_to_map fs).
Proof.
  unfold Redis.hset, Redis.hgetall. simpl. rewrite lookup_insert_eq.
  destruct (Redis.hashes s !! k) as [h|]; simpl.
  - destruct (decide (h = ∅)) as [->|]; [|discriminate].
    intros _. by rewrite (right_id_L ∅ (∪)).
  - intros _. by rewrite (right_id_L ∅ (∪)).
Qed.

(** The credit entry is always written: every row of the table is
    positive. *)
Lemma credits_for_positive (name : string) : (0 <? credits_for name) = true.
Proof.
  unfold credits_for.
  destruct (truthy name && includes name "Standard"); [reflexivity|].
  destruct (truthy name && includes name "Enterprise"); reflexivity.
Qed.

(** No name is empty and contains a non-empty word. *)
Lemma includes_truthy (name word : string) :
  truthy word = true → includes name word = true → truthy name = true.
Proof.
  destruct name; [|reflexivity]. destruct word; [discriminate|]. simpl. discriminate.
Qed.

(** The code's choice of credits is the plan table with the first matching
    row winning. *)
Lemma credits_for_plan_table (name : string) : credits_for name = plan_table name.
Proof.
  unfold credits_for, plan_table.
  destruct (includes name "Standard") eqn:Hstandard.
  - by rewrite (includes_truthy name "Standard").
  - rewrite andb_false_r.
    destruct (includes name "Enterprise") eqn:Henterprise.
    + by rewrite (includes_truthy name "Enterprise").
    + by rewrite andb_false_r.
Qed.

(** A setup intent that is not ready is rejected right after it was
    retrieved. *)
Lemma POST_not_ready (cfg : Config) (request : Request) (api : Client)
    (userId id priceId : string) (info : option PromoCodeInfo) (setupIntent : SetupIntent)
    (c : Clock) (w : World) :
  finalizing cfg request api userId id priceId info setupIntent →
  ready setupIntent = false →
  POST cfg request c w =
  (Ok (json_status
         (error_body ("Invalid setup intent: status=" +:+ si_status setupIntent
                      +:+ ", payment_method="
                      +:+ show_payment_method (si_payment_method setupIntent)))
         400),
   advance 0 [SetupIntentsRetrieve id] w).
Proof.
  intros (Htoken & Huser & Hapi & Hid & Hprice & (code & Hbody) & Hsetup) Hready.
  unfold POST. rewrite Htoken, Hapi, Hbody. simpl.
  rewrite Huser, Hid, Hprice. simpl. run_effects. rewrite Hsetup. simpl.
  unfold ready in Hready.
  destruct (String.eqb (si_status setupIntent) "succeeded"); simpl in *;
    [rewrite Hready|]; simpl; f_equal; same_world.
Qed.

(** Exhibits the world reached and checks that its store, store log and
    clock are those of [w]. *)
Ltac untouched :=
  eexists; (split; [|split; [|split]]); [| | |reflexivity]; reflexivity.

(** Once Stripe created the subscription, the route goes on to record it,
    with the store still untouched. *)
Lemma POST_created (cfg : Config) (request : Request) (api : Client)
    (userId id priceId : string) (info : option PromoCodeInfo) (setupIntent : SetupIntent)
    (subscription : Subscription) (c : Clock) (w : World) :
  finalizing cfg request api userId id priceId info setupIntent →
  ready setupIntent = true →
  creates api setupIntent priceId info subscription →
  ∃ w0,
    store w0 = store w ∧ redis_calls w0 = redis_calls w ∧ ticks w0 = ticks w
    ∧ POST cfg request c w =
      try_catch (record_subscription api userId priceId info subscription) on_error c w0.
Proof.
  intros (Htoken & Huser & Hapi & Hid & Hprice & (code & Hbody) & Hsetup) Hready
    (discounts & Hdiscounts & Hcreate).
  unfold POST. rewrite Htoken, Hapi, Hbody. simpl.
  rewrite Huser, Hid, Hprice. simpl.
  unfold try_catch at 1. unfold bind at 1. unfold stripe_call at 1. rewrite Hsetup.
  unfold ready in Hready. apply andb_prop in Hready as [Hstatus Hmethod].
  rewrite Hstatus, Hmethod. simpl.
  unfold subscription_params in Hcreate.
  unfold discounts_of in Hdiscounts. unfold discounts_for.
  destruct info as [info|]; [destruct (truthy_opt (pci_promotionCode info))|].
  - run_effects.
    destruct (promotionCodes_list api (or_empty (pci_promotionCode info)))
      as [[|promotionCode rest]|]; [| |discriminate];
      injection Hdiscounts as <-; simpl; rewrite Hcreate; simpl;
      untouched.
  - injection Hdiscounts as <-. run_effects. rewrite Hcreate. simpl.
    untouched.
  - injection Hdiscounts as <-. run_effects. rewrite Hcreate. simpl.
    untouched.
Qed.

Opaque Redis.hset Redis.del Redis.hgetall subscriptionData.

(** The store after the first write of [record_subscription]: the old
    record, if any, is deleted and the new fields are written. *)
Lemma cleared_then_written (k : string) (fs : Redis.Fields) (s : Redis.Store) :
  Redis.hashes
    (Redis.hset k fs
       match Redis.hgetall k s with
       | Some _ => Redis.del k s
       | None => s
       end) !! k = Some (list_to_map fs).
Proof.
  destruct (Redis.hgetall k s) eqn:Hold.
  - apply hset_after_del.
  - by apply hset_fresh.
Qed.

(** Recording the subscription: whatever happens afterwards, the user's
    subscription record holds exactly the new fields, and the store was
    asked to read the record, to delete it if it existed, and then to
    write it, in that order. *)
Lemma record_subscription_writes (api : Client) (userId priceId : string)
    (info : option PromoCodeInfo) (subscription : Subscription) (c : Clock) (w : World) :
  let K := Redis.USER_SUBSCRIPTION userId in
  let data := subscriptionData subscription priceId info in
  let out := try_catch (record_subscription api userId priceId info subscription)
               on_error c w in
  Redis.hashes (store (snd out)) !! K = Some (list_to_map data)
  ∧ ∃ later,
      redis_calls (snd out) =
      (redis_calls w
       ++ Redis.HGetAll K
          :: match Redis.hgetall K (store w) with
             | Some _ => [Redis.Del K]
             | None => []
             end
          ++ Redis.HSet K data :: later)%list.
Proof.
  intros K data out. subst out.
  pose proof (cleared_then_written K data (store w)) as Hrecord.
  pose proof (subscription_key_not_credits userId) as Hkeys. fold K in Hkeys.
  unfold record_subscription. fold K. fold data. run_effects. unfold on_error, ret.
  destruct (Redis.hgetall K (store w)) as [existing|] eqn:Hold; simpl.
  - rewrite (bool_decide_eq_true_2 _ (hgetall_nonempty _ _ _ Hold)). simpl.
    destruct (prices_retrieve api priceId) as [price|]; simpl;
      [destruct (products_retrieve api (price_product price)) as [product|]; simpl|];
      rewrite ?credits_for_positive; simpl;
      rewrite ?hashes_hset_other by (intros E; apply Hkeys; symmetry; exact E);
      (split; [exact Hrecord|]); eexists; rewrite <- !app_assoc; reflexivity.
  - destruct (prices_retrieve api priceId) as [price|]; simpl;
      [destruct (products_retrieve api (price_product price)) as [product|]; simpl|];
      rewrite ?credits_for_positive; simpl;
      rewrite ?hashes_hset_other by (intros E; apply Hkeys; symmetry; exact E);
      (split; [exact Hrecord|]); eexists; rewrite <- !app_assoc; reflexivity.
Qed.

(** Recording the subscription when Stripe knows the price and its
    product: the credit entry is written from the plan's credits. *)
Lemma record_subscription_credits (api : Client) (userId priceId : string)
    (info : option PromoCodeInfo) (subscription : Subscription)
    (price : Price) (product : Product) (c : Clock) (w : World) :
  prices_retrieve api priceId = Ok price →
  products_retrieve api (price_product price) = Ok product →
  let out := try_catch (record_subscription api userId priceId info subscription)
               on_error c w in
  status_of (fst out) = Some 200
  ∧ Redis.field (Redis.USER_CREDITS userId) "total" (store (snd out))
    = Some (String_of_Z (credits_for (prod_name product)))
  ∧ Redis.field (Redis.USER_CREDITS userId) "available" (store (snd out))
    = Some (String_of_Z (credits_for (prod_name product)))
  ∧ Redis.field (Redis.USER_CREDITS userId) "used" (store (snd out)) = Some "0".
Proof.
  intros Hprice Hproduct out. subst out.
  unfold record_subscription. run_effects. rewrite Hprice. simpl. rewrite Hproduct. simpl.
  rewrite credits_for_positive. simpl. unfold credit_fields.
  destruct (Redis.hgetall (Redis.USER_SUBSCRIPTION userId) (store w)) as [existing|];
    [destruct (bool_decide (0 < size existing)%nat)|]; simpl;
    repeat split; apply field_hset_written; vm_compute; reflexivity.
Qed.

Transparent Redis.hset Redis.del Redis.hgetall subscriptionData.



(** C6 (as amended): when the finalization goes through, the credit entry
    written for the user has [used] ['0'] and, as [total], the credits of
    the plan table read from the top: 500 for a product name containing
    ['Standard'], 2000 for a name containing ['Enterprise'] and not
    ['Standard'], 20 for any other name. *)
Theorem finalization_grants_plan_credits (cfg : Config) (request : Request) (api : Client)
    (userId id priceId : string) (info : option PromoCodeInfo) (setupIntent : SetupIntent)
    (subscription : Subscription) (price : Price) (product : Product)
    (c : Clock) (w : World) :
  finalizing cfg request api userId id priceId info setupIntent →
  ready setupIntent = true →
  creates api setupIntent priceId info subscription →
  prices_retrieve api priceId = Ok price →
  products_retrieve api (price_product price) = Ok product →
  credits_for (prod_name product)
  = (if includes (prod_name product) "Standard" then 500
     else if includes (prod_name product) "Enterprise" then 2000
     else 20)
  ∧ status_of (fst (POST cfg request c w)) = Some 200
  ∧ Redis.field (Redis.USER_CREDITS userId) "total" (store (snd (POST cfg request c w)))
    = Some (String_of_Z (credits_for (prod_name product)))
  ∧ Redis.field (Redis.USER_CREDITS userId) "used" (store (snd (POST cfg request c w)))
    = Some "0".
Proof.
  intros Hfin Hready Hcreates Hprice Hproduct.
  split; [apply credits_for_plan_table|].
  destruct (POST_created _ _ _ _ _ _ _ _ subscription c w Hfin Hready Hcreates)
    as (w0 & _ & _ & _ & ->).
  destruct (record_subscription_credits api userId priceId info subscription price product
              c w0 Hprice Hproduct) as (Hstatus & Htotal & _ & Hused).
  auto.
Qed.

(** The standard plan, finalized for [user_42]. *)
Lemma finalization_grants_plan_credits_witness :
  Redis.field (Redis.USER_CREDITS "user_42") "total"
    (store (snd (POST (Fixtures.finalize_config "Standard")
                   (Fixtures.finalize_request "seti_1") Fixtures.clock
                   (initial (Fixtures.store_with_status "active")))))
  = Some (String_of_Z (credits_for "Standard")).
Proof.
  apply (finalization_grants_plan_credits
           (Fixtures.finalize_config "Standard") (Fixtures.finalize_request "seti_1")
           (Fixtures.finalize_client "Standard") "user_42" "seti_1" "price_std" None
           Fixtures.succeeded_setup (Fixtures.subscription "cus_1" "active")
           Fixtures.standard_price Fixtures.standard_product Fixtures.clock
           (initial (Fixtures.store_with_status "active"))).
  - repeat split; try reflexivity. exists None. reflexivity.
  - reflexivity.
  - exists None. split; reflexivity.
  - reflexivity.
  - reflexivity.
Defined.

(** C6 fails as stated: a product name that contains both words contains
    ['Enterprise'], and the finalization grants it the 500 credits of the
    ['Standard'] row, not 2000. *)
Lemma both_words_grant_standard_credits :
  let name := "Standard Enterprise" in
  let run := POST (Fixtures.finalize_config name) (Fixtures.finalize_request "seti_1")
               Fixtures.clock (initial (Fixtures.store_with_status "active")) in
  includes name "Enterprise" = true
  ∧ credits_for name = 500
  ∧ status_of (fst run) = Some 200
  ∧ Redis.field (Redis.USER_CREDITS "user_42") "total" (store (snd run)) = Some "500"
  ∧ Redis.field (Redis.USER_CREDITS "user_42") "total" (store (snd run)) ≠ Some "2000".
Proof.
  cbv zeta.
  assert (Htotal :
    Redis.field (Redis.USER_CREDITS "user_42") "total"
      (store (snd (POST (Fixtures.finalize_config "Standard Enterprise")
                     (Fixtures.finalize_request "seti_1") Fixtures.clock
                     (initial (Fixtures.store_with_status "active"))))) = Some "500")
    by (vm_compute; reflexivity).
  split; [reflexivity|]. split; [reflexivity|]. split; [vm_compute; reflexivity|].
  split; [exact Htotal|]. rewrite Htotal. discriminate.
Qed.

End Finalization.
(* ===================================================================== *)
(** ** Further properties of the webhook                                  *)
(* ===================================================================== *)

Section WebhookGuards.
Import JS Stripe Eff Webhooks WebhookSpec Observe.

(** X1: unless the request passes verification, the webhook touches
    nothing: no call to the store or to Stripe, no reading of the clock.
    The answer is 500 when the client or the secret is missing and 400
    otherwise. *)
Theorem unverified_request_untouched (cfg : Config) (request : Request)
    (c : Clock) (w : World) :
  (∀ event, ¬ verified cfg request event) →
  snd (POST cfg request c w) = w
  ∧ status_of (fst (POST cfg request c w)) = Some (if webhook_ready cfg then 400 else 500).
Proof.
  intros Hnot. unfold POST, try_catch, webhook_ready.
  destruct (stripe cfg) as [api|] eqn:Hapi; simpl; [|auto].
  destruct (truthy (webhookSecret cfg)) eqn:Hsecret; simpl; [|auto].
  destruct (stripe_signature request) as [signature|] eqn:Hsig; simpl; [|auto].
  destruct (truthy signature) eqn:Htruthy; simpl; [|auto].
  destruct (raw_body request) as [rawBody|] eqn:Hbody; simpl; [|auto].
  destruct (webhooks_constructEvent api rawBody signature (webhookSecret cfg))
    as [event|message] eqn:Hevent; simpl; [|auto].
  exfalso. apply (Hnot event). exists api, signature, rawBody.
  repeat split; assumption.
Qed.

(** An endpoint without its secret, sent a well-signed request. *)
Lemma unverified_request_untouched_witness :
  let cfg := {| stripe := Some (Fixtures.webhook_client (Other "ping"));
                webhookSecret := "" |} in
  let w := initial (Fixtures.store_with_status "active") in
  snd (POST cfg Fixtures.signed_request Fixtures.clock w) = w
  ∧ status_of (fst (POST cfg Fixtures.signed_request Fixtures.clock w)) = Some 500.
Proof.
  apply (unverified_request_untouched
           {| stripe := Some (Fixtures.webhook_client (Other "ping"));
              webhookSecret := "" |}
           Fixtures.signed_request Fixtures.clock
           (initial (Fixtures.store_with_status "active"))).
  intros event (api & signature & rawBody & [_ Hsecret] & _). discriminate.
Defined.

End WebhookGuards.


Section WebhookSamples.
Import JS Stripe Eff Webhooks WebhookSpec.

(** On the sample endpoint the signed request is verified and delivers
    the event. *)
Lemma sample_verified (event : Event) :
  verified (Fixtures.webhook_config event) Fixtures.signed_request event.
Proof.
  exists (Fixtures.webhook_client event), "t=1,v1=good", "{}".
  repeat split; reflexivity.
Qed.

Lemma sample_verified_faulty (f : Faults.Faults) (event : Event) :
  verified (Samples.faulty_webhook f event) Fixtures.signed_request event.
Proof.
  exists (Faults.inject f (Fixtures.webhook_client event)), "t=1,v1=good", "{}".
  repeat split; reflexivity.
Qed.

(** [HSET] leaves every field whose name is not among the written ones. *)
Lemma field_hset_unnamed (k f : string) (fs : Redis.Fields) (s : Redis.Store) :
  f ∉ fs.*1 → Redis.field k f (Redis.hset k fs s) = Redis.field k f s.
Proof.
  intros H. apply field_hset_kept. by apply not_elem_of_list_to_map_1.
Qed.

End WebhookSamples.

Section InvoiceEvents.
Import JS Stripe Eff Webhooks WebhookSpec Observe.

(** X2: a verified [invoice.payment_succeeded] event whose subscription
    Stripe returns and whose customer is mapped to a user is acknowledged;
    the user's subscription record then has status ['active'] for a
    renewal ([subscription_cycle]) and Stripe's status otherwise, and
    Stripe's status under [stripeSubscriptionStatus]; the fields outside
    the payment fields, every other record (the credits among them) and
    the customer index are as before. *)
Theorem invoice_payment_recorded (cfg : Config) (request : Request) (api : Client)
    (invoice : Invoice) (id : string) (subscription : Subscription)
    (userId : string) (c : Clock) (w : World) :
  verified cfg request (InvoicePaymentSucceeded invoice) →
  stripe cfg = Some api →
  inv_subscription invoice = Some id →
  truthy id = true →
  subscriptions_retrieve api id = Ok subscription →
  Redis.get (Redis.customer_key (sub_customer subscription)) (store w) = Some userId →
  truthy userId = true →
  let K := Redis.USER_SUBSCRIPTION userId in
  let s' := store (snd (POST cfg request c w)) in
  fst (POST cfg request c w) = Ok (json received)
  ∧ Redis.field K "status" s'
    = Some (if bool_decide (inv_billing_reason invoice = Some "subscription_cycle")
            then "active" else sub_status subscription)
  ∧ Redis.field K "stripeSubscriptionStatus" s' = Some (sub_status subscription)
  ∧ (∀ f, f ∉ payment_fields → Redis.field K f s' = Redis.field K f (store w))
  ∧ (∀ k, k ≠ K → Redis.hashes s' !! k = Redis.hashes (store w) !! k)
  ∧ Redis.strs s' = Redis.strs (store w).
Proof.
  intros Hverified Hapi Hsub Hid Hretrieve Hget Huser K s'. subst K s'.
  destruct (POST_verified _ _ _ Hverified) as (api' & Hapi' & ->).
  rewrite Hapi in Hapi'. injection Hapi' as <-.
  unfold try_catch, dispatch, on_invoice_payment_succeeded, when.
  rewrite Hsub. simpl. rewrite Hid. run_effects.
  rewrite Hretrieve. simpl. rewrite !Hget. simpl. rewrite Huser. simpl.
  assert (Hnames : ∀ f, f ∉ payment_fields →
            f ≠ "status" ∧ f ≠ "lastUpdated" ∧ f ≠ "trialEndedAt"
            ∧ f ≠ "lastPaymentDate" ∧ f ≠ "initialPaymentDate"
            ∧ f ≠ "stripeSubscriptionStatus").
  { intros f Hf. repeat split; intros ->; apply Hf; unfold payment_fields;
      repeat constructor. }
  destruct (bool_decide (inv_billing_reason invoice = Some "subscription_cycle"));
    [|destruct (bool_decide (inv_billing_reason invoice = Some "subscription_create"))];
    simpl;
    (split; [reflexivity|]);
    (split; [apply field_hset_written; vm_compute; reflexivity|]);
    (split; [apply field_hset_written; vm_compute; reflexivity|]);
    (split; [intros f Hf; destruct (Hnames f Hf) as (?&?&?&?&?&?);
             apply field_hset_unnamed; simpl;
             rewrite !elem_of_cons, elem_of_nil; tauto|]);
    (split; [intros k Hk; apply lookup_insert_ne; congruence | reflexivity]).
Qed.

(** The first invoice of [sub_1], paid by the mapped customer of a
    trialing user. *)
Lemma invoice_payment_recorded_witness :
  let run := POST (Fixtures.webhook_config (InvoicePaymentSucceeded Samples.first_invoice))
               Fixtures.signed_request Fixtures.clock
               (initial (Fixtures.store_with_status "trialing")) in
  fst run = Ok (json received)
  ∧ Redis.field (Redis.USER_SUBSCRIPTION "user_42") "status" (store (snd run))
    = Some "active".
Proof.
  pose proof (invoice_payment_recorded
           (Fixtures.webhook_config (InvoicePaymentSucceeded Samples.first_invoice))
           Fixtures.signed_request
           (Fixtures.webhook_client (InvoicePaymentSucceeded Samples.first_invoice))
           Samples.first_invoice "sub_1" (Fixtures.subscription "cus_1" "active")
           "user_42" Fixtures.clock (initial (Fixtures.store_with_status "trialing"))
           (sample_verified _) eq_refl eq_refl eq_refl eq_refl eq_refl eq_refl)
    as (Hack & Hstatus & _).
  split; [exact Hack | exact Hstatus].
Defined.

(** X3: a verified [invoice.payment_failed] event that is not the failure
    of a renewal ([billing_reason] other than [subscription_cycle]) is
    acknowledged without any call to Stripe or to the store. *)
Theorem invoice_failure_outside_renewal_ignored (cfg : Config) (request : Request)
    (invoice : Invoice) (c : Clock) (w : World) :
  verified cfg request (InvoicePaymentFailed invoice) →
  inv_billing_reason invoice ≠ Some "subscription_cycle" →
  POST cfg request c w = (Ok (json received), w).
Proof.
  intros Hverified Hreason.
  destruct (POST_verified _ _ _ Hverified) as (api & _ & ->).
  unfold try_catch, dispatch, on_invoice_payment_failed, when.
  rewrite bool_decide_eq_false_2 by exact Hreason.
  rewrite andb_false_r. run_effects. by destruct w.
Qed.

Lemma invoice_failure_outside_renewal_ignored_witness :
  POST (Fixtures.webhook_config (InvoicePaymentFailed Samples.first_invoice))
    Fixtures.signed_request Fixtures.clock (initial (Fixtures.store_with_status "trialing"))
  = (Ok (json received), initial (Fixtures.store_with_status "trialing")).
Proof.
  apply (invoice_failure_outside_renewal_ignored
           (Fixtures.webhook_config (InvoicePaymentFailed Samples.first_invoice))
           Fixtures.signed_request Samples.first_invoice Fixtures.clock
           (initial (Fixtures.store_with_status "trialing"))).
  - apply sample_verified.
  - discriminate.
Defined.

(** X4: a verified [invoice.payment_failed] event for a renewal whose
    subscription Stripe returns and whose customer is mapped to a user is
    acknowledged; the user's subscription record then has status
    ['past_due'] and a [paymentFailedAt] stamp, and the one request sent
    to Stripe is the retrieval of the subscription. *)
Theorem renewal_failure_marks_past_due (cfg : Config) (request : Request) (api : Client)
    (invoice : Invoice) (id : string) (subscription : Subscription)
    (userId : string) (c : Clock) (w : World) :
  verified cfg request (InvoicePaymentFailed invoice) →
  stripe cfg = Some api →
  inv_subscription invoice = Some id →
  truthy id = true →
  inv_billing_reason invoice = Some "subscription_cycle" →
  subscriptions_retrieve api id = Ok subscription →
  Redis.get (Redis.customer_key (sub_customer subscription)) (store w) = Some userId →
  truthy userId = true →
  let K := Redis.USER_SUBSCRIPTION userId in
  let w' := snd (POST cfg request c w) in
  fst (POST cfg request c w) = Ok (json received)
  ∧ Redis.field K "status" (store w') = Some "past_due"
  ∧ is_Some (Redis.field K "paymentFailedAt" (store w'))
  ∧ stripe_calls w' = (stripe_calls w ++ [SubscriptionsRetrieve id])%list.
Proof.
  intros Hverified Hapi Hsub Hid Hreason Hretrieve Hget Huser K w'. subst K w'.
  destruct (POST_verified _ _ _ Hverified) as (api' & Hapi' & ->).
  rewrite Hapi in Hapi'. injection Hapi' as <-.
  unfold try_catch, dispatch, on_invoice_payment_failed, when, setZeroCredits.
  rewrite Hsub, Hreason. simpl. rewrite Hid. run_effects.
  rewrite Hretrieve. simpl. rewrite !Hget. simpl. rewrite Huser. simpl.
  split; [reflexivity|].
  split; [apply field_hset_written; vm_compute; reflexivity|].
  split; [eexists; apply field_hset_written; vm_compute; reflexivity|].
  reflexivity.
Qed.

Lemma renewal_failure_marks_past_due_witness :
  let run := POST (Fixtures.webhook_config (InvoicePaymentFailed Samples.renewal))
               Fixtures.signed_request Fixtures.clock
               (initial (Fixtures.store_with_status "active")) in
  Redis.field (Redis.USER_SUBSCRIPTION "user_42") "status" (store (snd run))
  = Some "past_due".
Proof.
  pose proof (renewal_failure_marks_past_due
           (Fixtures.webhook_config (InvoicePaymentFailed Samples.renewal))
           Fixtures.signed_request
           (Fixtures.webhook_client (InvoicePaymentFailed Samples.renewal))
           Samples.renewal "sub_1" (Fixtures.subscription "cus_1" "active")
           "user_42" Fixtures.clock (initial (Fixtures.store_with_status "active"))
           (sample_verified _) eq_refl eq_refl eq_refl eq_refl eq_refl eq_refl eq_refl)
    as (_ & Hstatus & _).
  exact Hstatus.
Defined.

(** X5: when the retrieval of the subscription throws in an invoice
    handler, the webhook answers 500 with the error's message (or
    ['Webhook handler failed'] for an empty one); the store is not called
    and the clock is not read. *)
Theorem invoice_lookup_failure_reported (cfg : Config) (request : Request) (api : Client)
    (event : Event) (id message : string) (c : Clock) (w : World) :
  verified cfg request event →
  stripe cfg = Some api →
  invoice_lookup event = Some id →
  subscriptions_retrieve api id = Threw message →
  POST cfg request c w
  = (Ok (json_status
           (error_body (if truthy message then message else "Webhook handler failed")) 500),
     advance 0 [SubscriptionsRetrieve id] w).
Proof.
  intros Hverified Hapi Hlookup Hretrieve.
  destruct (POST_verified _ _ _ Hverified) as (api' & Hapi' & ->).
  rewrite Hapi in Hapi'. injection Hapi' as <-.
  unfold invoice_lookup in Hlookup.
  destruct event; try discriminate;
    unfold try_catch, dispatch, on_invoice_payment_succeeded, on_invoice_payment_failed,
      when, on_error;
    destruct (inv_subscription invoice) as [id'|] eqn:Hsub; simpl in *; try discriminate.
  - destruct (truthy id'); [|discriminate]. injection Hlookup as ->.
    run_effects. rewrite Hretrieve. reflexivity.
  - destruct (truthy id' && _); [|discriminate]. injection Hlookup as ->.
    run_effects. rewrite Hretrieve. reflexivity.
Qed.

Lemma invoice_lookup_failure_reported_witness :
  WebhookSpec.status_of
    (fst (POST (Samples.faulty_webhook Samples.retrieve_fails
                  (InvoicePaymentSucceeded Samples.renewal))
            Fixtures.signed_request Fixtures.clock
            (initial (Fixtures.store_with_status "active"))))
  = Some 500.
Proof.
  rewrite (invoice_lookup_failure_reported
             (Samples.faulty_webhook Samples.retrieve_fails
                (InvoicePaymentSucceeded Samples.renewal))
             Fixtures.signed_request
             (Faults.inject Samples.retrieve_fails
                (Fixtures.webhook_client (InvoicePaymentSucceeded Samples.renewal)))
             (InvoicePaymentSucceeded Samples.renewal) "sub_1" Faults.unreachable
             Fixtures.clock (initial (Fixtures.store_with_status "active"))
             (sample_verified_faulty _ _) eq_refl eq_refl eq_refl).
  reflexivity.
Defined.

End InvoiceEvents.


Section TrialEvents.
Import JS Stripe Eff Webhooks WebhookSpec Observe.

(** X6: a verified [payment_intent.payment_failed] or
    [payment_intent.canceled] event whose metadata does not carry
    [isTrial = 'true'] together with a user id is acknowledged without any
    call to the store or to Stripe. *)
Theorem payment_intent_outside_trial_ignored (cfg : Config) (request : Request)
    (event : Event) (paymentIntent : PaymentIntent) (c : Clock) (w : World) :
  verified cfg request event →
  event = PaymentIntentPaymentFailed paymentIntent
  ∨ event = PaymentIntentCanceled paymentIntent →
  trial_user paymentIntent = None →
  POST cfg request c w = (Ok (json received), w).
Proof.
  intros Hverified Hevent Huser.
  destruct (POST_verified _ _ _ Hverified) as (api & _ & ->).
  unfold trial_user in Huser.
  destruct Hevent as [-> | ->];
    unfold try_catch, dispatch, on_payment_intent_payment_failed,
      on_payment_intent_canceled, when;
    destruct (bool_decide (pi_metadata paymentIntent !! "isTrial" = Some "true"));
    simpl in *; try (destruct w; reflexivity);
    destruct (pi_metadata paymentIntent !! "userId") as [userId|]; simpl in *;
    try (destruct w; reflexivity);
    destruct (truthy userId); simpl in *; try discriminate; destruct w; reflexivity.
Qed.

Lemma payment_intent_outside_trial_ignored_witness :
  POST (Fixtures.webhook_config (PaymentIntentCanceled Samples.plain_payment))
    Fixtures.signed_request Fixtures.clock (initial (Fixtures.store_with_status "trialing"))
  = (Ok (json received), initial (Fixtures.store_with_status "trialing")).
Proof.
  apply (payment_intent_outside_trial_ignored
           (Fixtures.webhook_config (PaymentIntentCanceled Samples.plain_payment))
           Fixtures.signed_request (PaymentIntentCanceled Samples.plain_payment)
           Samples.plain_payment Fixtures.clock
           (initial (Fixtures.store_with_status "trialing"))).
  - apply sample_verified.
  - right. reflexivity.
  - reflexivity.
Defined.

(** X7: a verified [payment_intent.payment_failed] or
    [payment_intent.canceled] event of the trial flow is acknowledged and
    leaves the subscription record of the user named in the metadata with
    status ['payment_failed'], respectively ['canceled'], and the
    matching reason, whatever customer the payment intent carries; Stripe
    is not called. *)
Theorem trial_payment_intent_recorded (cfg : Config) (request : Request)
    (event : Event) (paymentIntent : PaymentIntent) (userId : string)
    (c : Clock) (w : World) :
  verified cfg request event →
  event = PaymentIntentPaymentFailed paymentIntent
  ∨ event = PaymentIntentCanceled paymentIntent →
  trial_user paymentIntent = Some userId →
  let K := Redis.USER_SUBSCRIPTION userId in
  let w' := snd (POST cfg request c w) in
  fst (POST cfg request c w) = Ok (json received)
  ∧ Redis.field K "status" (store w')
    = Some (match event with
            | PaymentIntentPaymentFailed _ => "payment_failed"
            | _ => "canceled"
            end)
  ∧ Redis.field K (match event with
                   | PaymentIntentPaymentFailed _ => "failureReason"
                   | _ => "cancelReason"
                   end) (store w')
    = Some (match event with
            | PaymentIntentPaymentFailed _ =>
              "Payment authorization failed during trial signup"
            | _ => "Payment intent canceled during trial signup"
            end)
  ∧ stripe_calls w' = stripe_calls w.
Proof.
  intros Hverified Hevent Huser K w'. subst K w'.
  destruct (POST_verified _ _ _ Hverified) as (api & _ & ->).
  unfold trial_user in Huser.
  destruct (bool_decide (pi_metadata paymentIntent !! "isTrial" = Some "true")) eqn:Htrial;
    [|discriminate].
  destruct (pi_metadata paymentIntent !! "userId") as [userId'|] eqn:Hmeta;
    [|discriminate].
  simpl in Huser. destruct (truthy userId') eqn:Htruthy; [|discriminate].
  injection Huser as ->.
  destruct Hevent as [-> | ->];
    unfold try_catch, dispatch, on_payment_intent_payment_failed,
      on_payment_intent_canceled, when, setZeroCredits;
    rewrite Htrial, Hmeta; simpl; rewrite Htruthy; run_effects;
    (split; [reflexivity|]);
    (split; [apply field_hset_written; vm_compute; reflexivity|]);
    (split; [apply field_hset_written; vm_compute; reflexivity|]);
    reflexivity.
Qed.

Lemma trial_payment_intent_recorded_witness :
  let run := POST (Fixtures.webhook_config (PaymentIntentPaymentFailed Samples.trial_payment))
               Fixtures.signed_request Fixtures.clock
               (initial (Fixtures.store_with_status "trialing")) in
  Redis.field (Redis.USER_SUBSCRIPTION "user_42") "status" (store (snd run))
  = Some "payment_failed".
Proof.
  pose proof (trial_payment_intent_recorded
           (Fixtures.webhook_config (PaymentIntentPaymentFailed Samples.trial_payment))
           Fixtures.signed_request (PaymentIntentPaymentFailed Samples.trial_payment)
           Samples.trial_payment "user_42" Fixtures.clock
           (initial (Fixtures.store_with_status "trialing"))
           (sample_verified _) (or_introl eq_refl) eq_refl)
    as (_ & Hstatus & _).
  exact Hstatus.
Defined.

(** X8: in the [setup_intent.setup_failed] handler the subscription is
    cancelled at Stripe before anything is written: when that
    cancellation throws, the error is swallowed, the event is
    acknowledged, and the store is as before, read once for the customer
    index. *)
Theorem setup_failure_cancel_error_swallowed (cfg : Config) (request : Request)
    (api : Client) (setupIntent : SetupIntent) (id : string)
    (subscription : Subscription) (userId message : string) (c : Clock) (w : World) :
  verified cfg request (SetupIntentSetupFailed setupIntent) →
  stripe cfg = Some api →
  setup_lookup setupIntent = Some id →
  subscriptions_retrieve api id = Ok subscription →
  Redis.get (Redis.customer_key (sub_customer subscription)) (store w) = Some userId →
  truthy userId = true →
  subscriptions_cancel api id = Threw message →
  POST cfg request c w
  = (Ok (json received),
     log_redis (Redis.Get (Redis.customer_key (sub_customer subscription)))
       (advance 0 [SubscriptionsRetrieve id; SubscriptionsCancel id] w)).
Proof.
  intros Hverified Hapi Hlookup Hretrieve Hget Huser Hcancel.
  destruct (POST_verified _ _ _ Hverified) as (api' & Hapi' & ->).
  rewrite Hapi in Hapi'. injection Hapi' as <-.
  unfold setup_lookup in Hlookup.
  unfold try_catch, dispatch, on_setup_intent_setup_failed, when, setZeroCredits.
  destruct (bool_decide (si_metadata setupIntent !! "is_trial_setup" = Some "true"));
    [|discriminate].
  destruct (si_metadata setupIntent !! "subscription_id") as [id'|]; [|discriminate].
  simpl in *. destruct (truthy id'); [|discriminate]. injection Hlookup as ->.
  run_effects. rewrite Hretrieve. simpl. rewrite !Hget. simpl. rewrite Huser. simpl.
  rewrite Hcancel. simpl. unfold log_redis, advance. simpl.
  rewrite <- app_assoc. reflexivity.
Qed.

Lemma setup_failure_cancel_error_swallowed_witness :
  store (snd (POST (Samples.faulty_webhook Samples.cancel_fails
                      (SetupIntentSetupFailed Samples.failed_trial_setup))
                Fixtures.signed_request Fixtures.clock
                (initial (Fixtures.store_with_status "trialing"))))
  = Fixtures.store_with_status "trialing".
Proof.
  rewrite (setup_failure_cancel_error_swallowed
             (Samples.faulty_webhook Samples.cancel_fails
                (SetupIntentSetupFailed Samples.failed_trial_setup))
             Fixtures.signed_request
             (Faults.inject Samples.cancel_fails
                (Fixtures.webhook_client (SetupIntentSetupFailed Samples.failed_trial_setup)))
             Samples.failed_trial_setup "sub_1" (Fixtures.subscription "cus_1" "active")
             "user_42" Faults.unreachable Fixtures.clock
             (initial (Fixtures.store_with_status "trialing"))
             (sample_verified_faulty _ _) eq_refl eq_refl eq_refl eq_refl eq_refl eq_refl).
  reflexivity.
Defined.

(** X9: a verified [setup_intent.setup_failed] event of a trial setup
    whose subscription Stripe returns, whose customer is mapped to a user
    and whose cancellation succeeds: Stripe receives the retrieval and
    then the cancellation of the subscription named in the metadata, the
    user's subscription record gets status ['setup_failed'], and the
    event is acknowledged. *)
Theorem setup_failure_cancels_subscription (cfg : Config) (request : Request)
    (api : Client) (setupIntent : SetupIntent) (id : string)
    (subscription : Subscription) (userId : string) (c : Clock) (w : World) :
  verified cfg request (SetupIntentSetupFailed setupIntent) →
  stripe cfg = Some api →
  setup_lookup setupIntent = Some id →
  subscriptions_retrieve api id = Ok subscription →
  Redis.get (Redis.customer_key (sub_customer subscription)) (store w) = Some userId →
  truthy userId = true →
  subscriptions_cancel api id = Ok tt →
  let w' := snd (POST cfg request c w) in
  fst (POST cfg request c w) = Ok (json received)
  ∧ stripe_calls w' = (stripe_calls w ++ [SubscriptionsRetrieve id; SubscriptionsCancel id])%list
  ∧ Redis.field (Redis.USER_SUBSCRIPTION userId) "status" (store w') = Some "setup_failed".
Proof.
  intros Hverified Hapi Hlookup Hretrieve Hget Huser Hcancel w'. subst w'.
  destruct (POST_verified _ _ _ Hverified) as (api' & Hapi' & ->).
  rewrite Hapi in Hapi'. injection Hapi' as <-.
  unfold setup_lookup in Hlookup.
  unfold try_catch, dispatch, on_setup_intent_setup_failed, when, setZeroCredits.
  destruct (bool_decide (si_metadata setupIntent !! "is_trial_setup" = Some "true"));
    [|discriminate].
  destruct (si_metadata setupIntent !! "subscription_id") as [id'|]; [|discriminate].
  simpl in *. destruct (truthy id'); [|discriminate]. injection Hlookup as ->.
  run_effects. rewrite Hretrieve. simpl. rewrite !Hget. simpl. rewrite Huser. simpl.
  rewrite Hcancel. simpl.
  split; [reflexivity|].
  split; [by rewrite <- app_assoc|].
  apply field_hset_written. vm_compute. reflexivity.
Qed.

Lemma setup_failure_cancels_subscription_witness :
  let run := POST (Fixtures.webhook_config (SetupIntentSetupFailed Samples.failed_trial_setup))
               Fixtures.signed_request Fixtures.clock
               (initial (Fixtures.store_with_status "trialing")) in
  stripe_calls (snd run) = [SubscriptionsRetrieve "sub_1"; SubscriptionsCancel "sub_1"].
Proof.
  pose proof (setup_failure_cancels_subscription
           (Fixtures.webhook_config (SetupIntentSetupFailed Samples.failed_trial_setup))
           Fixtures.signed_request
           (Fixtures.webhook_client (SetupIntentSetupFailed Samples.failed_trial_setup))
           Samples.failed_trial_setup "sub_1" (Fixtures.subscription "cus_1" "active")
           "user_42" Fixtures.clock (initial (Fixtures.store_with_status "trialing"))
           (sample_verified _) eq_refl eq_refl eq_refl eq_refl eq_refl eq_refl)
    as (_ & Hcalls & _).
  exact Hcalls.
Defined.

(** X10: the events whose handlers only log
    ([checkout.session.completed], [customer.subscription.trial_will_end],
    [payment_intent.requires_action] and every type without a case) change
    nothing: the store, the Stripe log and the clock are as before, and
    the store is at most read, with [GET]. *)
Theorem informational_events_read_only (cfg : Config) (request : Request)
    (event : Event) (c : Clock) (w : World) :
  verified cfg request event →
  informational event = true →
  let w' := snd (POST cfg request c w) in
  store w' = store w
  ∧ stripe_calls w' = stripe_calls w
  ∧ ticks w' = ticks w
  ∧ ∃ reads, redis_calls w' = (redis_calls w ++ reads)%list
             ∧ forallb (λ call, negb (writes call)) reads = true.
Proof.
  intros Hverified Hinfo w'. subst w'.
  destruct (POST_verified _ _ _ Hverified) as (api & _ & ->).
  destruct event; try discriminate; unfold try_catch; run_handler;
    try (repeat split; try reflexivity; exists []; by rewrite app_nil_r).
  destruct (truthy (sub_customer subscription)); simpl;
    [|repeat split; try reflexivity; exists []; by rewrite app_nil_r].
  destruct (Redis.get (Redis.customer_key (sub_customer subscription)) (store w))
    as [userId|]; simpl; [destruct (truthy userId); simpl|];
    (repeat split; try reflexivity; eexists; split; reflexivity).
Qed.

Lemma informational_events_read_only_witness :
  let event := CustomerSubscriptionTrialWillEnd (Fixtures.subscription "cus_1" "trialing") in
  store (snd (POST (Fixtures.webhook_config event) Fixtures.signed_request Fixtures.clock
                (initial (Fixtures.store_with_status "trialing"))))
  = Fixtures.store_with_status "trialing".
Proof.
  pose proof (informational_events_read_only
           (Fixtures.webhook_config
              (CustomerSubscriptionTrialWillEnd (Fixtures.subscription "cus_1" "trialing")))
           Fixtures.signed_request
           (CustomerSubscriptionTrialWillEnd (Fixtures.subscription "cus_1" "trialing"))
           Fixtures.clock (initial (Fixtures.store_with_status "trialing"))
           (sample_verified _) eq_refl)
    as (Hstore & _).
  exact Hstore.
Defined.

End TrialEvents.


Section UpdateStamps.
Import JS Stripe Eff Webhooks WebhookSpec Observe.

(** X11: a verified [customer.subscription.updated] event for a mapped
    user stamps the end of the trial exactly on the transition from a
    stored status ['trialing'] to ['active']: then [trialEndedAt] and
    [trialToActiveDate] are the second and third readings of the clock;
    otherwise both fields stay as they were.  Every field outside the
    seven the handler can write, and every other record (the credits
    among them), is kept. *)
Theorem update_stamps_trial_end (cfg : Config) (request : Request)
    (subscription : Subscription) (userId : string) (c : Clock) (w : World) :
  verified cfg request (CustomerSubscriptionUpdated subscription) →
  resolved_user (sub_customer subscription) (store w) = Some userId →
  let K := Redis.USER_SUBSCRIPTION userId in
  let stored := Redis.hgetall K (store w) ≫= (.!! "status") in
  let s' := store (snd (POST cfg request c w)) in
  (stored = Some "trialing" ∧ sub_status subscription = "active" →
     Redis.field K "trialEndedAt" s' = Some (iso (c (S (ticks w))))
     ∧ Redis.field K "trialToActiveDate" s' = Some (iso (c (S (S (ticks w))))))
  ∧ (¬ (stored = Some "trialing" ∧ sub_status subscription = "active") →
     Redis.field K "trialEndedAt" s' = Redis.field K "trialEndedAt" (store w)
     ∧ Redis.field K "trialToActiveDate" s'
       = Redis.field K "trialToActiveDate" (store w))
  ∧ (∀ f, f ∉ ["status"; "lastUpdated"; "stripeSubscriptionStatus"; "trialEndedAt";
               "trialToActiveDate"; "canceledAt"; "unpaidAt"] →
       Redis.field K f s' = Redis.field K f (store w))
  ∧ (∀ k, k ≠ K → Redis.hashes s' !! k = Redis.hashes (store w) !! k).
Proof.
  intros Hverified Huser K stored s'. subst K stored s'.
  destruct (POST_verified _ _ _ Hverified) as (api & _ & ->).
  rewrite updated_under_catch, updated_store by (intros call; reflexivity).
  rewrite resolved_direct, Huser.
  set (current := Redis.hgetall (Redis.USER_SUBSCRIPTION userId) (store w) ≫= (.!! "status")).
  unfold update_data.
  split; [|split; [|split]].
  - intros [Hcurrent Hstatus].
    rewrite bool_decide_eq_true_2 by exact Hcurrent.
    rewrite Hstatus. simpl.
    split; apply field_hset_written; vm_compute; reflexivity.
  - intros Hnot.
    assert (bool_decide (current = Some "trialing")
            && String.eqb (sub_status subscription) "active" = false) as ->.
    { apply not_true_is_false. intros H. apply andb_prop in H as [H1 H2].
      apply bool_decide_eq_true_1 in H1. apply String.eqb_eq in H2. auto. }
    destruct (String.eqb (sub_status subscription) "canceled"),
      (String.eqb (sub_status subscription) "unpaid" || _);
      split; apply field_hset_kept; vm_compute; reflexivity.
  - intros f Hf.
    assert (f ≠ "status" ∧ f ≠ "lastUpdated" ∧ f ≠ "stripeSubscriptionStatus"
            ∧ f ≠ "trialEndedAt" ∧ f ≠ "trialToActiveDate" ∧ f ≠ "canceledAt"
            ∧ f ≠ "unpaidAt") as (?&?&?&?&?&?&?).
    { repeat split; intros ->; apply Hf; repeat constructor. }
    apply field_hset_unnamed.
    destruct (bool_decide _ && _), (String.eqb (sub_status subscription) "canceled"),
      (String.eqb (sub_status subscription) "unpaid" || _); simpl;
      rewrite !elem_of_cons, elem_of_nil; tauto.
  - intros k Hk. apply hashes_hset_other. congruence.
Qed.

Lemma update_stamps_trial_end_witness :
  let event := CustomerSubscriptionUpdated (Fixtures.subscription "cus_1" "active") in
  Redis.field (Redis.USER_SUBSCRIPTION "user_42") "trialEndedAt"
    (store (snd (POST (Fixtures.webhook_config event) Fixtures.signed_request
                   Fixtures.clock (initial (Fixtures.store_with_status "trialing")))))
  = Some (iso (Fixtures.clock 1%nat)).
Proof.
  pose proof (update_stamps_trial_end
           (Fixtures.webhook_config
              (CustomerSubscriptionUpdated (Fixtures.subscription "cus_1" "active")))
           Fixtures.signed_request (Fixtures.subscription "cus_1" "active") "user_42"
           Fixtures.clock (initial (Fixtures.store_with_status "trialing"))
           (sample_verified _) eq_refl)
    as (Hstamp & _).
  apply Hstamp. split; vm_compute; reflexivity.
Defined.

End UpdateStamps.

Section RawBody.
Import JS Stripe Eff Webhooks WebhookSpec Observe Stream.

Lemma append_assoc (a b d : string) : (a +:+ b) +:+ d = a +:+ (b +:+ d).
Proof.
  induction a as [|x a IH]; [reflexivity|].
  change (String x ((a +:+ b) +:+ d) = String x (a +:+ (b +:+ d))).
  by rewrite IH.
Qed.

Lemma Buffer_concat_app (xs ys : list string) :
  Buffer_concat (xs ++ ys) = Buffer_concat xs +:+ Buffer_concat ys.
Proof.
  induction xs as [|x xs IH]; simpl; [reflexivity|].
  rewrite IH. symmetry. apply append_assoc.
Qed.

Lemma append_nil_r (a : string) : a +:+ "" = a.
Proof.
  induction a as [|x a IH]; [reflexivity|].
  change (String x (a +:+ "") = String x a). by rewrite IH.
Qed.

Lemma append_inv_head (a x y : string) : a +:+ x = a +:+ y → x = y.
Proof.
  induction a as [|u a IH]; [done|].
  change (String u (a +:+ x) = String u (a +:+ y) → x = y).
  intros [= H]. by apply IH.
Qed.

Lemma length_append (a b : string) :
  String.length (a +:+ b) = (String.length a + String.length b)%nat.
Proof.
  induction a as [|x a IH]; [reflexivity|].
  change (S (String.length (a +:+ b)) = S (String.length a + String.length b)).
  by rewrite IH.
Qed.

Lemma append_inv_tail (a b t : string) : a +:+ t = b +:+ t → a = b.
Proof.
  intros H.
  assert (Hlen : String.length a = String.length b).
  { apply (f_equal String.length) in H. rewrite !length_append in H. lia. }
  revert b H Hlen. induction a as [|x a IH]; intros [|y b] H Hlen; try done.
  change (String x (a +:+ t) = String y (b +:+ t)) in H.
  injection H as -> H. f_equal. apply IH; [done|]. simpl in Hlen. lia.
Qed.

Lemma low_not_high (u : N) : is_low u = true → is_high u = false.
Proof.
  unfold is_low, is_high.
  rewrite andb_true_iff, andb_false_iff, !N.leb_le, !N.leb_gt. lia.
Qed.

Lemma Buffer_from_cons (u : N) (rest : list N) :
  is_high u = false →
  Buffer_from (u :: rest)
  = (if is_low u then utf8 0xFFFD else utf8 u) +:+ Buffer_from rest.
Proof. intros H. simpl. rewrite H. by destruct (is_low u). Qed.

Lemma Buffer_from_lone (u l : N) (rest : list N) :
  is_high u = true → is_low l = false →
  Buffer_from (u :: l :: rest) = utf8 0xFFFD +:+ Buffer_from (l :: rest).
Proof.
  intros Hu Hl. change (Buffer_from (u :: l :: rest))
    with (if is_high u then
            if is_low l
            then utf8 (0x10000 + (u - 0xD800) * 0x400 + (l - 0xDC00)) +:+ Buffer_from rest
            else utf8 0xFFFD +:+ Buffer_from (l :: rest)
          else if is_low u then utf8 0xFFFD +:+ Buffer_from (l :: rest)
          else utf8 u +:+ Buffer_from (l :: rest)).
  by rewrite Hu, Hl.
Qed.

Lemma Buffer_from_pair (u l : N) (rest : list N) :
  is_high u = true → is_low l = true →
  Buffer_from (u :: l :: rest)
  = utf8 (0x10000 + (u - 0xD800) * 0x400 + (l - 0xDC00)) +:+ Buffer_from rest.
Proof.
  intros Hu Hl. change (Buffer_from (u :: l :: rest))
    with (if is_high u then
            if is_low l
            then utf8 (0x10000 + (u - 0xD800) * 0x400 + (l - 0xDC00)) +:+ Buffer_from rest
            else utf8 0xFFFD +:+ Buffer_from (l :: rest)
          else if is_low u then utf8 0xFFFD +:+ Buffer_from (l :: rest)
          else utf8 u +:+ Buffer_from (l :: rest)).
  by rewrite Hu, Hl.
Qed.

(** A string cut outside a surrogate pair is encoded piece by piece. *)
Lemma Buffer_from_app (a b : list N) :
  splits_pair a b = false →
  Buffer_from (a ++ b) = Buffer_from a +:+ Buffer_from b.
Proof.
  remember (length a) as n eqn:Hn. revert a Hn.
  induction n as [n IH] using lt_wf_ind. intros a -> Hcut.
  destruct a as [|u [|l a]].
  - reflexivity.
  - destruct (is_high u) eqn:Hu.
    + destruct b as [|l b].
      * simpl. rewrite Hu. by rewrite append_nil_r.
      * unfold splits_pair in Hcut. simpl in Hcut. rewrite Hu in Hcut.
        simpl in Hcut. change ([u] ++ l :: b)%list with (u :: l :: b).
        rewrite Buffer_from_lone by done. simpl (Buffer_from [u]).
        by rewrite Hu.
    + change ([u] ++ b)%list with (u :: b). rewrite !(Buffer_from_cons u) by done.
      change (Buffer_from []) with "". by rewrite append_nil_r.
  - change ((u :: l :: a) ++ b)%list with (u :: l :: (a ++ b)%list).
    destruct (is_high u) eqn:Hu; [destruct (is_low l) eqn:Hl|].
    + rewrite !(Buffer_from_pair u l) by done. rewrite append_assoc. f_equal.
      apply (IH (length a) ltac:(simpl; lia) a); [done|].
      destruct a as [|x a]; [|exact Hcut].
      unfold splits_pair in *. simpl in *.
      rewrite (low_not_high l Hl) in Hcut. by destruct (head b).
    + rewrite !(Buffer_from_lone u l) by done. rewrite append_assoc. f_equal.
      by apply (IH (length (l :: a)) ltac:(simpl; lia) (l :: a)).
    + rewrite !(Buffer_from_cons u) by done. rewrite append_assoc. f_equal.
      by apply (IH (length (l :: a)) ltac:(simpl; lia) (l :: a)).
Qed.

Lemma utf8_pair_head (u l : N) (rest tail : string) :
  is_high u = true → is_low l = true →
  utf8 (0x10000 + (u - 0xD800) * 0x400 + (l - 0xDC00)) +:+ rest
  ≠ utf8 0xFFFD +:+ tail.
Proof.
  unfold is_high, is_low. rewrite !andb_true_iff, !N.leb_le.
  intros [Hu1 Hu2] [Hl1 Hl2].
  set (cp := (0x10000 + (u - 0xD800) * 0x400 + (l - 0xDC00))%N).
  assert (Hlow : (0x10000 ≤ cp)%N) by (unfold cp; lia).
  assert (Hup : (cp < 0x110000)%N) by (unfold cp; lia).
  clearbody cp.
  unfold utf8.
  destruct (N.ltb_spec cp 0x80) as [|_]; [lia|].
  destruct (N.ltb_spec cp 0x800) as [|_]; [lia|].
  destruct (N.ltb_spec cp 0x10000) as [|_]; [lia|].
  assert (Hk : (cp / 0x40000 < 5)%N) by (apply N.Div0.div_lt_upper_bound; lia).
  revert Hk. generalize (cp / 0x40000)%N. intros k Hk H.
  unfold byte in H.
  apply (f_equal (λ s, match s with String x _ => Ascii.N_of_ascii x | _ => 0%N end)) in H.
  simpl in H. rewrite Ascii.N_ascii_embedding in H by lia. lia.
Qed.

(** A string cut inside a surrogate pair is encoded to other bytes. *)
Lemma Buffer_from_split (a b : list N) :
  splits_pair a b = true →
  Buffer_from (a ++ b) ≠ Buffer_from a +:+ Buffer_from b.
Proof.
  unfold splits_pair. intros Hcut.
  destruct (last a) as [h|] eqn:Hlast; [|done].
  destruct b as [|l b]; [done|]. simpl in Hcut.
  apply andb_true_iff in Hcut as [Hh Hl].
  apply last_Some in Hlast as [a' ->].
  assert (Hhl : is_low h = false).
  { destruct (is_low h) eqn:E; [|done]. apply low_not_high in E. congruence. }
  rewrite <- app_assoc. change ([h] ++ l :: b)%list with (h :: l :: b).
  rewrite !Buffer_from_app.
  - rewrite Buffer_from_pair by done. simpl (Buffer_from [h]). rewrite Hh.
    rewrite (Buffer_from_cons l b (low_not_high l Hl)), Hl, !append_assoc.
    intros H. apply append_inv_head in H. by apply utf8_pair_head in H.
  - unfold splits_pair. destruct (last a'); [|done]. simpl.
    rewrite Hhl. apply andb_false_r.
  - unfold splits_pair. destruct (last a'); [|done]. simpl.
    rewrite Hhl. apply andb_false_r.
Qed.

(** X12: the raw body is the concatenation of the bytes of the chunks in
    the order of arrival.  It does not depend on where the stream cuts a
    buffer in two.  For a string chunk, which is encoded as UTF-8 chunk by
    chunk, it does not depend on where the stream cuts the string exactly
    when the cut does not separate a high surrogate from the low surrogate
    that follows it (or the stream fails, and no body is read). *)
Theorem getRawBody_chunking (before after : list Chunk) (a b : list N)
    (x y : string) (error : option string) :
  let body cut :=
    getRawBody {| chunks := before ++ cut ++ after; failure := error |} in
  body [Bytes (x +:+ y)] = body [Bytes x; Bytes y]
  ∧ (body [Text (a ++ b)] = body [Text a; Text b]
     ↔ splits_pair a b = false ∨ is_Some error).
Proof.
  unfold getRawBody. simpl. split; [|split].
  - destruct error; [reflexivity|]. f_equal.
    rewrite !map_app, !Buffer_concat_app. simpl. by rewrite append_assoc.
  - destruct error as [message|]; [by right; exists message|].
    intros [= H]. left.
    rewrite !map_app, !Buffer_concat_app in H. simpl in H.
    apply append_inv_head in H. rewrite <- append_assoc in H.
    destruct (splits_pair a b) eqn:Hcut; [|done].
    apply Buffer_from_split in Hcut. destruct Hcut.
    by apply append_inv_tail in H.
  - intros [Hcut|[message ->]]; [|reflexivity].
    destruct error; [reflexivity|]. f_equal.
    rewrite !map_app, !Buffer_concat_app. simpl.
    by rewrite (Buffer_from_app a b Hcut), append_assoc.
Qed.

Lemma getRawBody_chunking_witness :
  getRawBody {| chunks := [Text [0x7B; 0xD83D; 0xDE00]%N]; failure := None |}
  = getRawBody {| chunks := [Text [0x7B%N]; Text [0xD83D; 0xDE00]%N];
                  failure := None |}.
Proof.
  apply (proj2 (getRawBody_chunking [] [] [0x7B%N] [0xD83D; 0xDE00]%N "" "" None)).
  left. reflexivity.
Defined.

(** The same string cut inside the pair: each half is encoded as U+FFFD,
    six bytes where the pair has four. *)
Example getRawBody_cut_inside_pair :
  getRawBody {| chunks := [Text [0x7B; 0xD83D; 0xDE00]%N]; failure := None |}
  = Ok (String.string_of_list_ascii
          (map Ascii.ascii_of_N [0x7B; 0xF0; 0x9F; 0x98; 0x80]%N))
  ∧ getRawBody {| chunks := [Text [0x7B; 0xD83D]%N; Text [0xDE00%N]];
                  failure := None |}
    = Ok (String.string_of_list_ascii
            (map Ascii.ascii_of_N [0x7B; 0xEF; 0xBF; 0xBD; 0xEF; 0xBF; 0xBD]%N)).
Proof. split; reflexivity. Qed.

(** X13: when reading the body fails, a configured webhook that received
    a signature answers 400 ['Failed to read request body'] and touches
    nothing, whatever the signature and the chunks read before the
    failure. *)
Theorem unreadable_body_rejected (cfg : Config) (signature message : string)
    (body : Readable) (c : Clock) (w : World) :
  webhook_ready cfg = true →
  truthy signature = true →
  failure body = Some message →
  POST cfg (request (Some signature) body) c w
  = (Ok (json_status (error_body "Failed to read request body") 400), w).
Proof.
  unfold webhook_ready, POST, try_catch, request, getRawBody.
  intros Hready Hsignature ->.
  destruct (stripe cfg); [|discriminate]. rewrite Hready. simpl.
  rewrite Hsignature. simpl. reflexivity.
Qed.

Lemma unreadable_body_rejected_witness :
  POST (Fixtures.webhook_config (Other "ping"))
    (request (Some "t=1,v1=good")
       {| chunks := [Text [0x7B%N]]; failure := Some "aborted" |})
    Fixtures.clock (initial Fixtures.store_unmapped)
  = (Ok (json_status (error_body "Failed to read request body") 400),
     initial Fixtures.store_unmapped).
Proof.
  apply (unreadable_body_rejected (Fixtures.webhook_config (Other "ping"))
           "t=1,v1=good" "aborted"
           {| chunks := [Text [0x7B%N]]; failure := Some "aborted" |}
           Fixtures.clock (initial Fixtures.store_unmapped));
    reflexivity.
Defined.

End RawBody.


(* ===================================================================== *)
(** ** Further properties of the setup-intent route                       *)
(* ===================================================================== *)

Section CheckoutGuards.
Import JS Stripe Eff CheckoutSessions CheckoutSpec Observe.

Local Arguments String.append : simpl never.

(** X14: a body without a price id, or without a user id, is answered 400
    before anything is sent to Stripe; the price id is checked first. *)
Theorem missing_ids_rejected (cfg : Config) (request : Request) (api : Client)
    (b : Body) (c : Clock) (w : World) :
  stripe cfg = Some api →
  request_json request = Ok b →
  truthy_opt (priceId b) && truthy_opt (userId b) = false →
  POST cfg request c w
  = (Ok (json_status
           (error_body (if truthy_opt (priceId b) then "User ID is required"
                        else "Price ID is required")) 400),
     w).
Proof.
  intros Hapi Hbody Hids. unfold POST, try_catch. rewrite Hapi, Hbody.
  destruct (truthy_opt (priceId b)); simpl in *; [|reflexivity].
  rewrite Hids. reflexivity.
Qed.

Lemma missing_ids_rejected_witness :
  POST (Fixtures.checkout_config (Fixtures.coupon_with None))
    {| request_json := Ok {| priceId := None; promotionCode := Some "SAVE5";
                             userId := None |} |}
    Fixtures.clock (initial Redis.empty)
  = (Ok (json_status (error_body "Price ID is required") 400), initial Redis.empty).
Proof.
  apply (missing_ids_rejected (Fixtures.checkout_config (Fixtures.coupon_with None))
           {| request_json := Ok {| priceId := None; promotionCode := Some "SAVE5";
                                    userId := None |} |}
           (Fixtures.checkout_client (Fixtures.coupon_with None))
           {| priceId := None; promotionCode := Some "SAVE5"; userId := None |}
           Fixtures.clock (initial Redis.empty));
    reflexivity.
Defined.

(** X15: a body that cannot be parsed is answered 500 with the fixed
    message ['Failed to create setup intent']: the parser's message is not
    passed on, and nothing is sent to Stripe. *)
Theorem unparsable_body_reported (cfg : Config) (request : Request) (api : Client)
    (message : string) (c : Clock) (w : World) :
  stripe cfg = Some api →
  request_json request = Threw message →
  POST cfg request c w
  = (Ok (json_status (error_body "Failed to create setup intent") 500), w).
Proof.
  intros Hapi Hbody. unfold POST, try_catch. rewrite Hapi, Hbody. reflexivity.
Qed.

Lemma unparsable_body_reported_witness :
  POST (Fixtures.checkout_config (Fixtures.coupon_with None))
    {| request_json := Threw "Unexpected end of JSON input" |}
    Fixtures.clock (initial Redis.empty)
  = (Ok (json_status (error_body "Failed to create setup intent") 500),
     initial Redis.empty).
Proof.
  apply (unparsable_body_reported (Fixtures.checkout_config (Fixtures.coupon_with None))
           {| request_json := Threw "Unexpected end of JSON input" |}
           (Fixtures.checkout_client (Fixtures.coupon_with None))
           "Unexpected end of JSON input" Fixtures.clock (initial Redis.empty));
    reflexivity.
Defined.

(** X16: when the customer can be neither found nor created (the listing
    throws, or it is empty and the creation throws) the route answers 500
    ['Failed to create customer account'] and does not go on to look up
    the price; a customer is created only after an empty listing. *)
Theorem customer_failure_reported (cfg : Config) (request : Request) (api : Client)
    (b : Body) (message : string) (c : Clock) (w : World) :
  stripe cfg = Some api →
  request_json request = Ok b →
  truthy_opt (priceId b) = true →
  truthy_opt (userId b) = true →
  customers_list api (or_empty (userId b)) = Threw message
  ∨ (customers_list api (or_empty (userId b)) = Ok []
     ∧ customers_create api (or_empty (userId b)) = Threw message) →
  POST cfg request c w
  = (Ok (json_status (error_body "Failed to create customer account") 500),
     advance 0 (customer_calls api (or_empty (userId b))) w).
Proof.
  intros Hapi Hbody Hprice Huser Hfail. unfold POST, customer_calls.
  rewrite Hapi, Hbody. simpl. rewrite Hprice, Huser. simpl.
  unfold find_or_create_customer. run_effects.
  destruct Hfail as [-> | [-> ->]]; simpl; f_equal; same_world.
Qed.

Lemma customer_failure_reported_witness :
  let cfg := {| stripe := Some (Faults.inject Samples.customers_fail
                                  (Fixtures.checkout_client (Fixtures.coupon_with None))) |} in
  POST cfg Fixtures.checkout_request Fixtures.clock (initial Redis.empty)
  = (Ok (json_status (error_body "Failed to create customer account") 500),
     advance 0 [CustomersList "ada@example.com"] (initial Redis.empty)).
Proof.
  apply (customer_failure_reported
           {| stripe := Some (Faults.inject Samples.customers_fail
                                (Fixtures.checkout_client (Fixtures.coupon_with None))) |}
           Fixtures.checkout_request
           (Faults.inject Samples.customers_fail
              (Fixtures.checkout_client (Fixtures.coupon_with None)))
           {| priceId := Some "price_std"; promotionCode := Some "SAVE5";
              userId := Some "ada@example.com" |}
           Faults.unreachable Fixtures.clock (initial Redis.empty));
    try reflexivity.
  left. reflexivity.
Defined.

End CheckoutGuards.


Section CheckoutWithoutCode.
Import JS Stripe Eff CheckoutSessions CheckoutSpec Observe.

Local Arguments String.append : simpl never.

(** X17: a request without promotion code (absent or empty) is not
    validated: Stripe receives the customer lookup, the price, the
    creation of a setup intent for that customer whose metadata holds the
    price id and the user id only, and the product, and no lookup of
    promotion codes.  The answer carries a discount of 0, a final amount
    equal to the original one, and neither [promotionCode] nor
    [promoCodeInfo]. *)
Theorem checkout_without_code (cfg : Config) (request : Request) (api : Client)
    (b : Body) (customer : Customer) (price : Price) (product : Product)
    (setupIntent : SetupIntent) (c : Clock) (w : World) :
  stripe cfg = Some api →
  request_json request = Ok b →
  truthy_opt (priceId b) = true →
  truthy_opt (userId b) = true →
  truthy_opt (promotionCode b) = false →
  customer_found api (or_empty (userId b)) customer →
  prices_retrieve api (or_empty (priceId b)) = Ok price →
  (∀ params, setupIntents_create api params = Ok setupIntent) →
  products_retrieve api (price_product price) = Ok product →
  let out := POST cfg request c w in
  status_of (fst out) = Some 200
  ∧ answer "discountAmount" (fst out) = Some (JNum 0)
  ∧ answer "finalAmount" (fst out) = answer "originalAmount" (fst out)
  ∧ answer "promotionCode" (fst out) = None
  ∧ answer "promoCodeInfo" (fst out) = None
  ∧ snd out
    = advance 0
        (customer_calls api (or_empty (userId b))
         ++ [PricesRetrieve (or_empty (priceId b));
             SetupIntentsCreate
               {| sic_customer := cus_id customer;
                  sic_payment_method_types := ["card"];
                  sic_usage := "off_session";
                  sic_metadata := [("priceId", or_empty (priceId b));
                                   ("userId", or_empty (userId b))] |};
             ProductsRetrieve (price_product price)]) w.
Proof.
  intros Hapi Hbody HpriceId HuserId Hcode Hcustomer Hprice Hcreate Hproduct out.
  assert (Hrun : out =
    (Ok (json (response setupIntent (or_empty (priceId b)) (price_product price) price
                 product no_promotion)),
     advance 0
       (customer_calls api (or_empty (userId b))
        ++ [PricesRetrieve (or_empty (priceId b));
            SetupIntentsCreate
              {| sic_customer := cus_id customer;
                 sic_payment_method_types := ["card"];
                 sic_usage := "off_session";
                 sic_metadata := [("priceId", or_empty (priceId b));
                                  ("userId", or_empty (userId b))] |};
            ProductsRetrieve (price_product price)]) w)).
  { subst out. unfold POST.
    rewrite Hapi, Hbody. simpl. rewrite HpriceId, HuserId. simpl.
    unfold try_catch, bind at 1.
    rewrite (find_or_create_customer_run api _ customer c w Hcustomer).
    unfold bind at 1. unfold stripe_call at 1. rewrite Hprice.
    unfold validate_then_create. rewrite Hcode.
    unfold create_setup_intent. run_effects. rewrite Hcreate, Hproduct. simpl.
    f_equal. same_world. }
  rewrite Hrun. simpl. rewrite Z.sub_0_r. repeat split; reflexivity.
Qed.

Lemma checkout_without_code_witness :
  let request :=
    {| request_json := Ok {| priceId := Some "price_std"; promotionCode := Some "";
                             userId := Some "ada@example.com" |} |} in
  answer "discountAmount"
    (fst (POST (Fixtures.checkout_config (Fixtures.coupon_with None)) request
            Fixtures.clock (initial Redis.empty)))
  = Some (JNum 0).
Proof.
  pose proof (checkout_without_code
           (Fixtures.checkout_config (Fixtures.coupon_with None))
           {| request_json := Ok {| priceId := Some "price_std"; promotionCode := Some "";
                                    userId := Some "ada@example.com" |} |}
           (Fixtures.checkout_client (Fixtures.coupon_with None))
           {| priceId := Some "price_std"; promotionCode := Some "";
              userId := Some "ada@example.com" |}
           {| cus_id := "cus_1" |} Fixtures.standard_price Fixtures.standard_product
           Fixtures.succeeded_setup Fixtures.clock (initial Redis.empty)
           eq_refl eq_refl eq_refl eq_refl eq_refl
           (or_introl (ex_intro _ [] eq_refl)) eq_refl (λ _, eq_refl) eq_refl)
    as (_ & Hdiscount & _).
  exact Hdiscount.
Defined.

(** X18: the product of the price is looked up after the setup intent was
    created: when that lookup throws, the route answers 500 ['Failed to
    create setup intent'] although Stripe has created the setup intent. *)
Theorem setup_intent_outlives_product_failure (cfg : Config) (request : Request)
    (api : Client) (b : Body) (customer : Customer) (price : Price)
    (setupIntent : SetupIntent) (message : string) (c : Clock) (w : World) :
  stripe cfg = Some api →
  request_json request = Ok b →
  truthy_opt (priceId b) = true →
  truthy_opt (userId b) = true →
  truthy_opt (promotionCode b) = false →
  customer_found api (or_empty (userId b)) customer →
  prices_retrieve api (or_empty (priceId b)) = Ok price →
  (∀ params, setupIntents_create api params = Ok setupIntent) →
  products_retrieve api (price_product price) = Threw message →
  let out := POST cfg request c w in
  fst out = Ok (json_status (error_body "Failed to create setup intent") 500)
  ∧ ∃ params, SetupIntentsCreate params ∈ stripe_calls (snd out)
              ∧ sic_customer params = cus_id customer.
Proof.
  intros Hapi Hbody HpriceId HuserId Hcode Hcustomer Hprice Hcreate Hproduct out.
  assert (Hrun : out =
    (Ok (json_status (error_body "Failed to create setup intent") 500),
     advance 0
       (customer_calls api (or_empty (userId b))
        ++ [PricesRetrieve (or_empty (priceId b));
            SetupIntentsCreate
              {| sic_customer := cus_id customer;
                 sic_payment_method_types := ["card"];
                 sic_usage := "off_session";
                 sic_metadata := [("priceId", or_empty (priceId b));
                                  ("userId", or_empty (userId b))] |};
            ProductsRetrieve (price_product price)]) w)).
  { subst out. unfold POST.
    rewrite Hapi, Hbody. simpl. rewrite HpriceId, HuserId. simpl.
    unfold try_catch, bind at 1.
    rewrite (find_or_create_customer_run api _ customer c w Hcustomer).
    unfold bind at 1. unfold stripe_call at 1. rewrite Hprice.
    unfold validate_then_create. rewrite Hcode.
    unfold create_setup_intent. run_effects. rewrite Hcreate, Hproduct. simpl.
    f_equal. same_world. }
  rewrite Hrun. split; [reflexivity|].
  exists {| sic_customer := cus_id customer;
            sic_payment_method_types := ["card"];
            sic_usage := "off_session";
            sic_metadata := [("priceId", or_empty (priceId b));
                             ("userId", or_empty (userId b))] |}.
  split; [|reflexivity]. simpl.
  rewrite !elem_of_app, !elem_of_cons. do 3 right. left. reflexivity.
Qed.

Lemma setup_intent_outlives_product_failure_witness :
  let cfg := {| stripe := Some (Faults.inject Samples.products_fail
                                  (Fixtures.checkout_client (Fixtures.coupon_with None))) |} in
  let request :=
    {| request_json := Ok {| priceId := Some "price_std"; promotionCode := None;
                             userId := Some "ada@example.com" |} |} in
  fst (POST cfg request Fixtures.clock (initial Redis.empty))
  = Ok (json_status (error_body "Failed to create setup intent") 500).
Proof.
  pose proof (setup_intent_outlives_product_failure
           {| stripe := Some (Faults.inject Samples.products_fail
                                (Fixtures.checkout_client (Fixtures.coupon_with None))) |}
           {| request_json := Ok {| priceId := Some "price_std"; promotionCode := None;
                                    userId := Some "ada@example.com" |} |}
           (Faults.inject Samples.products_fail
              (Fixtures.checkout_client (Fixtures.coupon_with None)))
           {| priceId := Some "price_std"; promotionCode := None;
              userId := Some "ada@example.com" |}
           {| cus_id := "cus_1" |} Fixtures.standard_price
           Fixtures.succeeded_setup Faults.unreachable Fixtures.clock (initial Redis.empty)
           eq_refl eq_refl eq_refl eq_refl eq_refl
           (or_introl (ex_intro _ [] eq_refl)) eq_refl (λ _, eq_refl) eq_refl)
    as (Hanswer & _).
  exact Hanswer.
Defined.

End CheckoutWithoutCode.


Section CheckoutFaults.
Import JS Stripe Eff CheckoutSessions CheckoutSpec Observe.

Local Arguments String.append : simpl never.
Local Arguments array_includes : simpl never.
Local Arguments calculateDiscountAmount : simpl never.

(** X19: when the lookup of the promotion code throws, the route answers
    500 ['Failed to validate promotion code. Please try again.'] and
    creates no setup intent. *)
Theorem promotion_lookup_failure_reported (cfg : Config) (request : Request)
    (api : Client) (priceId userId code : string) (customer : Customer) (price : Price)
    (message : string) (c : Clock) (w : World) :
  validating cfg request api priceId userId code customer price →
  promotionCodes_list api code = Threw message →
  POST cfg request c w
  = (Ok (json_status
           (error_body "Failed to validate promotion code. Please try again.") 500),
     advance 0 (customer_calls api userId
                ++ [PricesRetrieve priceId; PromotionCodesList code]) w).
Proof.
  intros Hval Hlist.
  rewrite (POST_validating _ _ _ _ _ _ _ _ c w Hval).
  destruct Hval as (_ & _ & _ & _ & Hcode & _ & _).
  unfold try_catch, validate_then_create, validate_promotion_code. simpl. rewrite Hcode.
  run_effects. rewrite Hlist. simpl. f_equal. same_world.
Qed.

Lemma promotion_lookup_failure_reported_witness :
  let cfg := {| stripe := Some (Faults.inject Samples.codes_fail
                                  (Fixtures.checkout_client (Fixtures.coupon_with None))) |} in
  CheckoutSpec.status_of
    (fst (POST cfg Fixtures.checkout_request Fixtures.clock (initial Redis.empty)))
  = Some 500.
Proof.
  intros cfg. subst cfg.
  rewrite (promotion_lookup_failure_reported
             {| stripe := Some (Faults.inject Samples.codes_fail
                                  (Fixtures.checkout_client (Fixtures.coupon_with None))) |}
             Fixtures.checkout_request
             (Faults.inject Samples.codes_fail
                (Fixtures.checkout_client (Fixtures.coupon_with None)))
             "price_std" "ada@example.com" "SAVE5" {| cus_id := "cus_1" |}
             Fixtures.standard_price Faults.unreachable Fixtures.clock
             (initial Redis.empty)).
  - reflexivity.
  - repeat split; try reflexivity. left. exists []. reflexivity.
  - reflexivity.
Defined.

(** X20: when the promotion code exists and has not expired but its
    coupon cannot be retrieved, the route answers 400 ['Failed to
    retrieve promotion code details'] (and not the 500 of the other
    lookup failures); no setup intent is created. *)
Theorem coupon_lookup_failure_rejected (cfg : Config) (request : Request)
    (api : Client) (priceId userId code : string) (customer : Customer) (price : Price)
    (p : PromotionCode) (rest : list PromotionCode) (message : string)
    (c : Clock) (w : World) :
  validating cfg request api priceId userId code customer price →
  promotionCodes_list api code = Ok (p :: rest) →
  expired p (c (ticks w)) = false →
  coupons_retrieve api (promo_coupon p) = Threw message →
  let out := POST cfg request c w in
  fst out = Ok (json_status (error_body "Failed to retrieve promotion code details") 400)
  ∧ stripe_calls (snd out)
    = (stripe_calls w ++ customer_calls api userId
       ++ [PricesRetrieve priceId; PromotionCodesList code;
           CouponsRetrieve (promo_coupon p)])%list.
Proof.
  intros Hval Hlist Hexpired Hcoupon out. subst out.
  rewrite (POST_validating _ _ _ _ _ _ _ _ c w Hval).
  destruct Hval as (_ & _ & _ & _ & Hcode & _ & _).
  unfold try_catch, validate_then_create, validate_promotion_code. simpl. rewrite Hcode.
  unfold expired in Hexpired.
  run_effects. rewrite Hlist. simpl.
  destruct (truthyZ_opt (promo_expires_at p)); simpl in *;
    rewrite ?Hexpired; simpl; rewrite Hcoupon; simpl;
    (split; [reflexivity|]); rewrite <- !app_assoc; reflexivity.
Qed.

Lemma coupon_lookup_failure_rejected_witness :
  let cfg := {| stripe := Some (Faults.inject Samples.coupons_fail
                                  (Fixtures.checkout_client (Fixtures.coupon_with None))) |} in
  fst (POST cfg Fixtures.checkout_request Fixtures.clock (initial Redis.empty))
  = Ok (json_status (error_body "Failed to retrieve promotion code details") 400).
Proof.
  pose proof (coupon_lookup_failure_rejected
             {| stripe := Some (Faults.inject Samples.coupons_fail
                                  (Fixtures.checkout_client (Fixtures.coupon_with None))) |}
             Fixtures.checkout_request
             (Faults.inject Samples.coupons_fail
                (Fixtures.checkout_client (Fixtures.coupon_with None)))
             "price_std" "ada@example.com" "SAVE5" {| cus_id := "cus_1" |}
             Fixtures.standard_price Fixtures.promo [] Faults.unreachable Fixtures.clock
             (initial Redis.empty)) as H.
  apply H.
  - repeat split; try reflexivity. left. exists []. reflexivity.
  - reflexivity.
  - reflexivity.
  - reflexivity.
Defined.

(** X21: when the coupon is restricted to prices that do not include the
    requested one, the rejection names the product of the price; if that
    product cannot be retrieved, the customer gets the 500 of a failed
    validation instead of the 400 rejection.  The requests sent to Stripe
    end with that lookup: no setup intent is created. *)
Theorem price_rejection_needs_product (cfg : Config) (request : Request)
    (api : Client) (priceId userId code : string) (customer : Customer) (price : Price)
    (p : PromotionCode) (rest : list PromotionCode) (coupon : Coupon)
    (message : string) (c : Clock) (w : World) :
  validating cfg request api priceId userId code customer price →
  promotionCodes_list api code = Ok (p :: rest) →
  expired p (c (ticks w)) = false →
  coupons_retrieve api (promo_coupon p) = Ok coupon →
  product_excluded coupon (price_product price) = false →
  price_excluded coupon priceId = true →
  prices_empty coupon = false →
  products_retrieve api (price_product price) = Threw message →
  POST cfg request c w
  = (Ok (json_status
           (error_body "Failed to validate promotion code. Please try again.") 500),
     advance (if truthyZ_opt (promo_expires_at p) then 1 else 0)
       (customer_calls api userId
        ++ [PricesRetrieve priceId; PromotionCodesList code;
            CouponsRetrieve (promo_coupon p);
            PricesRetrieve priceId; ProductsRetrieve (price_product price)]) w).
Proof.
  intros Hval Hlist Hexpired Hcoupon Hproducts Hprices Hempty Hproduct.
  rewrite (POST_validating _ _ _ _ _ _ _ _ c w Hval).
  destruct Hval as (_ & _ & _ & _ & Hcode & _ & Hprice).
  unfold try_catch at 1. unfold validate_then_create. simpl. rewrite Hcode.
  unfold bind at 1. unfold validate_promotion_code.
  unfold try_catch at 1. unfold bind at 1. unfold stripe_call at 1. rewrite Hlist.
  unfold expired in Hexpired.
  assert (Hchecks : ∀ w',
            check_coupon api price priceId (price_product price) p coupon c w'
            = (Threw message,
               advance 0 [PricesRetrieve priceId; ProductsRetrieve (price_product price)]
                 w')).
  { intros w'. unfold check_coupon.
    unfold product_excluded, restricted_products in Hproducts.
    unfold price_excluded in Hprices. unfold prices_empty in Hempty.
    destruct (applies_to coupon) as [a|]; [|discriminate].
    unfold bind at 1. unfold bind at 1. rewrite check_product_restrictions_run.
    assert (Hpass : match products a with
                    | Some (first :: others) =>
                      array_includes (first :: others) (price_product price)
                    | _ => true
                    end = true).
    { destruct (products a) as [[|first others]|]; simpl in *; try reflexivity.
      by apply negb_false_iff in Hproducts. }
    destruct (products a) as [[|first others]|]; simpl in *; rewrite ?Hpass;
      unfold check_price_restrictions;
      (destruct (prices a) as [[|first' others']|]; [discriminate| |discriminate]);
      change (0 <? length (first' :: others'))%nat with true; cbv iota;
      rewrite Hprices; run_effects; rewrite Hprice; simpl; rewrite Hproduct; simpl;
      f_equal; same_world. }
  destruct (truthyZ_opt (promo_expires_at p)); simpl in *.
  - unfold bind at 1. unfold bind at 1. unfold now at 1. simpl. rewrite Hexpired.
    unfold ret at 1. cbv iota. unfold bind at 1. unfold try_catch at 1.
    unfold bind at 1. unfold stripe_call at 1. rewrite Hcoupon. unfold ret at 1.
    cbv iota. rewrite Hchecks. simpl. f_equal. same_world.
  - unfold bind at 1. unfold ret at 1. cbv iota. unfold bind at 1. unfold try_catch at 1.
    unfold bind at 1. unfold stripe_call at 1. rewrite Hcoupon. unfold ret at 1.
    cbv iota. rewrite Hchecks. simpl. f_equal. same_world.
Qed.

Lemma price_rejection_needs_product_witness :
  let cfg := {| stripe := Some (Faults.inject Samples.products_fail
                                  (Fixtures.checkout_client Samples.yearly_only_coupon)) |} in
  CheckoutSpec.status_of
    (fst (POST cfg Fixtures.checkout_request Fixtures.clock (initial Redis.empty)))
  = Some 500.
Proof.
  intros cfg. subst cfg.
  rewrite (price_rejection_needs_product
             {| stripe := Some (Faults.inject Samples.products_fail
                                  (Fixtures.checkout_client Samples.yearly_only_coupon)) |}
             Fixtures.checkout_request
             (Faults.inject Samples.products_fail
                (Fixtures.checkout_client Samples.yearly_only_coupon))
             "price_std" "ada@example.com" "SAVE5" {| cus_id := "cus_1" |}
             Fixtures.standard_price Fixtures.promo [] Samples.yearly_only_coupon
             Faults.unreachable Fixtures.clock (initial Redis.empty)).
  - reflexivity.
  - repeat split; try reflexivity. left. exists []. reflexivity.
  - reflexivity.
  - reflexivity.
  - reflexivity.
  - reflexivity.
  - reflexivity.
  - reflexivity.
  - reflexivity.
Defined.

(** The loop over the allowed products collects no name when no product
    can be retrieved. *)
Lemma names_of_unreachable (api : Client) (ids : list string) :
  (∀ id, id ∈ ids → ∃ message, products_retrieve api id = Threw message) →
  names_of api ids = [].
Proof.
  induction ids as [|id ids IH]; intros Hfail; [reflexivity|].
  unfold names_of. simpl.
  destruct (Hfail id) as [message ->]; [left|]. simpl.
  apply IH. intros id' Hin. apply Hfail. by right.
Qed.

(** X22: a coupon restricted to products that do not include the
    requested one rejects with 400 even when none of the allowed products
    can be retrieved for the message: each failed lookup is skipped (one
    request per allowed product, in order) and the message falls back to
    ['This promo code is not valid for the selected plan.']. *)
Theorem product_rejection_survives_lookup_failures (cfg : Config) (request : Request)
    (api : Client) (priceId userId code : string) (customer : Customer) (price : Price)
    (p : PromotionCode) (rest : list PromotionCode) (coupon : Coupon)
    (c : Clock) (w : World) :
  validating cfg request api priceId userId code customer price →
  promotionCodes_list api code = Ok (p :: rest) →
  expired p (c (ticks w)) = false →
  coupons_retrieve api (promo_coupon p) = Ok coupon →
  product_excluded coupon (price_product price) = true →
  (∀ id, id ∈ restricted_products coupon →
         ∃ message, products_retrieve api id = Threw message) →
  POST cfg request c w
  = (Ok (json_status
           (error_body "This promo code is not valid for the selected plan.") 400),
     advance (if truthyZ_opt (promo_expires_at p) then 1 else 0)
       (customer_calls api userId
        ++ [PricesRetrieve priceId; PromotionCodesList code;
            CouponsRetrieve (promo_coupon p)]
        ++ map ProductsRetrieve (restricted_products coupon)) w).
Proof.
  intros Hval Hlist Hexpired Hcoupon Hproducts Hfail.
  rewrite (POST_validating _ _ _ _ _ _ _ _ c w Hval).
  destruct Hval as (_ & _ & _ & _ & Hcode & _ & Hprice).
  unfold try_catch at 1. unfold validate_then_create. simpl. rewrite Hcode.
  unfold bind at 1. unfold validate_promotion_code.
  unfold try_catch at 1. unfold bind at 1. unfold stripe_call at 1. rewrite Hlist.
  unfold expired in Hexpired.
  pose proof (names_of_unreachable api _ Hfail) as Hnames.
  assert (Hchecks : ∀ w',
            check_coupon api price priceId (price_product price) p coupon c w'
            = (Ok (inl (json_status
                          (error_body "This promo code is not valid for the selected plan.")
                          400)),
               advance 0 (map ProductsRetrieve (restricted_products coupon)) w')).
  { intros w'. unfold check_coupon.
    unfold product_excluded in Hproducts. unfold restricted_products in *.
    destruct (applies_to coupon) as [a|]; [|discriminate].
    unfold bind at 1. unfold bind at 1. rewrite check_product_restrictions_run.
    destruct (products a) as [[|first others]|]; simpl in Hproducts; try discriminate.
    apply negb_true_iff in Hproducts. rewrite Hproducts.
    change (names_of api (first :: others) = []) in Hnames.
    cbv zeta. rewrite Hnames. reflexivity. }
  destruct (truthyZ_opt (promo_expires_at p)); simpl in *.
  - unfold bind at 1. unfold bind at 1. unfold now at 1. simpl. rewrite Hexpired.
    unfold ret at 1. cbv iota. unfold bind at 1. unfold try_catch at 1.
    unfold bind at 1. unfold stripe_call at 1. rewrite Hcoupon. unfold ret at 1.
    cbv iota. rewrite Hchecks. simpl. f_equal. same_world.
  - unfold bind at 1. unfold ret at 1. cbv iota. unfold bind at 1. unfold try_catch at 1.
    unfold bind at 1. unfold stripe_call at 1. rewrite Hcoupon. unfold ret at 1.
    cbv iota. rewrite Hchecks. simpl. f_equal. same_world.
Qed.

Lemma product_rejection_survives_lookup_failures_witness :
  let cfg := {| stripe := Some (Faults.inject Samples.products_fail
                                  (Fixtures.checkout_client Fixtures.other_product_coupon)) |} in
  POST cfg Fixtures.checkout_request Fixtures.clock (initial Redis.empty)
  = (Ok (json_status
           (error_body "This promo code is not valid for the selected plan.") 400),
     advance 0 [CustomersList "ada@example.com"; PricesRetrieve "price_std";
                PromotionCodesList "SAVE5"; CouponsRetrieve "co_1";
                ProductsRetrieve "prod_other"] (initial Redis.empty)).
Proof.
  apply (product_rejection_survives_lookup_failures
           {| stripe := Some (Faults.inject Samples.products_fail
                                (Fixtures.checkout_client Fixtures.other_product_coupon)) |}
           Fixtures.checkout_request
           (Faults.inject Samples.products_fail
              (Fixtures.checkout_client Fixtures.other_product_coupon))
           "price_std" "ada@example.com" "SAVE5" {| cus_id := "cus_1" |}
           Fixtures.standard_price Fixtures.promo [] Fixtures.other_product_coupon
           Fixtures.clock (initial Redis.empty)).
  - repeat split; try reflexivity. left. exists []. reflexivity.
  - reflexivity.
  - reflexivity.
  - reflexivity.
  - reflexivity.
  - intros id _. exists Faults.unreachable. reflexivity.
Defined.

(** X23: for a promotion code that passes every check and whose coupon
    has a nonzero [amount_off], the discount of the answer is that
    amount, whatever [percent_off] the coupon also carries, and the final
    amount is the original amount minus the discount, without a floor at
    zero. *)
Theorem fixed_amount_discount_applied (cfg : Config) (request : Request) (api : Client)
    (priceId userId code : string) (customer : Customer) (price : Price)
    (product : Product) (setupIntent : SetupIntent) (i : Inputs) (a : Z)
    (c : Clock) (w : World) :
  validating cfg request api priceId userId code customer price →
  products_retrieve api (price_product price) = Ok product →
  resolves api code priceId price (c (ticks w)) i →
  first_failing i = None →
  (∀ params, setupIntents_create api params = Ok setupIntent) →
  amount_off (in_coupon i) = Some a →
  a ≠ 0 →
  let out := POST cfg request c w in
  status_of (fst out) = Some 200
  ∧ answer "discountAmount" (fst out) = Some (JNum a)
  ∧ answer "originalAmount" (fst out) = Some (JNum (unit_amount_or_0 price))
  ∧ answer "finalAmount" (fst out) = Some (JNum (unit_amount_or_0 price - a)).
Proof.
  intros Hval Hproduct Hres Hnone Hcreate Hamount Ha out.
  destruct (POST_accepts _ _ _ _ _ _ _ _ _ _ _ c w Hval Hproduct Hres Hnone Hcreate)
    as (n & p & _ & Hrun).
  subst out. rewrite Hrun. simpl.
  destruct Hres as (_ & _ & _ & -> & _).
  assert (calculateDiscountAmount (in_api i) price (in_coupon i) = a) as ->.
  { unfold calculateDiscountAmount. rewrite Hamount. simpl.
    unfold truthyZ. destruct (Z.eqb_spec a 0); [contradiction | reflexivity]. }
  repeat split; reflexivity.
Qed.

Lemma fixed_amount_discount_applied_witness :
  answer "finalAmount"
    (fst (POST (Fixtures.checkout_config Samples.both_discounts_coupon)
            Fixtures.checkout_request Fixtures.clock (initial Redis.empty)))
  = Some (JNum 1000).
Proof.
  pose proof (fixed_amount_discount_applied
           (Fixtures.checkout_config Samples.both_discounts_coupon)
           Fixtures.checkout_request
           (Fixtures.checkout_client Samples.both_discounts_coupon)
           "price_std" "ada@example.com" "SAVE5" {| cus_id := "cus_1" |}
           Fixtures.standard_price Fixtures.standard_product Fixtures.succeeded_setup
           (Fixtures.checkout_inputs Samples.both_discounts_coupon) 500
           Fixtures.clock (initial Redis.empty)
           (sample_validating _) eq_refl (sample_resolves _) eq_refl (λ _, eq_refl)
           eq_refl) as H.
  apply H. discriminate.
Defined.

End CheckoutFaults.


(* ===================================================================== *)
(** ** Further properties of the finalization route                       *)
(* ===================================================================== *)

Section FinalizationGuards.
Import JS Stripe Eff CreateSubscription FinalizeSpec Observe.

Local Arguments String.append : simpl never.

(** X24: a request without a signed-in user is answered 401 before
    anything else is looked at: whether or not Stripe is configured and
    whatever the body, nothing is sent to Stripe or to the store. *)
Theorem unauthenticated_rejected_first (cfg : Config) (request : Request)
    (c : Clock) (w : World) :
  truthy_opt (token_sub request) = false →
  POST cfg request c w = (Ok (json_status (error_body "Unauthorized") 401), w).
Proof.
  intros Htoken. unfold POST, try_catch. rewrite Htoken. reflexivity.
Qed.

Lemma unauthenticated_rejected_first_witness :
  POST {| stripe := None |}
    {| token_sub := None; request_json := Threw "Unexpected end of JSON input" |}
    Fixtures.clock (initial (Fixtures.store_with_status "active"))
  = (Ok (json_status (error_body "Unauthorized") 401),
     initial (Fixtures.store_with_status "active")).
Proof.
  apply (unauthenticated_rejected_first {| stripe := None |}
           {| token_sub := None; request_json := Threw "Unexpected end of JSON input" |}
           Fixtures.clock (initial (Fixtures.store_with_status "active"))).
  reflexivity.
Defined.

(** X25: for a signed-in user on a configured route, a body that lacks
    the setup intent id or the price id is answered 400 ['Missing
    required parameters'], and a body that cannot be parsed is answered
    500 with the parser's own message; neither sends anything to Stripe
    or to the store. *)
Theorem unusable_body_rejected (cfg : Config) (request : Request) (api : Client)
    (c : Clock) (w : World) :
  truthy_opt (token_sub request) = true →
  stripe cfg = Some api →
  match request_json request with
  | Ok b => truthy_opt (setupIntentId b) && truthy_opt (priceId b) = false
  | Threw _ => True
  end →
  POST cfg request c w
  = (Ok (match request_json request with
         | Ok _ => json_status (error_body "Missing required parameters") 400
         | Threw message => json_status (error_body message) 500
         end),
     w).
Proof.
  intros Htoken Hapi Hbody. unfold POST, try_catch. rewrite Htoken, Hapi. simpl.
  destruct (request_json request) as [b|message]; [|reflexivity].
  destruct (truthy_opt (setupIntentId b)); simpl in *; [|reflexivity].
  rewrite Hbody. reflexivity.
Qed.

Lemma unusable_body_rejected_witness :
  POST (Fixtures.finalize_config "Standard")
    {| token_sub := Some "user_42";
       request_json := Ok {| setupIntentId := Some "seti_1"; priceId := Some "";
                             promoCodeInfo := None; promotionCode := None |} |}
    Fixtures.clock (initial (Fixtures.store_with_status "active"))
  = (Ok (json_status (error_body "Missing required parameters") 400),
     initial (Fixtures.store_with_status "active")).
Proof.
  apply (unusable_body_rejected (Fixtures.finalize_config "Standard")
           {| token_sub := Some "user_42";
              request_json := Ok {| setupIntentId := Some "seti_1"; priceId := Some "";
                                    promoCodeInfo := None; promotionCode := None |} |}
           (Fixtures.finalize_client "Standard")
           Fixtures.clock (initial (Fixtures.store_with_status "active")));
    reflexivity.
Defined.

(** X26: whatever the request and whatever Stripe answers, the route
    changes no entry of the store other than the subscription record and
    the credit record of the signed-in user. *)
Theorem finalization_confined (cfg : Config) (request : Request) (k : string)
    (c : Clock) (w : World) :
  k ≠ Redis.USER_SUBSCRIPTION (or_empty (token_sub request)) →
  k ≠ Redis.USER_CREDITS (or_empty (token_sub request)) →
  let s' := store (snd (POST cfg request c w)) in
  Redis.hashes s' !! k = Redis.hashes (store w) !! k
  ∧ Redis.strs s' !! k = Redis.strs (store w) !! k.
Proof.
  intros Hsub Hcredits s'. subst s'.
  unfold POST, record_subscription, discounts_for, on_error.
  run_effects.
  repeat (branch; simpl in * );
    rewrite ?lookup_insert_ne, ?lookup_delete_ne by congruence;
    rewrite ?lookup_insert_ne, ?lookup_delete_ne by congruence;
    rewrite ?lookup_insert_ne, ?lookup_delete_ne by congruence;
    split; reflexivity.
Qed.

Lemma finalization_confined_witness :
  let s' := store (snd (POST (Fixtures.finalize_config "Standard")
                          (Fixtures.finalize_request "seti_1") Fixtures.clock
                          (initial (Fixtures.store_with_status "active")))) in
  Redis.hashes s' !! "user:user_7:credits"
  = Redis.hashes (Fixtures.store_with_status "active") !! "user:user_7:credits"
  ∧ Redis.strs s' !! "user:user_7:credits"
    = Redis.strs (Fixtures.store_with_status "active") !! "user:user_7:credits".
Proof.
  apply (finalization_confined (Fixtures.finalize_config "Standard")
           (Fixtures.finalize_request "seti_1") "user:user_7:credits" Fixtures.clock
           (initial (Fixtures.store_with_status "active")));
    discriminate.
Defined.

End FinalizationGuards.


Section FinalizationPaths.
Import JS Stripe Eff CreateSubscription FinalizeSpec Observe.

Local Arguments String_of_Z : simpl never.
Local Arguments String.append : simpl never.
Local Arguments Redis.USER_SUBSCRIPTION : simpl never.
Local Arguments Redis.USER_CREDITS : simpl never.
Local Arguments credits_for : simpl never.

(** X27: the promotion code of [promoCodeInfo] is resolved at Stripe and
    the subscription is created with the coupon of the first code listed;
    when Stripe lists none, the subscription is created without discount,
    and yet the stored record says [promoCodeApplied = 'true'] and the
    answer says [promoCodeApplied: true]: both follow the presence of
    [promoCodeInfo], not the discount. *)
Theorem promo_marked_applied_without_discount (cfg : Config) (request : Request)
    (api : Client) (userId id priceId : string) (info : PromoCodeInfo)
    (setupIntent : SetupIntent) (subscription : Subscription)
    (price : Price) (product : Product) (c : Clock) (w : World) :
  finalizing cfg request api userId id priceId (Some info) setupIntent →
  ready setupIntent = true →
  truthy_opt (pci_promotionCode info) = true →
  promotionCodes_list api (or_empty (pci_promotionCode info)) = Ok [] →
  subscriptions_create api (subscription_params setupIntent priceId None) = Ok subscription →
  prices_retrieve api priceId = Ok price →
  products_retrieve api (price_product price) = Ok product →
  let out := POST cfg request c w in
  answer "promoCodeApplied" (fst out) = Some (JBool true)
  ∧ Redis.field (Redis.USER_SUBSCRIPTION userId) "promoCodeApplied" (store (snd out))
    = Some "true"
  ∧ stripe_calls (snd out)
    = (stripe_calls w
       ++ [SetupIntentsRetrieve id;
           PromotionCodesList (or_empty (pci_promotionCode info));
           SubscriptionsCreate (subscription_params setupIntent priceId None);
           PricesRetrieve priceId;
           ProductsRetrieve (price_product price)])%list.
Proof.
  intros (Htoken & Huser & Hapi & Hid & Hprice & (code & Hbody) & Hsetup) Hready
    Hcode Hlist Hcreate Hretrieve Hproduct out.
  assert (Hrun : ∃ w',
    out = (Ok (json (JObj [("success", JBool true);
                           ("subscriptionId", JStr (sub_id subscription));
                           ("status", JStr (sub_status subscription));
                           ("promoCodeApplied", JBool true)])), w')
    ∧ Redis.field (Redis.USER_SUBSCRIPTION userId) "promoCodeApplied" (store w')
      = Some "true"
    ∧ stripe_calls w'
      = (stripe_calls w
         ++ [SetupIntentsRetrieve id;
             PromotionCodesList (or_empty (pci_promotionCode info));
             SubscriptionsCreate (subscription_params setupIntent priceId None);
             PricesRetrieve priceId;
             ProductsRetrieve (price_product price)])%list).
  { subst out. unfold POST. rewrite Htoken, Hapi, Hbody. simpl.
    rewrite Huser, Hid, Hprice. simpl.
    unfold ready in Hready. apply andb_prop in Hready as [Hstatus Hmethod].
    unfold subscription_params in Hcreate.
    unfold discounts_for, record_subscription. rewrite Hcode.
    run_effects. rewrite Hsetup. simpl. rewrite Hstatus, Hmethod. simpl.
    rewrite Hlist. simpl. rewrite Hcreate. simpl.
    rewrite Hretrieve. simpl. rewrite Hproduct. simpl.
    rewrite credits_for_positive. simpl.
    pose proof (subscription_key_not_credits userId) as Hkeys.
    destruct (Redis.hgetall (Redis.USER_SUBSCRIPTION userId) (store w)) as [existing|];
      [destruct (bool_decide (0 < size existing)%nat)|]; simpl;
      (eexists; split; [reflexivity|]; simpl; split;
       [rewrite field_hset_other by (intros E; apply Hkeys; symmetry; exact E);
        apply field_hset_written; vm_compute; reflexivity
       |rewrite <- !app_assoc; reflexivity]). }
  destruct Hrun as (w' & -> & Hfield & Hcalls).
  split; [reflexivity|]. split; assumption.
Qed.

Lemma promo_marked_applied_without_discount_witness :
  answer "promoCodeApplied"
    (fst (POST (Fixtures.finalize_config "Standard") (Samples.promo_request "GONE")
            Fixtures.clock (initial Fixtures.store_without_subscription)))
  = Some (JBool true).
Proof.
  pose proof (promo_marked_applied_without_discount
           (Fixtures.finalize_config "Standard") (Samples.promo_request "GONE")
           (Fixtures.finalize_client "Standard") "user_42" "seti_1" "price_std"
           {| pci_promotionCode := Some "GONE"; pci_discountValue := Some "5";
              pci_discountType := Some "amount" |}
           Fixtures.succeeded_setup (Fixtures.subscription "cus_1" "active")
           Fixtures.standard_price {| prod_id := "prod_std"; prod_name := "Standard" |}
           Fixtures.clock (initial Fixtures.store_without_subscription)) as H.
  apply H; try reflexivity.
  repeat split; try reflexivity. exists None. reflexivity.
Defined.

(** X28: when Stripe lists the promotion code of [promoCodeInfo], the
    subscription is requested for the customer and the payment method of
    the setup intent, with one discount: the coupon of the first code
    listed. *)
Theorem first_coupon_attached (cfg : Config) (request : Request)
    (api : Client) (userId id priceId : string) (info : PromoCodeInfo)
    (setupIntent : SetupIntent) (p : PromotionCode) (rest : list PromotionCode)
    (c : Clock) (w : World) :
  finalizing cfg request api userId id priceId (Some info) setupIntent →
  ready setupIntent = true →
  truthy_opt (pci_promotionCode info) = true →
  promotionCodes_list api (or_empty (pci_promotionCode info)) = Ok (p :: rest) →
  ∃ later,
    stripe_calls (snd (POST cfg request c w))
    = (stripe_calls w
       ++ [SetupIntentsRetrieve id;
           PromotionCodesList (or_empty (pci_promotionCode info));
           SubscriptionsCreate
             {| scp_customer := si_customer setupIntent;
                scp_items := [priceId];
                scp_default_payment_method := or_empty (si_payment_method setupIntent);
                scp_expand := ["latest_invoice.payment_intent"];
                scp_discounts := Some [promo_coupon p] |}]
       ++ later)%list.
Proof.
  intros (Htoken & Huser & Hapi & Hid & Hprice & (code & Hbody) & Hsetup) Hready
    Hcode Hlist.
  unfold POST. rewrite Htoken, Hapi, Hbody. simpl.
  rewrite Huser, Hid, Hprice. simpl.
  unfold ready in Hready. apply andb_prop in Hready as [Hstatus Hmethod].
  unfold discounts_for, record_subscription, on_error. rewrite Hcode.
  run_effects. rewrite Hsetup. simpl. rewrite Hstatus, Hmethod. simpl.
  rewrite Hlist. simpl.
  repeat (branch; simpl in * ); eexists; rewrite <- !app_assoc; simpl;
    do 4 f_equal; try reflexivity; symmetry; apply app_nil_r.
Qed.

Lemma first_coupon_attached_witness :
  ∃ later,
    stripe_calls
      (snd (POST {| stripe := Some Samples.promo_client |} (Samples.promo_request "SAVE5")
              Fixtures.clock (initial Fixtures.store_without_subscription)))
    = ([SetupIntentsRetrieve "seti_1"; PromotionCodesList "SAVE5";
        SubscriptionsCreate
          {| scp_customer := Some "cus_1"; scp_items := ["price_std"];
             scp_default_payment_method := "pm_1";
             scp_expand := ["latest_invoice.payment_intent"];
             scp_discounts := Some ["co_1"] |}]
       ++ later)%list.
Proof.
  apply (first_coupon_attached
           {| stripe := Some Samples.promo_client |} (Samples.promo_request "SAVE5")
           Samples.promo_client "user_42" "seti_1" "price_std"
           {| pci_promotionCode := Some "SAVE5"; pci_discountValue := Some "5";
              pci_discountType := Some "amount" |}
           Fixtures.succeeded_setup Fixtures.promo []
           Fixtures.clock (initial Fixtures.store_without_subscription));
    try reflexivity.
  repeat split; try reflexivity. exists None. reflexivity.
Defined.

(** X29: when Stripe fails before the subscription exists (the lookup of
    the promotion code or the creation of the subscription throws), the
    route answers 500 with Stripe's message and the store is neither read
    nor written. *)
Theorem creation_failure_leaves_store (cfg : Config) (request : Request)
    (api : Client) (userId id priceId : string) (info : option PromoCodeInfo)
    (setupIntent : SetupIntent) (message : string) (c : Clock) (w : World) :
  finalizing cfg request api userId id priceId info setupIntent →
  ready setupIntent = true →
  discounts_of api info = Threw message
  ∨ (∃ discounts,
       discounts_of api info = Ok discounts
       ∧ subscriptions_create api (subscription_params setupIntent priceId discounts)
         = Threw message) →
  let out := POST cfg request c w in
  fst out = Ok (json_status (error_body message) 500)
  ∧ store (snd out) = store w
  ∧ redis_calls (snd out) = redis_calls w.
Proof.
  intros (Htoken & Huser & Hapi & Hid & Hprice & (code & Hbody) & Hsetup) Hready
    Hfail out. subst out.
  unfold POST. rewrite Htoken, Hapi, Hbody. simpl.
  rewrite Huser, Hid, Hprice. simpl.
  unfold ready in Hready. apply andb_prop in Hready as [Hstatus Hmethod].
  unfold discounts_of, subscription_params in Hfail.
  unfold discounts_for, on_error.
  run_effects. rewrite Hsetup. simpl. rewrite Hstatus, Hmethod. simpl.
  destruct info as [info|]; [destruct (truthy_opt (pci_promotionCode info))|]; simpl.
  - destruct (promotionCodes_list api (or_empty (pci_promotionCode info)))
      as [[|p rest]|e]; simpl;
      destruct Hfail as [Hfail | (discounts & Hdiscounts & Hcreate)];
      try discriminate.
    + injection Hdiscounts as <-. rewrite Hcreate. repeat split.
    + injection Hdiscounts as <-. rewrite Hcreate. repeat split.
    + injection Hfail as ->. repeat split.
  - destruct Hfail as [Hfail | (discounts & Hdiscounts & Hcreate)]; [discriminate|].
    injection Hdiscounts as <-. rewrite Hcreate. repeat split.
  - destruct Hfail as [Hfail | (discounts & Hdiscounts & Hcreate)]; [discriminate|].
    injection Hdiscounts as <-. rewrite Hcreate. repeat split.
Qed.

Lemma creation_failure_leaves_store_witness :
  let cfg := {| stripe := Some (Faults.inject Samples.create_fails
                                  (Fixtures.finalize_client "Standard")) |} in
  store (snd (POST cfg (Fixtures.finalize_request "seti_1") Fixtures.clock
                (initial (Fixtures.store_with_status "trialing"))))
  = Fixtures.store_with_status "trialing".
Proof.
  pose proof (creation_failure_leaves_store
           {| stripe := Some (Faults.inject Samples.create_fails
                                (Fixtures.finalize_client "Standard")) |}
           (Fixtures.finalize_request "seti_1")
           (Faults.inject Samples.create_fails (Fixtures.finalize_client "Standard"))
           "user_42" "seti_1" "price_std" None Fixtures.succeeded_setup
           Faults.unreachable Fixtures.clock
           (initial (Fixtures.store_with_status "trialing"))) as H.
  apply H.
  - repeat split; try reflexivity. exists None. reflexivity.
  - reflexivity.
  - right. exists None. split; reflexivity.
Defined.



End FinalizationPaths.
